(** * Component instantiation engine: [bisheng/interface/initialize/loading.py]

    A shallow embedding of the builder strategies of [loading.py] and the
    properties of the specification that concern them.

    Python values are a tagged union, a text is held as its UTF-8 bytes,
    dictionaries are insertion-ordered association lists, exceptions are
    a result type, and everything the
    module imports from elsewhere (the JSON decoder, class constructors and
    methods, the settings store, the knowledge directory, ...) is a field of
    the record [externals], over which every theorem quantifies. *)

From Stdlib Require Import String Ascii List ZArith Bool Lia Permutation.
Import ListNotations.
Local Open Scope string_scope.
Local Open Scope list_scope.
Local Set Warnings "-register-all".

(* ================================================================== *)
(** * Part I: the model                                                 *)
(* ================================================================== *)

(** ** Values *)

(** [VObj id attrs] is an object the module does not look inside except by
    attribute name: [id] is its identity (two references to the same object
    carry the same [id]), [attrs] its attribute table.  [VFun name env] is
    a function value the module itself creates or names (a lambda with its
    captured variables, the builtin [str]). *)
Inductive value : Type :=
| VNone
| VBool (b : bool)
| VInt (z : Z)
| VStr (s : string)
| VList (l : list value)
| VTuple (l : list value)
| VSet (l : list value)
| VDict (d : list (value * value))
| VObj (id : nat) (attrs : list (value * value))
| VFun (name : string) (env : list value).

Coercion VStr : string >-> value.

Definition dict : Type := list (value * value).

(** Python's [==] on the values above ([True == 1], lists and tuples by
    position, sets and dictionaries regardless of order, objects by
    identity). *)
Fixpoint py_eqb (a b : value) {struct a} : bool :=
  match a, b with
  | VNone, VNone => true
  | VBool x, VBool y => Bool.eqb x y
  | VBool x, VInt z => Z.eqb z (if x then 1 else 0)
  | VInt z, VBool x => Z.eqb z (if x then 1 else 0)
  | VInt x, VInt y => Z.eqb x y
  | VStr s, VStr t => String.eqb s t
  | VList l, VList m
  | VTuple l, VTuple m =>
      (fix go (l m : list value) {struct l} : bool :=
         match l, m with
         | [], [] => true
         | x :: l', y :: m' => py_eqb x y && go l' m'
         | _, _ => false
         end) l m
  | VSet l, VSet m =>
      Nat.eqb (length l) (length m) &&
      (fix sub (l : list value) : bool :=
         match l with
         | [] => true
         | x :: l' => existsb (py_eqb x) m && sub l'
         end) l
  | VDict d, VDict e =>
      Nat.eqb (length d) (length e) &&
      (fix sub (d : list (value * value)) : bool :=
         match d with
         | [] => true
         | (k, v) :: d' =>
             (fix find (e : list (value * value)) : bool :=
                match e with
                | [] => false
                | (k', v') :: e' => if py_eqb k k' then py_eqb v v' else find e'
                end) e && sub d'
         end) d
  | VObj i _, VObj j _ => Nat.eqb i j
  | VFun n c, VFun n' c' =>
      String.eqb n n' &&
      (fix go (l m : list value) {struct l} : bool :=
         match l, m with
         | [], [] => true
         | x :: l', y :: m' => py_eqb x y && go l' m'
         | _, _ => false
         end) c c'
  | _, _ => false
  end.

(** Whether a value can be a dictionary key or a set element. *)
Fixpoint hashable (v : value) : bool :=
  match v with
  | VNone | VBool _ | VInt _ | VStr _ | VObj _ _ | VFun _ _ => true
  | VTuple l => forallb hashable l
  | VList _ | VSet _ | VDict _ => false
  end.

(** Truth value of a value in a condition ([if v:], [not v], [a or b]).
    Objects are true: no class of the module's collaborators overrides
    [__bool__] or [__len__] on what reaches these tests. *)
Definition truthy (v : value) : bool :=
  match v with
  | VNone => false
  | VBool b => b
  | VInt z => negb (Z.eqb z 0)
  | VStr s => negb (String.eqb s EmptyString)
  | VList l | VTuple l | VSet l => negb (Nat.eqb (length l) 0)
  | VDict d => negb (Nat.eqb (length d) 0)
  | VObj _ _ | VFun _ _ => true
  end.

Definition is_str (v : value) : bool :=
  match v with VStr _ => true | _ => false end.

Definition is_list (v : value) : bool :=
  match v with VList _ => true | _ => false end.

(** ** Exceptions *)

Record exn : Type := mkExn { exn_class : string; exn_msg : string }.

Inductive result (A : Type) : Type :=
| Ok (a : A)
| Raise (e : exn).
Arguments Ok {A} a.
Arguments Raise {A} e.

Definition bind {A B : Type} (r : result A) (f : A -> result B) : result B :=
  match r with
  | Ok a => f a
  | Raise e => Raise e
  end.

Notation "x <- c ;; k" := (bind c (fun x => k))
  (at level 61, c at next level, right associativity).
Notation "' pat <- c ;; k" := (bind c (fun x => match x with pat => k end))
  (at level 61, pat pattern, c at next level, right associativity).

(** [try: r except <every Exception> as e: h e] *)
Definition catch {A : Type} (r : result A) (h : exn -> result A) : result A :=
  match r with
  | Ok a => Ok a
  | Raise e => h e
  end.

(** [try: r except cls as e: h e]: only exceptions of class [cls] are caught. *)
Definition catch_class {A : Type} (cls : string) (r : result A)
  (h : exn -> result A) : result A :=
  match r with
  | Ok a => Ok a
  | Raise e => if String.eqb (exn_class e) cls then h e else Raise e
  end.

Definition KeyError (k : string) : exn := mkExn "KeyError" k.
Definition IndexError : exn := mkExn "IndexError" "index out of range".
Definition TypeError (m : string) : exn := mkExn "TypeError" m.
Definition ValueError (m : string) : exn := mkExn "ValueError" m.
Definition AttributeError (m : string) : exn := mkExn "AttributeError" m.
Definition PlainException (m : string) : exn := mkExn "Exception" m.

Definition is_ok {A : Type} (r : result A) : bool :=
  match r with Ok _ => true | Raise _ => false end.

(** ** Strings *)

(** The double-quote character, as a text. *)
Definition dquote : string := String (Ascii.ascii_of_nat 34) EmptyString.

(** [sub in s] *)
Fixpoint str_contains (sub s : string) : bool :=
  String.prefix sub s ||
  match s with
  | EmptyString => false
  | String _ s' => str_contains sub s'
  end.

(** [s.split(c)] for a one-character separator. *)
Fixpoint str_split (c : ascii) (s : string) : list string :=
  match s with
  | EmptyString => [EmptyString]
  | String a s' =>
      if Ascii.eqb a c then EmptyString :: str_split c s'
      else match str_split c s' with
           | [] => [String a EmptyString]
           | w :: ws => String a w :: ws
           end
  end.

(** [s.replace(' ', '_')] *)
Fixpoint str_replace_space (s : string) : string :=
  match s with
  | EmptyString => EmptyString
  | String a s' =>
      String (if Ascii.eqb a " "%char then "_"%char else a) (str_replace_space s')
  end.

(** [s.lower()] on the ASCII letters. *)
Fixpoint str_lower (s : string) : string :=
  match s with
  | EmptyString => EmptyString
  | String a s' =>
      let n := Ascii.nat_of_ascii a in
      String (if (65 <=? n)%nat && (n <=? 90)%nat
              then Ascii.ascii_of_nat (n + 32) else a) (str_lower s')
  end.

Definition is_digit (a : ascii) : bool :=
  let n := Ascii.nat_of_ascii a in (48 <=? n)%nat && (n <=? 57)%nat.

(** Whether every byte of a text is an ASCII character. *)
Definition is_ascii (s : string) : bool :=
  forallb (fun a => (Ascii.nat_of_ascii a <? 128)%nat) (list_ascii_of_string s).

(** [s.isdigit()] for an ASCII text [s]. *)
Definition str_isdigit (s : string) : bool :=
  negb (String.eqb s EmptyString) && forallb is_digit (list_ascii_of_string s).

(** [int(s)] for a text [s] of ASCII decimal digits. *)
Definition int_of_digits (s : string) : Z :=
  fold_left (fun acc a => (10 * acc + Z.of_nat (Ascii.nat_of_ascii a - 48))%Z)
            (list_ascii_of_string s) 0%Z.

(** Whether a byte continues a UTF-8 sequence (binary [10xxxxxx]). *)
Definition is_continuation (a : ascii) : bool :=
  let n := Ascii.nat_of_ascii a in (128 <=? n)%nat && (n <? 192)%nat.

(** The characters of a text, each as the text of its own bytes: a byte
    joins the character that follows it when that one starts with a
    continuation byte. *)
Fixpoint code_points (l : list ascii) : list string :=
  match l with
  | [] => []
  | a :: l' =>
      match code_points l' with
      | String b p :: ps =>
          if is_continuation b then String a (String b p) :: ps
          else String a EmptyString :: String b p :: ps
      | ps => String a EmptyString :: ps
      end
  end.

(** The elements [for c in s] visits: the characters of the text. *)
Definition str_chars (s : string) : list value :=
  map VStr (code_points (list_ascii_of_string s)).

(** ** Dictionaries *)

Fixpoint dict_get (d : dict) (k : value) : option value :=
  match d with
  | [] => None
  | (k', v) :: r => if py_eqb k' k then Some v else dict_get r k
  end.

Definition dict_mem (d : dict) (k : value) : bool :=
  match dict_get d k with Some _ => true | None => false end.

(** [d[k] = v]: an existing key keeps its place, a new one goes last. *)
Fixpoint dict_set (d : dict) (k v : value) : dict :=
  match d with
  | [] => [(k, v)]
  | (k', v') :: r =>
      if py_eqb k' k then (k', v) :: r else (k', v') :: dict_set r k v
  end.

Fixpoint dict_del (d : dict) (k : value) : dict :=
  match d with
  | [] => []
  | (k', v') :: r =>
      if py_eqb k' k then dict_del r k else (k', v') :: dict_del r k
  end.

Definition dict_keys (d : dict) : list value := map fst d.

(** [d.get(k, dflt)] *)
Definition dict_get_default (d : dict) (k dflt : value) : value :=
  match dict_get d k with Some v => v | None => dflt end.

(** [d.pop(k, dflt)]: the value and the dictionary that is left. *)
Definition dict_pop_default (d : dict) (k dflt : value) : value * dict :=
  match dict_get d k with
  | Some v => (v, dict_del d k)
  | None => (dflt, d)
  end.

(** [d.pop(k)] *)
Definition dict_pop (d : dict) (k : string) : result (value * dict) :=
  match dict_get d k with
  | Some v => Ok (v, dict_del d k)
  | None => Raise (KeyError k)
  end.

(** [d[k]] for a string key. *)
Definition dict_item (d : dict) (k : string) : result value :=
  match dict_get d k with
  | Some v => Ok v
  | None => Raise (KeyError k)
  end.

(** [d.update(m)] *)
Definition dict_update (d m : dict) : dict :=
  fold_left (fun acc kv => dict_set acc (fst kv) (snd kv)) m d.

(** ** Sequences and sets *)

(** Keep the first of equal elements, as inserting into a set does. *)
Fixpoint dedup (l : list value) : list value :=
  match l with
  | [] => []
  | x :: r => x :: filter (fun y => negb (py_eqb x y)) (dedup r)
  end.

(** The elements [for x in v] visits, for the builtin containers; a set is
    represented by its elements in the order iteration visits them. *)
Definition py_iter (v : value) : result (list value) :=
  match v with
  | VList l | VTuple l | VSet l => Ok l
  | VStr s => Ok (str_chars s)
  | VDict d => Ok (dict_keys d)
  | _ => Raise (TypeError "object is not iterable")
  end.

(** [set(v)] *)
Definition py_set (v : value) : result value :=
  l <- py_iter v ;;
  if forallb hashable l then Ok (VSet (dedup l))
  else Raise (TypeError "unhashable type").

(** [v[i]] for a non-negative integer index [i]. *)
Definition py_index (v : value) (i : nat) : result value :=
  match v with
  | VList l | VTuple l =>
      match nth_error l i with
      | Some x => Ok x
      | None => Raise IndexError
      end
  | VStr s =>
      match nth_error (str_chars s) i with
      | Some x => Ok x
      | None => Raise IndexError
      end
  | VDict d =>
      match dict_get d (VInt (Z.of_nat i)) with
      | Some x => Ok x
      | None => Raise (KeyError "int")
      end
  | _ => Raise (TypeError "object is not subscriptable")
  end.

(** [v[k]] *)
Definition py_getitem (v k : value) : result value :=
  match v with
  | VDict d =>
      if hashable k then
        match dict_get d k with
        | Some x => Ok x
        | None => Raise (KeyError "key")
        end
      else Raise (TypeError "unhashable type")
  | VList _ | VTuple _ | VStr _ =>
      match k with
      | VInt z =>
          let n := length (match v with
                           | VList l | VTuple l => l
                           | VStr s => str_chars s
                           | _ => []
                           end) in
          if (0 <=? z)%Z then py_index v (Z.to_nat z)
          else if (Z.to_nat (- z) <=? n)%nat then py_index v (n - Z.to_nat (- z))
          else Raise IndexError
      | VBool b => py_index v (if b then 1 else 0)
      | _ => Raise (TypeError "indices must be integers")
      end
  | _ => Raise (TypeError "object is not subscriptable")
  end.

(** [k in v] *)
Definition py_in (k v : value) : result bool :=
  match v with
  | VDict d =>
      if hashable k then Ok (dict_mem d k)
      else Raise (TypeError "unhashable type")
  | VSet l =>
      if hashable k then Ok (existsb (py_eqb k) l)
      else Raise (TypeError "unhashable type")
  | VList l | VTuple l => Ok (existsb (py_eqb k) l)
  | VStr s =>
      match k with
      | VStr t => Ok (str_contains t s)
      | _ => Raise (TypeError "in <string> requires string as left operand")
      end
  | _ => Raise (TypeError "argument is not iterable")
  end.

(** ** Attributes *)

(** [getattr(v, name, None)] on objects; the builtin containers carry none
    of the attribute names the module asks for. *)
Definition py_getattr (v : value) (name : string) : option value :=
  match v with
  | VObj _ attrs => dict_get attrs name
  | _ => None
  end.

Definition hasattr (v : value) (name : string) : bool :=
  match py_getattr v name with Some _ => true | None => false end.

(** [v.name] *)
Definition attr (v : value) (name : string) : result value :=
  match py_getattr v name with
  | Some x => Ok x
  | None => Raise (AttributeError ("object has no attribute '" ++ name ++ "'"))
  end.

(** [v.name = x] *)
Definition setattr (v : value) (name : string) (x : value) : result value :=
  match v with
  | VObj id attrs => Ok (VObj id (dict_set attrs name x))
  | _ => Raise (AttributeError ("object has no attribute '" ++ name ++ "'"))
  end.

(** ** Collaborators *)

(** Everything [loading.py] imports and calls.  [invoke f args kwargs] is
    the call of a callable value [f] on positional and keyword arguments (a class, a bound
    method, a registered initializer); [ext name args kwargs] is the call of
    an imported function or class by its name ([httpx.Client],
    [AgentExecutor.from_agent_and_tools], [file_download], ...).
    [instance_of v cls] is [isinstance(v, cls)] for an imported class.
    [set_order] is the order in which iterating a freshly computed set
    visits its elements, which Python leaves unspecified.  The tables and
    constants are those of the sibling modules of the repository. *)
Record externals : Type := mkExternals {
  json_loads : string -> result value;
  invoke : value -> list value -> dict -> result value;
  ext : string -> list value -> dict -> result value;
  str_of : value -> string;
  set_order : list value -> list value;
  get_from_db : string -> value;
  instance_of : value -> string -> bool;
  is_openai_v1 : bool;
  NODE_ID_DICT : string;
  PRESET_QUESTION : string;
  CUSTOM_NODES : dict;
  agent_from_method_nodes : dict;
  chain_from_method_nodes : dict;
  wrapper_from_method_nodes : dict;
  output_parser_from_method_nodes : dict;
  retriever_from_method_nodes : dict;
  vecstore_initializer : dict
}.

Section Loading.

Variable E : externals.

(** [class_object] called on the keyword arguments [params]. *)
Definition construct (class_object : value) (params : dict) : result value :=
  invoke E class_object [] params.

(** The method call [obj.name] on positional and keyword arguments. *)
Definition call_method (obj : value) (name : string) (args : list value)
  (kwargs : dict) : result value :=
  f <- attr obj name ;;
  invoke E f args kwargs.

(** [str(v)] and the [{v}] of an f-string. *)
Definition py_str (v : value) : string :=
  match v with
  | VStr s => s
  | _ => str_of E v
  end.

(** [text.isdigit()]: decided on the bytes of an ASCII text; which other
    characters count as digits is the builtin's table. *)
Definition py_isdigit (text : string) : result bool :=
  if is_ascii text then Ok (str_isdigit text)
  else r <- ext E "str.isdigit" [VStr text] [] ;; Ok (truthy r).

(** [int(v)]: computed for a text of ASCII digits, the builtin's
    otherwise. *)
Definition py_int (v : value) : result value :=
  match v with
  | VStr text =>
      if is_ascii text && str_isdigit text then Ok (VInt (int_of_digits text))
      else ext E "int" [v] []
  | _ => ext E "int" [v] []
  end.

(** [d.get(key)] and [d.get(key, dflt)] *)
Definition py_get (d : value) (key : string) (dflt : option value)
  : result value :=
  match d with
  | VDict items =>
      Ok (dict_get_default items key
            (match dflt with Some x => x | None => VNone end))
  | _ =>
      call_method d "get"
        (VStr key :: match dflt with Some x => [x] | None => [] end) []
  end.

(** [set(d.keys())], as the list of its elements. *)
Definition py_key_set (d : value) : result (list value) :=
  match d with
  | VDict items => Ok (dedup (dict_keys items))
  | _ =>
      keys <- call_method d "keys" [] [] ;;
      s <- py_set keys ;;
      py_iter s
  end.

(** [json.loads(v)] *)
Definition py_json_loads (v : value) : result value :=
  match v with
  | VStr s => json_loads E s
  | _ => Raise (TypeError "the JSON object must be str, bytes or bytearray")
  end.

(** ** Parameter normalizer *)

(** [convert_params_to_sets] *)
Definition convert_params_to_sets (params : dict) : result dict :=
  params <- match dict_get params "allowed_special" with
            | Some v => s <- py_set v ;; Ok (dict_set params "allowed_special" s)
            | None => Ok params
            end ;;
  params <- match dict_get params "disallowed_special" with
            | Some v => s <- py_set v ;; Ok (dict_set params "disallowed_special" s)
            | None => Ok params
            end ;;
  Ok (if dict_mem params "input_node" then dict_del params "input_node"
      else params).

Definition is_kwargs_key (key : value) : bool :=
  match key with
  | VStr k => str_contains "kwargs" k || str_contains "config" k
  | _ => false
  end.

(** The loop of [convert_kwargs] over the selected keys. *)
Fixpoint convert_kwargs_loop (kwargs_keys : list value) (params : dict)
  : result dict :=
  match kwargs_keys with
  | [] => Ok params
  | key :: rest =>
      match dict_get params key with
      | Some (VStr s) =>
          v <- json_loads E s ;;
          convert_kwargs_loop rest (dict_set params key v)
      | _ => convert_kwargs_loop rest params
      end
  end.

(** [convert_kwargs] *)
Definition convert_kwargs (params : dict) : result dict :=
  convert_kwargs_loop (filter is_kwargs_key (dict_keys params)) params.

(** The two normalization calls that open [instantiate_class]. *)
Definition normalize (params : dict) : result dict :=
  params <- convert_params_to_sets params ;;
  convert_kwargs params.

(** ** Factory-method table *)

(** The block shared by the wrapper, output-parser, retriever and chain
    strategies:
    [if node_type in creator.from_method_nodes: ... raise ValueError(...)],
    followed by the default construction. *)
Definition from_method_or_construct (from_method_nodes : dict)
  (node_type : string) (class_object : value) (params : dict) : result value :=
  match dict_get from_method_nodes node_type with
  | Some method =>
      match method with
      | VStr m =>
          match py_getattr class_object m with
          | Some class_method =>
              if truthy class_method then invoke E class_method [] params
              else Raise (ValueError ("Method " ++ m ++ " not found in "
                                        ++ py_str class_object))
          | None => Raise (ValueError ("Method " ++ m ++ " not found in "
                                         ++ py_str class_object))
          end
      | _ => Raise (TypeError "attribute name must be string")
      end
  | None => construct class_object params
  end.

(** [a + b] where the module concatenates texts. *)
Definition py_add (a b : value) : result value :=
  match a, b with
  | VStr x, VStr y => Ok (VStr (x ++ y))
  | _, _ => Raise (TypeError "unsupported operand type(s) for +")
  end.

(** Wrap a store behind a retrieval adapter, as the chain strategy does:
    the permission-filtering adapter when the [file_access] setting is
    present, the store's own [as_retriever()] otherwise. *)
Definition chain_retriever (retriever user_name : value) : result value :=
  if truthy (get_from_db E "file_access") then
    access_url <- py_add (get_from_db E "file_access")
                         (VStr ("?username=" ++ py_str user_name)) ;;
    ext E "VectorStoreFilterRetriever" []
        [(VStr "vectorstore", retriever); (VStr "access_url", access_url)]
  else call_method retriever "as_retriever" [] [].

(** [{id: index for index, id in enumerate(ids)}], from index [index]. *)
Fixpoint enumerate_dict (ids : list value) (index : nat) (acc : dict)
  : result dict :=
  match ids with
  | [] => Ok acc
  | id :: rest =>
      if hashable id then
        enumerate_dict rest (S index) (dict_set acc id (VInt (Z.of_nat index)))
      else Raise (TypeError "unhashable type")
  end.

(** [d.get(k)] for a key computed at run time. *)
Definition dict_get_dyn (d : dict) (k : value) : result value :=
  if hashable k then Ok (dict_get_default d k VNone)
  else Raise (TypeError "unhashable type").

(** [[chains_origin[chains_dict.get(id)] for id in chain_order]] *)
Fixpoint reorder_chains (chains_origin : value) (chains_dict : dict)
  (chain_order : list value) : result (list value) :=
  match chain_order with
  | [] => Ok []
  | id :: rest =>
      index <- dict_get_dyn chains_dict id ;;
      c <- py_getitem chains_origin index ;;
      cs <- reorder_chains chains_origin chains_dict rest ;;
      Ok (c :: cs)
  end.

(** The [SequentialChain] block of [instantiate_chains]. *)
Definition sequential_chain_params (params : dict) (id_dict : value)
  : result dict :=
  let params := snd (dict_pop_default params "input_node" (VStr EmptyString)) in
  ' (chain_order, params) <-
      catch ( ' (text, params) <- dict_pop params "chain_order" ;;
              chain_order <- py_json_loads text ;;
              Ok (chain_order, params))
            (fun _ => Raise (PlainException "chain_order 不是标准数组")) ;;
  let chains_origin := dict_get_default params "chains" VNone in
  chains_idlist <- py_get id_dict "chains" None ;;
  ids <- py_iter chains_idlist ;;
  chains_dict <- enumerate_dict ids 0 [] ;;
  order <- py_iter chain_order ;;
  chains <- reorder_chains chains_origin chains_dict order ;;
  Ok (dict_set params "chains" (VList chains)).

(** The loop that pairs route names with candidate sub-chains. *)
Fixpoint destination_chains (names : list value) (llm_chains : value)
  (i : nat) (acc : dict) : result dict :=
  match names with
  | [] => Ok acc
  | name :: rest =>
      c <- py_index llm_chains i ;;
      if hashable name then
        destination_chains rest llm_chains (S i) (dict_set acc name c)
      else Raise (TypeError "unhashable type")
  end.

(** [instantiate_chains] *)
Definition instantiate_chains (node_type : string) (class_object : value)
  (params : dict) (id_dict : value) : result value :=
  params <-
    (match dict_get params "retriever" with
     | Some _ =>
         let '(user_name, params) := dict_pop_default params "user_name" (VStr EmptyString) in
         retriever <- dict_item params "retriever" ;;
         if hasattr retriever "as_retriever" then
           vectorstore <- chain_retriever retriever user_name ;;
           Ok (dict_set params "retriever" vectorstore)
         else Ok params
     | None => Ok params
     end) ;;
  params <-
    (if String.eqb node_type "SequentialChain"
     then sequential_chain_params params id_dict
     else Ok params) ;;
  params <-
    (match dict_get params "headers" with
     | Some (VStr text) =>
         headers <- json_loads E text ;;
         Ok (dict_set params "headers" headers)
     | _ => Ok params
     end) ;;
  let params :=
    if String.eqb node_type "ConversationalRetrievalChain" then
      let params := dict_set params "get_chat_history" (VFun "str" []) in
      let '(prompt, params) :=
        dict_pop_default params "combine_docs_chain_kwargs" VNone in
      let '(document_prompt, params) :=
        dict_pop_default params "document_prompt" VNone in
      let kwargs := [(VStr "prompt", prompt);
                     (VStr "document_prompt", document_prompt)] in
      dict_set params "combine_docs_chain_kwargs"
        (VDict (filter (fun kv => match snd kv with VNone => false | _ => true end)
                       kwargs))
    else params in
  params <-
    (if String.eqb node_type "MultiPromptChain"
        || String.eqb node_type "MultiRuleChain" then
       destination_chain_name <- dict_item params "destination_chain_name" ;;
       llm_chains <- dict_item params "LLMChains" ;;
       names <- match destination_chain_name with
                | VDict d => Ok (map snd d)
                | _ => Raise (AttributeError "object has no attribute 'items'")
                end ;;
       destination_chain <- destination_chains names llm_chains 0 [] ;;
       let params := dict_del params "LLMChains" in
       let params := dict_del params "destination_chain_name" in
       Ok (dict_set params "destination_chains" (VDict destination_chain))
     else Ok params) ;;
  from_method_or_construct (chain_from_method_nodes E) node_type class_object params.

(** [AgentExecutor.from_agent_and_tools(agent=..., tools=...,
    handle_parsing_errors=True)] *)
Definition agent_executor (agent tools : value) : result value :=
  ext E "AgentExecutor.from_agent_and_tools" []
      [(VStr "agent", agent); (VStr "tools", tools);
       (VStr "handle_parsing_errors", VBool true)].

Fixpoint tool_names (tools : list value) : result (list value) :=
  match tools with
  | [] => Ok []
  | tool :: rest =>
      n <- attr tool "name" ;;
      ns <- tool_names rest ;;
      Ok (n :: ns)
  end.

(** [load_agent_executor] (called without extra keyword arguments). *)
Definition load_agent_executor (agent_class : value) (params : dict)
  : result value :=
  let allowed_tools := dict_get_default params "allowed_tools" (VList []) in
  llm_chain <- dict_item params "llm_chain" ;;
  let allowed_tools :=
    match allowed_tools with
    | VList _ | VSet _ => allowed_tools
    | _ => if instance_of E allowed_tools "BaseTool"
           then VList [allowed_tools] else allowed_tools
    end in
  tools <- py_iter allowed_tools ;;
  names <- tool_names tools ;;
  agent <- construct agent_class
             [(VStr "allowed_tools", VList names); (VStr "llm_chain", llm_chain)] ;;
  agent_executor agent allowed_tools.

(** [instantiate_agent] *)
Definition instantiate_agent (node_type : string) (class_object : value)
  (params : dict) : result value :=
  match dict_get (agent_from_method_nodes E) node_type with
  | Some method =>
      match method with
      | VStr m =>
          match py_getattr class_object m with
          | Some class_method =>
              if truthy class_method then
                agent <- invoke E class_method [] params ;;
                agent_executor agent (dict_get_default params "tools" (VList []))
              else load_agent_executor class_object params
          | None => load_agent_executor class_object params
          end
      | _ => Raise (TypeError "attribute name must be string")
      end
  | None => load_agent_executor class_object params
  end.

(** [instantiate_output_parser] *)
Definition instantiate_output_parser (node_type : string) (class_object : value)
  (params : dict) : result value :=
  from_method_or_construct (output_parser_from_method_nodes E)
    node_type class_object params.

(** The loop of [instantiate_retriever] over [params.items()]. *)
Fixpoint retriever_items (items : list (value * value)) (params : dict)
  : result dict :=
  match items with
  | [] => Ok params
  | (key, v) :: rest =>
      if match key with VStr k => str_contains "retriever" k | _ => false end
         && hasattr v "as_retriever"
      then r <- call_method v "as_retriever" [] [] ;;
           retriever_items rest (dict_set params key r)
      else retriever_items rest params
  end.

(** [instantiate_retriever] *)
Definition instantiate_retriever (node_type : string) (class_object : value)
  (params : dict) : result value :=
  params <- retriever_items params params ;;
  from_method_or_construct (retriever_from_method_nodes E)
    node_type class_object params.

(** [instantiate_wrapper] *)
Definition instantiate_wrapper (node_type : string) (class_object : value)
  (params : dict) : result value :=
  match dict_get (wrapper_from_method_nodes E) node_type with
  | Some _ =>
      from_method_or_construct (wrapper_from_method_nodes E)
        node_type class_object params
  | None =>
      params <-
        (if String.eqb node_type "DallEAPIWrapper" && is_openai_v1 E
            && truthy (dict_get_default params "openai_proxy" VNone) then
           let proxy := dict_get_default params "openai_proxy" VNone in
           client_params <- ext E "langchain_bug_openv1" [VDict params] [] ;;
           match client_params with
           | VDict client_params =>
               c <- ext E "httpx.Client" [] [(VStr "proxies", proxy)] ;;
               let client_params := dict_set client_params "http_client" c in
               o <- ext E "openai.OpenAI" [] client_params ;;
               images <- attr o "images" ;;
               let params := dict_set params "client" images in
               c <- ext E "httpx.AsyncClient" [] [(VStr "proxies", proxy)] ;;
               let client_params := dict_set client_params "http_client" c in
               o <- ext E "openai.AsyncOpenAI" [] client_params ;;
               images <- attr o "images" ;;
               Ok (dict_set params "async_client" images)
           | _ => Raise (TypeError "object does not support item assignment")
           end
         else Ok params) ;;
      construct class_object params
  end.

(** ** Memory and embedding strategies *)

(** The message test of the handler in [instantiate_memory]. *)
Definition is_connection_failure (msg : string) : bool :=
  str_contains "object has no attribute 'cursor'" msg
  || str_contains ("object has no field " ++ dquote ++ "conn" ++ dquote) msg.

Definition connection_error (exc : exn) : exn :=
  AttributeError ("Failed to build connection to database."
                  ++ " Please check your connection string and try again. Error: "
                  ++ exn_msg exc).

(** The clean-up of [instantiate_memory] that precedes its [try]. *)
Definition memory_params (node_type : string) (params : dict) : dict :=
  let params :=
    if String.eqb node_type "ConversationEntityMemory"
    then snd (dict_pop_default params "memory_key" VNone) else params in
  let drop_empty (params : dict) (key : string) : dict :=
    match dict_get params key with
    | Some v => if py_eqb v (VStr EmptyString) || negb (truthy v)
                then dict_del params key else params
    | None => params
    end in
  fold_left drop_empty ["input_key"; "output_key"] params.

(** The body of the [try] of [instantiate_memory]. *)
Definition memory_build (class_object : value) (params : dict) : result value :=
  params <-
    (match dict_get params "retriever" with
     | Some r =>
         if hasattr r "as_retriever" then
           r' <- call_method r "as_retriever" [] [] ;;
           Ok (dict_set params "retriever" r')
         else Ok params
     | None => Ok params
     end) ;;
  construct class_object params.

(** [instantiate_memory] *)
Definition instantiate_memory (node_type : string) (class_object : value)
  (params : dict) : result value :=
  let params := memory_params node_type params in
  catch (memory_build class_object params)
    (fun exc =>
       if is_connection_failure (exn_msg exc)
       then Raise (connection_error exc)
       else Raise exc).

(** The body of the [try] of [instantiate_embedding] up to the constructor
    call: the parameters it leaves behind, and the exception if a proxy
    client could not be built.  [params] keeps the assignments made before
    the exception, as the handler sees them. *)
Definition embedding_params (class_object : value) (params : dict)
  : dict * option exn :=
  let proxy := dict_get_default params "openai_proxy" VNone in
  let '(params, failure) :=
    if truthy proxy then
      match ext E "httpx.Client" [] [(VStr "proxies", proxy)] with
      | Raise e => (params, Some e)
      | Ok c =>
          let params := dict_set params "http_client" c in
          match ext E "httpx.AsyncClient" [] [(VStr "proxies", proxy)] with
          | Raise e => (params, Some e)
          | Ok c' =>
              let params := dict_set params "http_async_client" c' in
              (dict_del params "openai_proxy", None)
          end
      end
    else (params, None) in
  match failure with
  | Some e => (params, Some e)
  | None =>
      match attr class_object "__name__" with
      | Raise e => (params, Some e)
      | Ok name =>
          if py_eqb name (VStr "OpenAIEmbeddings")
          then (dict_set params "check_embedding_ctx_length" (VBool false), None)
          else (params, None)
      end
  end.

(** [{key: value for key, value in params.items()
      if key in class_object.__fields__}] *)
Fixpoint declared_fields (class_object : value) (items : list (value * value))
  : result dict :=
  match items with
  | [] => Ok []
  | (key, v) :: rest =>
      fields <- attr class_object "__fields__" ;;
      b <- py_in key fields ;;
      kept <- declared_fields class_object rest ;;
      Ok (if b then (key, v) :: kept else kept)
  end.

(** [instantiate_embedding] *)
Definition instantiate_embedding (class_object : value) (params : dict)
  : result value :=
  let '(params, failure) := embedding_params class_object params in
  catch_class "ValidationError"
    (match failure with
     | Some e => Raise e
     | None => construct class_object params
     end)
    (fun _ =>
       params <- declared_fields class_object params ;;
       construct class_object params).

(** ** Prompt strategy *)

(** [a, b = v] *)
Definition unpack2 (v : value) : result (value * value) :=
  l <- py_iter v ;;
  match l with
  | [a; b] => Ok (a, b)
  | _ => Raise (ValueError "wrong number of values to unpack")
  end.

(** [list(human_input) + list(set(input_variables) & no_human_input)],
    where [no_human_input] is [set(param_id_dict.keys())] and
    [human_input = set(input_variables).difference(no_human_input)]. *)
Definition order_input (input_variables no_human_input : list value)
  : list value :=
  let declared := dedup input_variables in
  let human_input :=
    filter (fun x => negb (existsb (py_eqb x) no_human_input)) declared in
  let node_bound :=
    filter (fun x => existsb (py_eqb x) no_human_input) declared in
  set_order E human_input ++ set_order E node_bound.

(** [instantiate_prompt] *)
Definition instantiate_prompt (node_type : string) (class_object : value)
  (params : dict) (param_id_dict : value) : result value :=
  r <- ext E "handle_node_type" [VStr node_type; class_object; VDict params] [] ;;
  ' (params, prompt) <- unpack2 r ;;
  format_kwargs <- ext E "handle_format_kwargs" [prompt; params] [] ;;
  prompt <- (if truthy format_kwargs
             then ext E "handle_partial_variables" [prompt; format_kwargs] []
             else Ok prompt) ;;
  no_human_input <- py_key_set param_id_dict ;;
  input_variables <- attr prompt "input_variables" ;;
  declared <- py_iter input_variables ;;
  _ <- py_set input_variables ;;
  let order := order_input declared no_human_input in
  prompt <-
    (if (1 <? length order)%nat then
       match py_getattr prompt "prompt" with
       | Some inner =>
           if hasattr inner "input_variables" then
             inner <- setattr inner "input_variables" (VList order) ;;
             setattr prompt "prompt" inner
           else setattr prompt "input_variables" (VList order)
       | None => setattr prompt "input_variables" (VList order)
       end
     else Ok prompt) ;;
  Ok (VTuple [prompt; format_kwargs]).

(** ** Input/output strategy *)

(** [{key: v}] *)
Definition singleton_dict (key v : value) : result value :=
  if hashable key then Ok (VDict [(key, v)])
  else Raise (TypeError "unhashable type").

(** [chains[index].input_keys[0]] *)
Definition first_input_key (chain : value) : result value :=
  input_keys <- attr chain "input_keys" ;;
  py_index input_keys 0.

(** The inner loop of the [Report] branch: one entry per pair of a
    list-valued preset, each a copy of [chain_obj]. *)
Fixpoint preset_entries (chain_obj : dict) (chain : value) (pairs : list value)
  : result (list value) :=
  match pairs with
  | [] => Ok []
  | node_id :: rest =>
      target <- py_index node_id 0 ;;
      let chain_ := dict_set chain_obj "node_id" target in
      key <- first_input_key chain ;;
      text <- py_index node_id 1 ;;
      input <- singleton_dict key text ;;
      let chain_ := dict_set chain_ "input" input in
      more <- preset_entries chain_obj chain rest ;;
      Ok (VDict chain_ :: more)
  end.

(** The outer loop of the [Report] branch over [enumerate(chains_idlist)]. *)
Fixpoint report_chains (chains preset_question : value) (chains_idlist : list value)
  (index : nat) : result (list value) :=
  match chains_idlist with
  | [] => Ok []
  | id :: rest =>
      chain <- py_index chains index ;;
      let chain_obj : dict := [(VStr "object", chain)] in
      present <- py_in id preset_question ;;
      entries <-
        (if present then
           preset <- py_getitem preset_question id ;;
           match preset with
           | VList pairs => preset_entries chain_obj chain pairs
           | _ =>
               target <- py_index preset 0 ;;
               let chain_obj := dict_set chain_obj "node_id" target in
               key <- first_input_key chain ;;
               text <- py_index preset 1 ;;
               input <- singleton_dict key text ;;
               Ok [VDict (dict_set chain_obj "input" input)]
           end
         else
           key <- first_input_key chain ;;
           input <- singleton_dict key (VStr "start") ;;
           Ok [VDict (dict_set chain_obj "input" input)]) ;;
      more <- report_chains chains preset_question rest (S index) ;;
      Ok (entries ++ more)
  end.

(** The loop over [enumerate(variable_node_id)]. *)
Fixpoint report_variables (variable : value) (variable_node_id : list value)
  (index : nat) : result (list value) :=
  match variable_node_id with
  | [] => Ok []
  | id :: rest =>
      input <- py_index variable index ;;
      more <- report_variables variable rest (S index) ;;
      Ok (VDict [(VStr "node_id", id); (VStr "input", input)] :: more)
  end.

(** The parameters the [Report] branch hands to the class. *)
Definition report_params (params : dict) (id_dict : value) : result dict :=
  let '(preset_question, params) :=
    dict_pop_default params (PRESET_QUESTION E) (VDict []) in
  let chains := dict_get_default params "chains" (VList []) in
  chains_idlist <- py_get id_dict "chains" (Some (VList [])) ;;
  chains_idlist <- py_iter chains_idlist ;;
  chain_list <- report_chains chains preset_question chains_idlist 0 ;;
  let params := dict_set params "chains" (VList chain_list) in
  let variable := dict_get_default params "variables" VNone in
  ids <- py_get id_dict "variables" None ;;
  let variable_node_id := if truthy ids then ids else VList [] in
  let params := dict_set params "variables" (VList []) in
  ids <- py_iter variable_node_id ;;
  variables <- report_variables variable ids 0 ;;
  Ok (dict_set params "variables" (VList variables)).

(** [instantiate_input_output] *)
Definition instantiate_input_output (node_type : string) (class_object : value)
  (params : dict) (id_dict : value) : result value :=
  if String.eqb node_type "Report" then
    params <- report_params params id_dict ;;
    construct class_object params
  else if String.eqb node_type "InputFileNode" then
    node <- construct class_object params ;;
    file_path <- call_method node "text" [] [] ;;
    if truthy file_path then
      first <- py_index file_path 0 ;;
      r <- ext E "file_download" [first] [] ;;
      ' (file_path, file_name2) <- unpack2 r ;;
      name <- (if truthy file_name2 then Ok file_name2 else py_index file_path 1) ;;
      Ok (VList [file_path; name])
    else Ok (VStr EmptyString)
  else
    match dict_get params "file_path" with
    | Some file_path =>
        if negb (truthy file_path) then Ok (VStr EmptyString)
        else
          params <- (match file_path with
                     | VList _ =>
                         first <- py_index file_path 0 ;;
                         Ok (dict_set params "file_path" first)
                     | _ => Ok params
                     end) ;;
          node <- construct class_object params ;;
          call_method node "text" [] []
    | None =>
        node <- construct class_object params ;;
        call_method node "text" [] []
    end.

(** ** Vector-store strategy *)

(** [[one['key'] for one in candidates]] *)
Fixpoint knowledge_keys (candidates : list value) : result (list value) :=
  match candidates with
  | [] => Ok []
  | one :: rest =>
      k <- py_getitem one (VStr "key") ;;
      ks <- knowledge_keys rest ;;
      Ok (k :: ks)
  end.

(** [name.startswith('partition')] *)
Definition starts_with_partition (name : value) : result bool :=
  match name with
  | VStr n => Ok (String.prefix "partition" n)
  | _ => r <- call_method name "startswith" [VStr "partition"] [] ;;
         Ok (truthy r)
  end.

(** The Milvus loop: collection names, their embeddings, partition keys. *)
Fixpoint milvus_collections (knowledge_list : list value)
  : result (list value * list value * list value) :=
  match knowledge_list with
  | [] => Ok ([], [], [])
  | knowledge :: rest =>
      name <- attr knowledge "collection_name" ;;
      model <- attr knowledge "model" ;;
      embedding <- ext E "decide_embeddings" [model] [] ;;
      name' <- attr knowledge "collection_name" ;;
      partitioned <- starts_with_partition name' ;;
      key <- (if partitioned then attr knowledge "id" else Ok VNone) ;;
      ' (names, embeddings, keys) <- milvus_collections rest ;;
      Ok (name :: names, embedding :: embeddings, key :: keys)
  end.

(** [[knowledge.index_name or knowledge.collection_name
      for knowledge in knowledge_list]] *)
Fixpoint elastic_indexes (knowledge_list : list value) : result (list value) :=
  match knowledge_list with
  | [] => Ok []
  | knowledge :: rest =>
      index_name <- attr knowledge "index_name" ;;
      name <- (if truthy index_name then Ok index_name
               else attr knowledge "collection_name") ;;
      names <- elastic_indexes rest ;;
      Ok (name :: names)
  end.

(** The directory lookup of the permission block: filtered by the
    caller's identity unless [_is_check_auth] is false. *)
Definition knowledge_lookup (check user_name : value) (knowledge_ids : list value)
  : result value :=
  if truthy check
  then ext E "KnowledgeDao.judge_knowledge_permission"
           [user_name; VList knowledge_ids] []
  else ext E "KnowledgeDao.get_list_by_ids" [VList knowledge_ids] [].

(** The permission block of [instantiate_vectorstore] for the two checked
    node types: the parameters rewritten to the collections the knowledge
    directory returns. *)
Definition permitted_params (node_type : string) (user_name : value)
  (params : dict) : result dict :=
  let col_name :=
    if String.eqb node_type "ElasticsearchWithPermissionCheck"
    then "index_name" else "collection_name" in
  candidates <- dict_item params col_name ;;
  candidates <- py_iter candidates ;;
  knowledge_ids <- knowledge_keys candidates ;;
  let '(check, params) := dict_pop_default params "_is_check_auth" (VBool true) in
  knowledge_list <- knowledge_lookup check user_name knowledge_ids ;;
  if String.eqb node_type "MilvusWithPermissionCheck" then
    let params := dict_set params col_name (VList []) in
    let params := dict_set params "collection_embeddings" (VList []) in
    let params := dict_set params "partition_keys" (VList []) in
    knowledge_list <- py_iter knowledge_list ;;
    ' (names, embeddings, keys) <- milvus_collections knowledge_list ;;
    let params := dict_set params col_name (VList names) in
    let params := dict_set params "collection_embeddings" (VList embeddings) in
    let params := dict_set params "partition_keys" (VList keys) in
    embedding <- (match embeddings with
                  | first :: _ => Ok first
                  | [] => ext E "FakeEmbedding" [] []
                  end) ;;
    Ok (dict_set params "embedding" embedding)
  else
    knowledge_list <- py_iter knowledge_list ;;
    names <- elastic_indexes knowledge_list ;;
    Ok (dict_set params col_name (VList names)).

(** The construction that ends [instantiate_vectorstore]: the registered
    initializer or [from_documents], then the optional retrieval adapter. *)
Definition vectorstore_build (class_object : value) (params : dict)
  (user_name search_kwargs search_type : value) : result value :=
  name <- attr class_object "__name__" ;;
  initializer <- dict_get_dyn (vecstore_initializer E) name ;;
  vecstore <-
    (if truthy initializer then
       invoke E initializer [class_object; VDict params; search_kwargs] []
     else
       let params :=
         match dict_get params "texts" with
         | Some texts => dict_set (dict_del params "texts") "documents" texts
         | None => params
         end in
       call_method class_object "from_documents" [] params) ;;
  if truthy search_kwargs && hasattr vecstore "as_retriever" then
    if truthy (get_from_db E "file_access") then
      access_url <- py_add (get_from_db E "file_access")
                           (VStr ("?username=" ++ py_str user_name)) ;;
      ext E "VectorStoreFilterRetriever" []
          [(VStr "vectorstore", vecstore); (VStr "search_type", search_type);
           (VStr "search_kwargs", search_kwargs); (VStr "access_url", access_url)]
    else
      call_method vecstore "as_retriever" []
        [(VStr "search_type", search_type); (VStr "search_kwargs", search_kwargs)]
  else Ok vecstore.

(** [instantiate_vectorstore] *)
Definition instantiate_vectorstore (node_type : string) (class_object : value)
  (params : dict) : result value :=
  let '(user_name, params) :=
    dict_pop_default params "user_name" (VStr EmptyString) in
  let '(search_kwargs, params) :=
    dict_pop_default params "search_kwargs" (VDict []) in
  let '(search_type, params) :=
    dict_pop_default params "search_type" (VStr "similarity") in
  let params :=
    if dict_mem params "documents" then params
    else dict_set params "documents" (VList []) in
  params <-
    (if String.eqb node_type "MilvusWithPermissionCheck"
        || String.eqb node_type "ElasticsearchWithPermissionCheck"
     then permitted_params node_type user_name params
     else Ok params) ;;
  vectorstore_build class_object params user_name search_kwargs search_type.

(** ** Document-loader and text-splitter strategies *)

(** The merge of the supplied [metadata] into one document. *)
Definition merge_metadata (metadata doc : value) : result value :=
  own <- attr doc "metadata" ;;
  if negb (truthy own) then setattr doc "metadata" metadata
  else
    match own, metadata with
    | VDict d, VDict m => setattr doc "metadata" (VDict (dict_update d m))
    | _, _ =>
        updated <- ext E "update" [own; metadata] [] ;;
        setattr doc "metadata" updated
    end.

Fixpoint merge_metadata_all (metadata : value) (docs : list value)
  : result (list value) :=
  match docs with
  | [] => Ok []
  | doc :: rest =>
      doc' <- merge_metadata metadata doc ;;
      rest' <- merge_metadata_all metadata rest ;;
      Ok (doc' :: rest')
  end.

(** [instantiate_documentloader] *)
Definition instantiate_documentloader (class_object : value) (params : dict)
  : result value :=
  params <-
    (match dict_get params "file_filter" with
     | Some file_filter =>
         let params := dict_del params "file_filter" in
         extensions <-
           (match file_filter with
            | VStr text => Ok (VList (map VStr (str_split ","%char text)))
            | _ => call_method file_filter "split" [VStr ","] []
            end) ;;
         Ok (dict_set params "file_filter" (VFun "file_filter" [extensions]))
     | None => Ok params
     end) ;;
  params <-
    (match dict_get params "file_path" with
     | Some (VList _ as file_path) =>
         file_name <- py_index file_path 1 ;;
         first <- py_index file_path 0 ;;
         let params := dict_set params "file_path" first in
         name <- attr class_object "__name__" ;;
         Ok (if py_eqb name (VStr "ElemUnstructuredLoaderV0")
             then dict_set params "file_name" file_name else params)
     | _ => Ok params
     end) ;;
  let '(metadata, params) := dict_pop_default params "metadata" VNone in
  metadata <-
    (match metadata with
     | VStr text =>
         if truthy metadata then
           catch_class "JSONDecodeError" (json_loads E text)
             (fun _ => Raise (ValueError
                "The metadata you provided is not a valid JSON string."))
         else Ok metadata
     | _ => Ok metadata
     end) ;;
  let no_file :=
    match dict_get params "file_path" with
    | Some file_path => negb (truthy file_path)
    | None => false
    end in
  if no_file then Ok (VList []) else
    loader <- construct class_object params ;;
    docs <- call_method loader "load" [] [] ;;
    if truthy metadata then
      match docs with
      | VList l => l' <- merge_metadata_all metadata l ;; Ok (VList l')
      | VTuple l => l' <- merge_metadata_all metadata l ;; Ok (VTuple l')
      | _ => l <- py_iter docs ;;
             _ <- merge_metadata_all metadata l ;; Ok docs
      end
    else Ok docs.

(** [text.encode().decode('unicode-escape')] *)
Definition unicode_unescape (v : value) : result value :=
  match v with
  | VStr _ => ext E "unicode_escape_decode" [v] []
  | _ => bytes <- call_method v "encode" [] [] ;;
         call_method bytes "decode" [VStr "unicode-escape"] []
  end.

(** [instantiate_textsplitter] *)
Definition instantiate_textsplitter (class_object : value) (params : dict)
  : result value :=
  match dict_get params "documents" with
  | None =>
      Raise (ValueError
        ("The source you provided did not load correctly or was empty."
         ++ "Try changing the chunk_size of the Text Splitter."))
  | Some documents =>
      let params := dict_del params "documents" in
      if negb (truthy documents) then Ok (VList []) else
        let text_mode :=
          match dict_get params "separator_type" with
          | Some separator_type => py_eqb separator_type (VStr "Text")
          | None => true
          end in
        text_splitter <-
          (if text_mode then
             let params := snd (dict_pop_default params "separator_type" VNone) in
             params <- (match dict_get params "separators" with
                        | Some separators =>
                            text <- unicode_unescape separators ;;
                            Ok (dict_set params "separators" text)
                        | None => Ok params
                        end) ;;
             construct class_object params
           else
             let '(language, params) :=
               dict_pop_default params "separator_type" VNone in
             language <- ext E "Language" [language] [] ;;
             let params := dict_set params "language" language in
             let params := snd (dict_pop_default params "separators" VNone) in
             call_method class_object "from_language" [] params) ;;
        call_method text_splitter "split_documents" [documents] []
  end.

(** ** Tool, toolkit, model, utility and custom-component strategies *)

(** [prop.get('type')] *)
Definition schema_type (prop : value) : result value :=
  match prop with
  | VDict d => Ok (dict_get_default d "type" VNone)
  | _ => call_method prop "get" [VStr "type"] []
  end.

(** The loop of [instantiate_tool] over [args_schema.items()]: the field
    table and the last field name. *)
Fixpoint schema_fields (items : list (value * value)) (fields : dict)
  (last : value) : result (dict * value) :=
  match items with
  | [] => Ok (fields, last)
  | (name, prop) :: rest =>
      type <- schema_type prop ;;
      let field_type :=
        if py_eqb type (VStr "string") then VFun "str" [] else VFun "typing.Any" [] in
      info <- (match prop with
               | VDict kwargs => ext E "FieldInfo" [] kwargs
               | _ => Raise (TypeError "argument after ** must be a mapping")
               end) ;;
      schema_fields rest (dict_set fields name (VTuple [field_type; info])) name
  end.

(** [instantiate_tool] *)
Definition instantiate_tool (node_type : string) (class_object : value)
  (params : dict) : result value :=
  let '(args_schema, params) :=
    dict_pop_default params "args_schema" (VStr EmptyString) in
  if String.eqb node_type "JsonSpec" then
    ' (path, params) <- dict_pop params "path" ;;
    file_dict <- ext E "load_file_into_dict" [path] [] ;;
    if truthy file_dict then construct class_object (dict_set params "dict_" file_dict)
    else Raise (ValueError "Invalid file")
  else if String.eqb node_type "PythonFunctionTool" then
    func <- ext E "get_function" [dict_get_default params "code" VNone] [] ;;
    construct class_object (dict_set params "func" func)
  else if String.eqb node_type "PythonFunction" then
    function_string <- dict_item params "code" ;;
    if is_str function_string
    then ext E "validate.eval_function" [function_string] []
    else Raise (ValueError "Function should be a string")
  else
    _ <- (if String.eqb (str_lower node_type) "tool"
          then construct class_object params else Ok VNone) ;;
    tool <- construct class_object params ;;
    if truthy args_schema && hasattr tool "args_schema" then
      items <- (match args_schema with
                | VDict d => Ok d
                | _ => Raise (AttributeError "object has no attribute 'items'")
                end) ;;
      ' (fields, name) <- schema_fields items [] VNone ;;
      model <- ext E "create_model" [name] fields ;;
      setattr tool "args_schema" model
    else Ok tool.

(** [instantiate_toolkit] *)
Definition instantiate_toolkit (node_type : string) (class_object : value)
  (params : dict) : result value :=
  loaded_toolkit <- construct class_object params ;;
  if instance_of E loaded_toolkit "BaseToolkit"
  then call_method loaded_toolkit "get_tools" [] []
  else Ok loaded_toolkit.

(** [instantiate_llm] *)
Definition instantiate_llm (node_type : string) (class_object : value)
  (params : dict) : result value :=
  let proxy := dict_get_default params "openai_proxy" VNone in
  params <-
    (if is_openai_v1 E && truthy proxy then
       c <- ext E "httpx.Client" [] [(VStr "proxies", proxy)] ;;
       let params := dict_set params "http_client" c in
       c <- ext E "httpx.AsyncClient" [] [(VStr "proxies", proxy)] ;;
       let params := dict_set params "http_async_client" c in
       Ok (dict_del params "openai_proxy")
     else Ok params) ;;
  params <-
    (if String.eqb node_type EmptyString then
       let '(anthropic_api_key, params) :=
         dict_pop_default params "anthropic_api_key" VNone in
       key <- (if truthy anthropic_api_key
               then ext E "SecretStr" [anthropic_api_key] [] else Ok VNone) ;;
       Ok (dict_set params "anthropic_api_key" key)
     else Ok params) ;;
  if String.eqb node_type "VertexAI" then
    ext E "initialize_vertexai" []
        [(VStr "class_object", class_object); (VStr "params", VDict params)]
  else
    params <-
      (match dict_get params "max_tokens" with
       | Some (VStr text) =>
           digits <- py_isdigit text ;;
           if digits then
             n <- py_int (VStr text) ;;
             Ok (dict_set params "max_tokens" n)
           else Ok (dict_del params "max_tokens")
       | Some (VInt _) | Some (VBool _) => Ok params
       | Some _ => Ok (dict_del params "max_tokens")
       | None => Ok params
       end) ;;
    llm <- construct class_object params ;;
    let llm_config := get_from_db E "llm_request" in
    let config_get (key : string) : result value :=
      match llm_config with
      | VDict d => Ok (dict_get_default d key VNone)
      | _ => call_method llm_config "get" [VStr key] []
      end in
    llm <-
      (if hasattr llm "request_timeout" then
         present <- py_in (VStr "request_timeout") llm_config ;;
         if present then
           timeout <- config_get "request_timeout" ;;
           timeout <- (if is_str timeout then py_int timeout
                       else Ok timeout) ;;
           setattr llm "request_timeout" timeout
         else Ok llm
       else Ok llm) ;;
    if hasattr llm "max_retries" then
      present <- py_in (VStr "max_retries") llm_config ;;
      if present then
        retries <- config_get "max_retries" ;;
        setattr llm "max_retries" retries
      else Ok llm
    else Ok llm.

(** [instantiate_utility] *)
Definition instantiate_utility (node_type : string) (class_object : value)
  (params : dict) : result value :=
  if String.eqb node_type "SQLDatabase" then
    ' (uri, _) <- dict_pop params "uri" ;;
    call_method class_object "from_uri" [uri] []
  else construct class_object params.

(** [instantiate_custom_component]; awaiting a suspending [build] is the
    call of [build]. *)
Definition instantiate_custom_component (node_type : string)
  (class_object : value) (params : dict) (user_id : value) : result value :=
  ' (code, params_copy) <- dict_pop params "code" ;;
  class_object <- ext E "eval_custom_component_code" [code] [] ;;
  custom_component <- construct class_object [(VStr "user_id", user_id)] ;;
  params_copy <-
    (match dict_get params_copy "retriever" with
     | Some r =>
         if hasattr r "as_retriever" then
           r' <- call_method r "as_retriever" [] [] ;;
           Ok (dict_set params_copy "retriever" r')
         else Ok params_copy
     | None => Ok params_copy
     end) ;;
  build <- attr custom_component "build" ;;
  built_object <- invoke E build [] params_copy ;;
  repr <- call_method custom_component "custom_repr" [] [] ;;
  Ok (VTuple [built_object; VDict [(VStr "repr", repr)]]).

(** [instantiate_autogen_roles] *)
Definition instantiate_autogen_roles (node_type : string) (class_object : value)
  (params : dict) : result value :=
  construct class_object params.

(** ** Dispatcher *)

(** [instantiate_based_on_type] *)
Definition instantiate_based_on_type (class_object : value)
  (base_type node_type : string) (params : dict) (param_id_dict : value)
  (user_id : value) : result value :=
  if String.eqb base_type "agents" then
    instantiate_agent node_type class_object params
  else if String.eqb base_type "prompts" then
    instantiate_prompt node_type class_object params param_id_dict
  else if String.eqb base_type "tools" then
    tool <- instantiate_tool node_type class_object params ;;
    match py_getattr tool "name" with
    | Some name =>
        if instance_of E tool "BaseTool" then
          match name with
          | VStr n => setattr tool "name" (VStr (str_replace_space n))
          | _ => n' <- call_method name "replace" [VStr " "; VStr "_"] [] ;;
                 setattr tool "name" n'
          end
        else Ok tool
    | None => Ok tool
    end
  else if String.eqb base_type "toolkits" then
    instantiate_toolkit node_type class_object params
  else if String.eqb base_type "embeddings" then
    instantiate_embedding class_object params
  else if String.eqb base_type "vectorstores" then
    instantiate_vectorstore node_type class_object params
  else if String.eqb base_type "documentloaders" then
    instantiate_documentloader class_object params
  else if String.eqb base_type "textsplitters" then
    instantiate_textsplitter class_object params
  else if String.eqb base_type "utilities" then
    instantiate_utility node_type class_object params
  else if String.eqb base_type "chains" then
    instantiate_chains node_type class_object params param_id_dict
  else if String.eqb base_type "output_parsers" then
    instantiate_output_parser node_type class_object params
  else if String.eqb base_type "llms" then
    instantiate_llm node_type class_object params
  else if String.eqb base_type "retrievers" then
    instantiate_retriever node_type class_object params
  else if String.eqb base_type "memory" then
    instantiate_memory node_type class_object params
  else if String.eqb base_type "custom_components" then
    instantiate_custom_component node_type class_object params user_id
  else if String.eqb base_type "wrappers" then
    instantiate_wrapper node_type class_object params
  else if String.eqb base_type "input_output" then
    instantiate_input_output node_type class_object params param_id_dict
  else if String.eqb base_type "autogen_roles" then
    instantiate_autogen_roles node_type class_object params
  else construct class_object params.

(** [instantiate_class] *)
Definition instantiate_class (node_type base_type : string) (params : dict)
  (user_id : value) : result value :=
  params <- convert_params_to_sets params ;;
  params <- convert_kwargs params ;;
  ' (params_node_id_dict, params) <- dict_pop params (NODE_ID_DICT E) ;;
  let custom_node := dict_get_default (CUSTOM_NODES E) node_type VNone in
  if truthy custom_node then
    match py_getattr custom_node "initialize" with
    | Some initialize => invoke E initialize [] params
    | None => invoke E custom_node [] params
    end
  else
    class_object <- ext E "import_by_type" []
                      [(VStr "_type", VStr base_type); (VStr "name", VStr node_type)] ;;
    instantiate_based_on_type class_object base_type node_type params
      params_node_id_dict user_id.

End Loading.

(** ** A JSON decoder and concrete collaborators *)

(** [json_decode] decodes the fragment of JSON made of [null], [true],
    [false], integers, texts without escape sequences, arrays and objects,
    as [json.loads] does on that fragment.  A number with a fraction or an
    exponent and a text with a backslash lie outside the fragment and are
    answered with a decode error.  The theorems quantify over the decoder;
    this one serves to run the model on concrete texts. *)
Definition is_ws (a : ascii) : bool :=
  let n := Ascii.nat_of_ascii a in
  Nat.eqb n 32 || Nat.eqb n 9 || Nat.eqb n 10 || Nat.eqb n 13.

Fixpoint skip_ws (l : list ascii) : list ascii :=
  match l with
  | a :: r => if is_ws a then skip_ws r else l
  | [] => []
  end.

(** The body of a text up to its closing quote. *)
Fixpoint read_text (l : list ascii) : option (string * list ascii) :=
  match l with
  | [] => None
  | a :: r =>
      let n := Ascii.nat_of_ascii a in
      if Nat.eqb n 34 then Some (EmptyString, r)
      else if Nat.eqb n 92 || (n <? 32)%nat then None
      else match read_text r with
           | Some (s, r') => Some (String a s, r')
           | None => None
           end
  end.

Fixpoint read_digits (l : list ascii) : list ascii * list ascii :=
  match l with
  | a :: r => if is_digit a
              then let '(ds, r') := read_digits r in (a :: ds, r')
              else ([], l)
  | [] => ([], [])
  end.

(** An integer literal: no leading zero, nothing of a float after it. *)
Definition read_int (l : list ascii) : option (Z * list ascii) :=
  let '(ds, r) := read_digits l in
  match ds with
  | [] => None
  | d :: ds' =>
      if Nat.eqb (Ascii.nat_of_ascii d) 48 && negb (Nat.eqb (length ds') 0)
      then None
      else match r with
           | a :: _ =>
               let n := Ascii.nat_of_ascii a in
               if Nat.eqb n 46 || Nat.eqb n 101 || Nat.eqb n 69 then None
               else Some (int_of_digits (string_of_list_ascii ds), r)
           | [] => Some (int_of_digits (string_of_list_ascii ds), r)
           end
  end.

Fixpoint decode_value (fuel : nat) (l : list ascii) {struct fuel}
  : option (value * list ascii) :=
  match fuel with
  | O => None
  | S fuel =>
      match skip_ws l with
      | [] => None
      | a :: r =>
          let n := Ascii.nat_of_ascii a in
          if Nat.eqb n 34 then
            match read_text r with
            | Some (s, r') => Some (VStr s, r')
            | None => None
            end
          else if Nat.eqb n 91 then
            match skip_ws r with
            | b :: r' =>
                if Nat.eqb (Ascii.nat_of_ascii b) 93 then Some (VList [], r')
                else match decode_items fuel r with
                     | Some (vs, r'') => Some (VList vs, r'')
                     | None => None
                     end
            | [] => None
            end
          else if Nat.eqb n 123 then
            match skip_ws r with
            | b :: r' =>
                if Nat.eqb (Ascii.nat_of_ascii b) 125 then Some (VDict [], r')
                else match decode_members fuel r [] with
                     | Some (d, r'') => Some (VDict d, r'')
                     | None => None
                     end
            | [] => None
            end
          else if Nat.eqb n 45 then
            match read_int r with
            | Some (z, r') => Some (VInt (- z), r')
            | None => None
            end
          else if is_digit a then
            match read_int (a :: r) with
            | Some (z, r') => Some (VInt z, r')
            | None => None
            end
          else
            match a :: r with
            | "n" :: "u" :: "l" :: "l" :: r' => Some (VNone, r')
            | "t" :: "r" :: "u" :: "e" :: r' => Some (VBool true, r')
            | "f" :: "a" :: "l" :: "s" :: "e" :: r' => Some (VBool false, r')
            | _ => None
            end%char
      end
  end
with decode_items (fuel : nat) (l : list ascii) {struct fuel}
  : option (list value * list ascii) :=
  match fuel with
  | O => None
  | S fuel =>
      match decode_value fuel l with
      | Some (v, r) =>
          match skip_ws r with
          | a :: r' =>
              let n := Ascii.nat_of_ascii a in
              if Nat.eqb n 44 then
                match decode_items fuel r' with
                | Some (vs, r'') => Some (v :: vs, r'')
                | None => None
                end
              else if Nat.eqb n 93 then Some ([v], r')
              else None
          | [] => None
          end
      | None => None
      end
  end
with decode_members (fuel : nat) (l : list ascii) (acc : dict) {struct fuel}
  : option (dict * list ascii) :=
  match fuel with
  | O => None
  | S fuel =>
      match skip_ws l with
      | q :: r =>
          if Nat.eqb (Ascii.nat_of_ascii q) 34 then
            match read_text r with
            | Some (k, r1) =>
                match skip_ws r1 with
                | c :: r2 =>
                    if Nat.eqb (Ascii.nat_of_ascii c) 58 then
                      match decode_value fuel r2 with
                      | Some (v, r3) =>
                          let acc := dict_set acc (VStr k) v in
                          match skip_ws r3 with
                          | a :: r4 =>
                              let n := Ascii.nat_of_ascii a in
                              if Nat.eqb n 44 then decode_members fuel r4 acc
                              else if Nat.eqb n 125 then Some (acc, r4)
                              else None
                          | [] => None
                          end
                      | None => None
                      end
                    else None
                | [] => None
                end
            | None => None
            end
          else None
      | [] => None
      end
  end.

Definition JSONDecodeError : exn := mkExn "JSONDecodeError" "Expecting value".

Definition json_decode (text : string) : result value :=
  let l := list_ascii_of_string text in
  match decode_value (S (length l)) l with
  | Some (v, r) =>
      match skip_ws r with
      | [] => Ok v
      | _ => Raise JSONDecodeError
      end
  | None => Raise JSONDecodeError
  end.

(** Collaborators that record what they were called with: a call returns
    an object whose attributes are the callee and its arguments.  No
    setting is stored, no factory method or initializer is registered, and
    a set is visited in the order its elements were inserted. *)
Definition call_record (id : nat) (callee : value) (args : list value)
  (kwargs : dict) : value :=
  VObj id [(VStr "callee", callee); (VStr "args", VList args);
           (VStr "kwargs", VDict kwargs)].

Definition recording : externals := {|
  json_loads := json_decode;
  invoke := fun f args kwargs => Ok (call_record 1000 f args kwargs);
  ext := fun name args kwargs => Ok (call_record 1001 (VStr name) args kwargs);
  str_of := fun _ => "<object>";
  set_order := fun l => l;
  get_from_db := fun _ => VNone;
  instance_of := fun _ _ => false;
  is_openai_v1 := true;
  NODE_ID_DICT := "node_id_dict";
  PRESET_QUESTION := "preset_question";
  CUSTOM_NODES := [];
  agent_from_method_nodes := [];
  chain_from_method_nodes := [];
  wrapper_from_method_nodes := [];
  output_parser_from_method_nodes := [];
  retriever_from_method_nodes := [];
  vecstore_initializer := []
|}.

(** The name a callable goes by: a function's own, a class's [__name__]. *)
Definition callee_name (f : value) : string :=
  match f with
  | VFun name _ => name
  | VObj _ attrs =>
      match dict_get attrs "__name__" with
      | Some (VStr name) => name
      | _ => EmptyString
      end
  | _ => EmptyString
  end.

Fixpoint answer_of (answers : list (string * result value)) (name : string)
  : option (result value) :=
  match answers with
  | [] => None
  | (n, r) :: rest => if String.eqb n name then Some r else answer_of rest name
  end.

(** Collaborators with prepared answers: a call of a callable or of an
    imported function whose name is listed returns the listed outcome, any
    other call is recorded as by [recording].  [order] is the order in
    which sets are visited. *)
Definition scripted (answers : list (string * result value))
  (order : list value -> list value) : externals := {|
  json_loads := json_decode;
  invoke := fun f args kwargs =>
    match answer_of answers (callee_name f) with
    | Some r => r
    | None => Ok (call_record 1000 f args kwargs)
    end;
  ext := fun name args kwargs =>
    match answer_of answers name with
    | Some r => r
    | None => Ok (call_record 1001 (VStr name) args kwargs)
    end;
  str_of := fun _ => "<object>";
  set_order := order;
  get_from_db := fun _ => VNone;
  instance_of := fun _ _ => false;
  is_openai_v1 := true;
  NODE_ID_DICT := "node_id_dict";
  PRESET_QUESTION := "preset_question";
  CUSTOM_NODES := [];
  agent_from_method_nodes := [(VStr "ZeroShotAgent", VStr "from_llm_and_tools")];
  chain_from_method_nodes := [(VStr "ConversationalRetrievalChain", VStr "from_llm")];
  wrapper_from_method_nodes := [];
  output_parser_from_method_nodes := [];
  retriever_from_method_nodes := [];
  vecstore_initializer := []
|}.


(** ** Auxiliary notions *)

(** A text between double quotes. *)
Definition quoted (s : string) : string := dquote ++ s ++ dquote.

(** No element is equal to a later one: what [dedup] establishes. *)
Fixpoint distinct (l : list value) : Prop :=
  match l with
  | [] => True
  | x :: r => Forall (fun y => py_eqb x y = false) r /\ distinct r
  end.

(** No parameter that the decoder looks at still holds a text. *)
Definition decoded (params : dict) : bool :=
  forallb (fun kv => negb (is_kwargs_key (fst kv) && is_str (snd kv))) params.

(** What [convert_params_to_sets] leaves under one of its three keys. *)
Definition set_or_absent (o : option value) : Prop :=
  o = None \/ exists l, o = Some (VSet l) /\ distinct l /\ forallb hashable l = true.

(** The [metadata] parameter is no text that fails to decode. *)
Definition metadata_decodes (E : externals) (params : dict) : bool :=
  match dict_get params "metadata" with
  | Some (VStr text) => String.eqb text EmptyString || is_ok (json_loads E text)
  | _ => true
  end.

(** The parameter [name] is absent or a text. *)
Definition text_or_absent (params : dict) (name : string) : bool :=
  match dict_get params name with
  | Some v => is_str v
  | None => true
  end.

(** [x] names a parameter that is fed by other nodes: it is a key of the
    source-id bundle. *)
Definition node_bound (param_id_dict : dict) (x : value) : bool :=
  existsb (py_eqb x) (dedup (dict_keys param_id_dict)).

(** The entry of the [Report] chain list for [chain], with or without the
    node a preset question is addressed to. *)
Definition report_entry (chain : value) (target : option value) (key text : value)
  : value :=
  match target with
  | Some node_id =>
      VDict [(VStr "object", chain); (VStr "node_id", node_id);
             (VStr "input", VDict [(key, text)])]
  | None =>
      VDict [(VStr "object", chain); (VStr "input", VDict [(key, text)])]
  end.

(** [raw] is a sequence holding [target] at index 0 and [text] at index 1. *)
Definition is_pair (raw : value) (pair : value * value) : Prop :=
  py_index raw 0 = Ok (fst pair) /\ py_index raw 1 = Ok (snd pair).

(** Collaborators with one custom node, [JsonAgent], registered with an
    [initialize] hook, and with a type resolver that knows no class. *)
Definition customized : externals := {|
  json_loads := json_decode;
  invoke := fun f args kwargs => Ok (call_record 1000 f args kwargs);
  ext := fun name args kwargs => Raise (mkExn "ImportError" name);
  str_of := fun _ => "<object>";
  set_order := fun l => l;
  get_from_db := fun _ => VNone;
  instance_of := fun _ _ => false;
  is_openai_v1 := true;
  NODE_ID_DICT := "node_id_dict";
  PRESET_QUESTION := "preset_question";
  CUSTOM_NODES :=
    [(VStr "JsonAgent", VObj 7 [(VStr "initialize", VFun "initialize" [])])];
  agent_from_method_nodes := [];
  chain_from_method_nodes := [];
  wrapper_from_method_nodes := [];
  output_parser_from_method_nodes := [];
  retriever_from_method_nodes := [];
  vecstore_initializer := []
|}.

(** Collaborators whose every class builds the tool named
    [web search tool], an instance of [BaseTool]. *)
Definition tooling : externals := {|
  json_loads := json_decode;
  invoke := fun f args kwargs =>
    Ok (VObj 30 [(VStr "name", VStr "web search tool");
                 (VStr "args_schema", VNone)]);
  ext := fun name args kwargs => Ok (call_record 1001 (VStr name) args kwargs);
  str_of := fun _ => "<object>";
  set_order := fun l => l;
  get_from_db := fun _ => VNone;
  instance_of := fun _ cls => String.eqb cls "BaseTool";
  is_openai_v1 := true;
  NODE_ID_DICT := "node_id_dict";
  PRESET_QUESTION := "preset_question";
  CUSTOM_NODES := [];
  agent_from_method_nodes := [];
  chain_from_method_nodes := [];
  wrapper_from_method_nodes := [];
  output_parser_from_method_nodes := [];
  retriever_from_method_nodes := [];
  vecstore_initializer := []
|}.

(** Collaborators whose settings store holds request tuning for model
    clients, and whose every class builds a client with a
    [request_timeout] attribute and without a [max_retries] attribute. *)
Definition tuned : externals := {|
  json_loads := json_decode;
  invoke := fun f args kwargs =>
    Ok (VObj 40 [(VStr "model", VStr "gpt"); (VStr "request_timeout", VNone)]);
  ext := fun name args kwargs => Ok (call_record 1001 (VStr name) args kwargs);
  str_of := fun _ => "<object>";
  set_order := fun l => l;
  get_from_db := fun key =>
    if String.eqb key "llm_request"
    then VDict [(VStr "request_timeout", VInt 30); (VStr "max_retries", VInt 2)]
    else VNone;
  instance_of := fun _ _ => false;
  is_openai_v1 := true;
  NODE_ID_DICT := "node_id_dict";
  PRESET_QUESTION := "preset_question";
  CUSTOM_NODES := [];
  agent_from_method_nodes := [];
  chain_from_method_nodes := [];
  wrapper_from_method_nodes := [];
  output_parser_from_method_nodes := [];
  retriever_from_method_nodes := [];
  vecstore_initializer := []
|}.

(** The stored request tuning names [key] with a value that is no text. *)
Definition tuning_is_plain (config : dict) (key : string) : bool :=
  match dict_get config key with
  | Some v => negb (is_str v)
  | None => true
  end.

(** The [chain_order] parameter is absent, is no text, or is a text the
    decoder rejects. *)
Definition chain_order_unparsable (E : externals) (params : dict) : bool :=
  match dict_get params "chain_order" with
  | Some (VStr text) => negb (is_ok (json_loads E text))
  | _ => true
  end.

(** [{k: v for k, v in pairs if v is not None}] *)
Definition without_none (pairs : dict) : dict :=
  filter (fun kv => match snd kv with VNone => false | _ => true end) pairs.

(** A keyword dictionary given by its names and values. *)
Definition text_keys (l : list (string * value)) : dict :=
  map (fun kv => (VStr (fst kv), snd kv)) l.

(** A parameter as [instantiate_retriever] leaves it: replaced by its
    retrieval adapter when its name contains [retriever] and its value can
    be adapted. *)
Definition adapted (adapt : value -> value) (kv : string * value)
  : string * value :=
  (fst kv,
   if str_contains "retriever" (fst kv) && hasattr (snd kv) "as_retriever"
   then adapt (snd kv) else snd kv).

(** ** Graph helpers *)

(** The dictionary comprehension of [build_vertex_in_params]: the entries
    are stored one after the other. *)
Fixpoint build_vertex_items (E : externals) (items : list (value * value))
  (acc : dict) : result dict :=
  match items with
  | [] => Ok acc
  | (key, v) :: rest =>
      v' <- (if instance_of E v "Vertex" then call_method E v "build" [] []
             else Ok v) ;;
      build_vertex_items E rest (dict_set acc key v')
  end.

(** [build_vertex_in_params] *)
Definition build_vertex_in_params (E : externals) (params : dict)
  : result dict :=
  build_vertex_items E params [].

(** The newline character, as a text. *)
Definition newline : string := String (Ascii.ascii_of_nat 10) EmptyString.

(** [sep.join(parts)]: every part must be a text. *)
Fixpoint str_join (sep : string) (parts : list value) : result string :=
  match parts with
  | [] => Ok EmptyString
  | VStr s :: rest =>
      match rest with
      | [] => Ok s
      | _ :: _ => r <- str_join sep rest ;; Ok (s ++ sep ++ r)%string
      end
  | _ :: _ => Raise (TypeError "sequence item: expected str instance")
  end.

(** [v[k1][k2]...] for text keys. *)
Fixpoint py_path (v : value) (keys : list string) : result value :=
  match keys with
  | [] => Ok v
  | k :: rest => x <- py_getitem v (VStr k) ;; py_path x rest
  end.

(** [d[key] = v] *)
Definition py_setitem (d : value) (key : string) (v : value) : result value :=
  match d with
  | VDict items => Ok (VDict (dict_set items key v))
  | _ => Raise (TypeError "object does not support item assignment")
  end.

(** [[f"{tool['data']['node']['name']}: {tool['data']['node']['description']}"
      for tool in tools]] *)
Fixpoint tool_strings_of (E : externals) (tools : list value)
  : result (list value) :=
  match tools with
  | [] => Ok []
  | tool :: rest =>
      name <- py_path tool ["data"; "node"; "name"] ;;
      description <- py_path tool ["data"; "node"; "description"] ;;
      lines <- tool_strings_of E rest ;;
      Ok (VStr (py_str E name ++ ": " ++ py_str E description)%string :: lines)
  end.

(** [[tool['data']['node']['name'] for tool in tools]] *)
Fixpoint tool_names_of (tools : list value) : result (list value) :=
  match tools with
  | [] => Ok []
  | tool :: rest =>
      name <- py_path tool ["data"; "node"; "name"] ;;
      names <- tool_names_of rest ;;
      Ok (name :: names)
  end.

(** [format_instructions.format(tool_names=tool_names)]; the formatting
    of a text is the builtin's. *)
Definition format_tool_names (E : externals) (format_instructions : value)
  (tool_names : string) : result value :=
  match format_instructions with
  | VStr _ =>
      ext E "str.format" [format_instructions]
          [(VStr "tool_names", VStr tool_names)]
  | _ =>
      call_method E format_instructions "format" []
        [(VStr "tool_names", VStr tool_names)]
  end.

(** The node description [build_prompt_template] installs around the
    template text [text]. *)
Definition prompt_template_node (text : value) : value :=
  VDict
    [(VStr "template",
      VDict
        [(VStr "_type", VStr "prompt");
         (VStr "input_variables",
          VDict [(VStr "type", VStr "str");
                 (VStr "required", VBool true);
                 (VStr "placeholder", VStr EmptyString);
                 (VStr "list", VBool true);
                 (VStr "show", VBool false);
                 (VStr "multiline", VBool false)]);
         (VStr "output_parser",
          VDict [(VStr "type", VStr "BaseOutputParser");
                 (VStr "required", VBool false);
                 (VStr "placeholder", VStr EmptyString);
                 (VStr "list", VBool false);
                 (VStr "show", VBool false);
                 (VStr "multline", VBool false);
                 (VStr "value", VNone)]);
         (VStr "template",
          VDict [(VStr "type", VStr "str");
                 (VStr "required", VBool true);
                 (VStr "placeholder", VStr EmptyString);
                 (VStr "list", VBool false);
                 (VStr "show", VBool true);
                 (VStr "multiline", VBool true);
                 (VStr "value", text)]);
         (VStr "template_format",
          VDict [(VStr "type", VStr "str");
                 (VStr "required", VBool false);
                 (VStr "placeholder", VStr EmptyString);
                 (VStr "list", VBool false);
                 (VStr "show", VBool false);
                 (VStr "multline", VBool false);
                 (VStr "value", VStr "f-string")]);
         (VStr "validate_template",
          VDict [(VStr "type", VStr "bool");
                 (VStr "required", VBool false);
                 (VStr "placeholder", VStr EmptyString);
                 (VStr "list", VBool false);
                 (VStr "show", VBool false);
                 (VStr "multline", VBool false);
                 (VStr "value", VBool true)])]);
     (VStr "description", VStr "Schema to represent a prompt for an LLM.");
     (VStr "base_classes", VList [VStr "BasePromptTemplate"])].

(** [build_prompt_template]: the prompt dictionary is updated and
    returned. *)
Definition build_prompt_template (E : externals) (prompt : value)
  (tools : list value) : result value :=
  prefix <- py_path prompt ["node"; "template"; "prefix"; "value"] ;;
  suffix <- py_path prompt ["node"; "template"; "suffix"; "value"] ;;
  format_instructions <-
    py_path prompt ["node"; "template"; "format_instructions"; "value"] ;;
  lines <- tool_strings_of E tools ;;
  tool_strings <- str_join newline lines ;;
  names <- tool_names_of tools ;;
  tool_names <- str_join ", " names ;;
  format_instructions <- format_tool_names E format_instructions tool_names ;;
  text <- str_join (newline ++ newline)%string
            [prefix; VStr tool_strings; format_instructions; suffix] ;;
  prompt <- py_setitem prompt "type" (VStr "PromptTemplate") ;;
  py_setitem prompt "node" (prompt_template_node (VStr text)).

(** The tool nodes [replace_zero_shot_prompt_with_prompt_template]
    selects: not a chat output node, and [Tool] among its base classes. *)
Fixpoint tool_nodes (nodes : list value) : result (list value) :=
  match nodes with
  | [] => Ok []
  | tool :: rest =>
      type <- py_getitem tool (VStr "type") ;;
      keep <- (if negb (py_eqb type (VStr "chatOutputNode")) then
                 classes <- py_path tool ["data"; "node"; "base_classes"] ;;
                 py_in (VStr "Tool") classes
               else Ok false) ;;
      tools <- tool_nodes rest ;;
      Ok (if keep then tool :: tools else tools)
  end.

(** The loop of [replace_zero_shot_prompt_with_prompt_template] over the
    nodes still to visit; [nodes] is the whole list. *)
Fixpoint replace_first_zero_shot (E : externals) (nodes to_visit : list value)
  : result (list value) :=
  match to_visit with
  | [] => Ok []
  | node :: rest =>
      data <- py_getitem node (VStr "data") ;;
      type <- py_getitem data (VStr "type") ;;
      if py_eqb type (VStr "ZeroShotPrompt") then
        tools <- tool_nodes nodes ;;
        prompt <- py_getitem node (VStr "data") ;;
        built <- build_prompt_template E prompt tools ;;
        node <- py_setitem node "data" built ;;
        Ok (node :: rest)
      else
        rest <- replace_first_zero_shot E nodes rest ;;
        Ok (node :: rest)
  end.

(** [replace_zero_shot_prompt_with_prompt_template] on a list of node
    dictionaries. *)
Definition replace_zero_shot_prompt_with_prompt_template (E : externals)
  (nodes : list value) : result (list value) :=
  replace_first_zero_shot E nodes nodes.

(** A node whose [data] is of a type other than [ZeroShotPrompt]. *)
Definition other_node (node : value) : Prop :=
  exists data type,
    py_getitem node (VStr "data") = Ok data
    /\ py_getitem data (VStr "type") = Ok type
    /\ py_eqb type (VStr "ZeroShotPrompt") = false.

(** Collaborators whose text formatting puts the tool names in the place
    of the whole format text, and for which every object with a [build]
    attribute is a graph vertex: a [build] without captured state returns
    [VInt 7], any other [build] raises. *)
Definition graphing : externals := {|
  json_loads := json_decode;
  invoke := fun f args kwargs =>
    if String.eqb (callee_name f) "build" then
      match f with
      | VFun _ [] => Ok (VInt 7)
      | _ => Raise (ValueError "vertex not built")
      end
    else Ok (call_record 1000 f args kwargs);
  ext := fun name args kwargs =>
    if String.eqb name "str.format"
    then Ok (dict_get_default kwargs "tool_names" VNone)
    else Ok (call_record 1001 (VStr name) args kwargs);
  str_of := fun _ => "<object>";
  set_order := fun l => l;
  get_from_db := fun _ => VNone;
  instance_of := fun v cls => String.eqb cls "Vertex" && hasattr v "build";
  is_openai_v1 := true;
  NODE_ID_DICT := "node_id_dict";
  PRESET_QUESTION := "preset_question";
  CUSTOM_NODES := [];
  agent_from_method_nodes := [];
  chain_from_method_nodes := [];
  wrapper_from_method_nodes := [];
  output_parser_from_method_nodes := [];
  retriever_from_method_nodes := [];
  vecstore_initializer := []
|}.

(** A parameter as [build_vertex_in_params] leaves it: a graph vertex
    replaced by what [built] says its [build] returns. *)
Definition vertex_built (E : externals) (built : value -> value)
  (kv : string * value) : string * value :=
  (fst kv, if instance_of E (snd kv) "Vertex" then built (snd kv) else snd kv).

(** The line of the prompt that presents a tool. *)
Definition tool_line (nd : string * string) : string :=
  (fst nd ++ ": " ++ snd nd)%string.

(** A tool node whose name and description are the texts [nd]. *)
Definition described (tool : value) (nd : string * string) : Prop :=
  py_path tool ["data"; "node"; "name"] = Ok (VStr (fst nd))
  /\ py_path tool ["data"; "node"; "description"] = Ok (VStr (snd nd)).

(** A document object whose [metadata] attribute is a dictionary. *)
Definition has_metadata (doc : value) : Prop :=
  exists id attrs own,
    doc = VObj id attrs /\ dict_get attrs (VStr "metadata") = Some (VDict own).

(** [doc'] is [doc] after the metadata [ms] was merged into it: the same
    object, every supplied entry present, every other entry of its own
    kept; a document without entries holds the supplied mapping itself. *)
Definition merged_into (ms : list (string * value)) (doc doc' : value) : Prop :=
  exists id attrs own merged,
    doc = VObj id attrs
    /\ dict_get attrs (VStr "metadata") = Some (VDict own)
    /\ doc' = VObj id (dict_set attrs (VStr "metadata") (VDict merged))
    /\ (forall k : string,
          dict_get merged (VStr k)
          = match dict_get (text_keys ms) (VStr k) with
            | Some v => Some v
            | None => dict_get own (VStr k)
            end)
    /\ (own = [] -> merged = text_keys ms).

(** ** Notions used by the statements *)


(** What the chain strategy makes of the [retriever] parameter: nothing
    when there is none; the value itself when it offers no [as_retriever];
    otherwise the adapter built from it, which is the permission-filtering
    adapter for the caller's user name when the [file_access] setting
    holds an address [url], and the result of [as_retriever()] when the
    setting is empty. *)
Definition retriever_adapter (E : externals) (params : dict)
  (final : option value) : Prop :=
  (dict_get params (VStr "retriever") = None /\ final = None)
  \/ (exists r,
        dict_get params (VStr "retriever") = Some r
        /\ hasattr r "as_retriever" = false
        /\ final = Some r)
  \/ (exists r method adapter,
        dict_get params (VStr "retriever") = Some r
        /\ py_getattr r "as_retriever" = Some method
        /\ truthy (get_from_db E "file_access") = false
        /\ invoke E method [] [] = Ok adapter
        /\ final = Some adapter)
  \/ (exists r url adapter,
        dict_get params (VStr "retriever") = Some r
        /\ hasattr r "as_retriever" = true
        /\ get_from_db E "file_access" = VStr url
        /\ url <> EmptyString
        /\ ext E "VectorStoreFilterRetriever" []
             [(VStr "vectorstore", r);
              (VStr "access_url",
               VStr (url ++ "?username="
                     ++ py_str E (dict_get_default params (VStr "user_name")
                                    (VStr EmptyString))))]
           = Ok adapter
        /\ final = Some adapter).

(** What the preset questions hold for the source id of one chain:
    nothing; a value [raw] that is no list and holds [target] and [text]
    at its two positions; or a list [raw] whose elements hold the pairs
    [pairs]. *)
Inductive preset : Type :=
| NoPreset
| OnePreset (raw target text : value)
| PresetList (raw : list value) (pairs : list (value * value)).

(** One chain of a [Report] node: its source id, the chain object, the
    first of its input keys and the preset questions for the id. *)
Record report_row : Type := mkRow {
  row_id : value;
  row_chain : value;
  row_key : value;
  row_preset : preset
}.

(** The entries the specification asks for one chain. *)
Definition row_entries (r : report_row) : list value :=
  match row_preset r with
  | NoPreset => [report_entry (row_chain r) None (row_key r) (VStr "start")]
  | OnePreset _ target text =>
      [report_entry (row_chain r) (Some target) (row_key r) text]
  | PresetList _ pairs =>
      map (fun pair => report_entry (row_chain r) (Some (fst pair)) (row_key r)
                         (snd pair)) pairs
  end.

(** The row describes its chain and what [presets] holds for its id. *)
Definition row_ok (presets : dict) (r : report_row) : Prop :=
  hashable (row_id r) = true
  /\ (exists keys, attr (row_chain r) "input_keys" = Ok keys
                   /\ py_index keys 0 = Ok (row_key r))
  /\ hashable (row_key r) = true
  /\ match row_preset r with
     | NoPreset => dict_get presets (row_id r) = None
     | OnePreset raw target text =>
         dict_get presets (row_id r) = Some raw
         /\ is_list raw = false
         /\ is_pair raw (target, text)
     | PresetList raw pairs =>
         dict_get presets (row_id r) = Some (VList raw)
         /\ Forall2 is_pair raw pairs
     end.

(** The entry of the [variables] list for one source id. *)
Definition variable_entry (p : value * value) : value :=
  VDict [(VStr "node_id", fst p); (VStr "input", snd p)].

(** The source ids the variable loop of a [Report] node runs over: the
    list under [variables] in the source-id bundle, or none at all when
    nothing, or something empty, is stored there. *)
Definition variable_ids (id_dict : dict) (vids : list value) : Prop :=
  dict_get id_dict (VStr "variables") = Some (VList vids)
  \/ (vids = []
      /\ truthy (dict_get_default id_dict (VStr "variables") VNone) = false).

(** The prompt the strategy works on: what [handle_node_type],
    [handle_format_kwargs] and, for non-empty format arguments,
    [handle_partial_variables] return. *)
Definition prompt_prepared (E : externals) (node_type : string)
  (class_object : value) (params : dict) (prompt format_kwargs : value) : Prop :=
  exists params' raw,
    ext E "handle_node_type" [VStr node_type; class_object; VDict params] []
    = Ok (VTuple [params'; raw])
    /\ ext E "handle_format_kwargs" [raw; params'] [] = Ok format_kwargs
    /\ (if truthy format_kwargs
        then ext E "handle_partial_variables" [raw; format_kwargs] []
        else Ok raw) = Ok prompt.

(** [final] lists human-input variables first, node-bound ones after. *)
Definition human_first (param_id_dict : dict) (final : list value) : Prop :=
  exists human bound,
    final = human ++ bound
    /\ Forall (fun x => node_bound param_id_dict x = false) human
    /\ Forall (fun x => node_bound param_id_dict x = true) bound.

(** A record of the knowledge directory, by the attributes the module
    reads. *)
Record knowledge : Type := mkKnowledge {
  knowledge_id : value;
  knowledge_collection : string;
  knowledge_index : value;
  knowledge_model : value
}.







(* ================================================================== *)
(** * Part II: properties                                               *)
(* ================================================================== *)


(** ** Dictionaries with text keys *)

Lemma py_eqb_str_inv (k : value) (a : string) :
  py_eqb k (VStr a) = true -> k = VStr a.
Proof.
  destruct k; simpl; try discriminate.
  intros H. apply String.eqb_eq in H. now subst.
Qed.

Lemma py_eqb_str (a b : string) : py_eqb (VStr a) (VStr b) = String.eqb a b.
Proof. reflexivity. Qed.

Lemma dict_get_set_str (d : dict) (a b : string) (v : value) :
  dict_get (dict_set d (VStr a) v) (VStr b)
  = if String.eqb a b then Some v else dict_get d (VStr b).
Proof.
  induction d as [|[k x] d IH]; simpl.
  - now destruct (String.eqb a b).
  - destruct (py_eqb k (VStr a)) eqn:Hk; simpl.
    + apply py_eqb_str_inv in Hk. subst k. simpl.
      destruct (String.eqb a b) eqn:Hab; reflexivity.
    + destruct (py_eqb k (VStr b)) eqn:Hb.
      * apply py_eqb_str_inv in Hb. subst k. simpl in Hk.
        rewrite String.eqb_sym in Hk. now rewrite Hk.
      * exact IH.
Qed.

Lemma dict_get_del_str (d : dict) (a b : string) :
  dict_get (dict_del d (VStr a)) (VStr b)
  = if String.eqb a b then None else dict_get d (VStr b).
Proof.
  induction d as [|[k x] d IH]; simpl.
  - now destruct (String.eqb a b).
  - destruct (py_eqb k (VStr a)) eqn:Hk.
    + apply py_eqb_str_inv in Hk. subst k. simpl.
      rewrite IH. now destruct (String.eqb a b).
    + simpl. destruct (py_eqb k (VStr b)) eqn:Hb.
      * apply py_eqb_str_inv in Hb. subst k. simpl in Hk.
        rewrite String.eqb_sym in Hk. now rewrite Hk.
      * exact IH.
Qed.

Lemma dict_set_same (d : dict) (k v : value) :
  dict_get d k = Some v -> dict_set d k v = d.
Proof.
  induction d as [|[k' x] d IH]; simpl; [discriminate|].
  destruct (py_eqb k' k); intros H.
  - now inversion H.
  - now rewrite IH.
Qed.

Lemma dict_del_absent (d : dict) (k : value) :
  dict_get d k = None -> dict_del d k = d.
Proof.
  induction d as [|[k' x] d IH]; simpl; [reflexivity|].
  destruct (py_eqb k' k); [discriminate|].
  intros H. now rewrite IH.
Qed.

Lemma dict_mem_get (d : dict) (k : value) :
  dict_mem d k = false <-> dict_get d k = None.
Proof.
  unfold dict_mem. destruct (dict_get d k); split; congruence.
Qed.

Lemma dict_pop_default_pair (d : dict) (k : string) (dflt : value) :
  dict_pop_default d k dflt = (dict_get_default d k dflt, dict_del d k).
Proof.
  unfold dict_pop_default, dict_get_default.
  destruct (dict_get d k) eqn:H; [reflexivity|]. now rewrite dict_del_absent.
Qed.

Lemma dict_set_twice (d : dict) (k : string) (v w : value) :
  dict_set (dict_set d (VStr k) v) (VStr k) w = dict_set d (VStr k) w.
Proof.
  induction d as [|[k0 v0] d IH]; cbn [dict_set].
  - rewrite py_eqb_str, String.eqb_refl. reflexivity.
  - destruct (py_eqb k0 (VStr k)) eqn:Hk; cbn [dict_set]; rewrite Hk;
      [reflexivity|].
    now rewrite IH.
Qed.

Lemma skipn_cons_nth (A : Type) (l : list A) (i : nat) (x : A) :
  nth_error l i = Some x -> skipn i l = x :: skipn (S i) l.
Proof.
  revert l. induction i as [|i IH]; intros [|y l] H; simpl in *;
    try discriminate.
  - now inversion H.
  - now apply IH.
Qed.

(** ** Sets *)

Lemma dedup_texts (strs : list string) :
  exists s', dedup (map VStr strs) = map VStr s'
             /\ NoDup s' /\ forall x, In x s' <-> In x strs.
Proof.
  induction strs as [|a strs (s' & Hd & Hnd & Hin)]; simpl.
  - exists []. repeat split; auto; constructor.
  - exists (a :: filter (fun y => negb (String.eqb a y)) s').
    rewrite Hd. split; [|split].
    + simpl. f_equal. clear. induction s' as [|y s' IH]; simpl; [reflexivity|].
      destruct (String.eqb a y); simpl; now rewrite IH.
    + constructor; [|now apply NoDup_filter].
      intros H. apply filter_In in H. destruct H as [_ H].
      now rewrite String.eqb_refl in H.
    + intros x. simpl. rewrite filter_In, Hin. split.
      * intros [H|[H _]]; auto.
      * intros [H|H]; auto.
        destruct (String.eqb a x) eqn:Hax.
        -- left. now apply String.eqb_eq.
        -- right. split; auto.
Qed.

Lemma filter_distinct (P : value -> bool) (l : list value) :
  distinct l -> distinct (filter P l).
Proof.
  induction l as [|x l IH]; simpl; [trivial|].
  intros [Hx Hl]. destruct (P x); simpl; auto.
  split; auto.
  rewrite Forall_forall in *. intros y Hy.
  apply filter_In in Hy. now apply Hx.
Qed.

Lemma dedup_distinct (l : list value) : distinct (dedup l).
Proof.
  induction l as [|x l IH]; simpl; [trivial|].
  split.
  - rewrite Forall_forall. intros y Hy. apply filter_In in Hy.
    destruct Hy as [_ Hy]. now destruct (py_eqb x y).
  - now apply filter_distinct.
Qed.

Lemma dedup_id (l : list value) : distinct l -> dedup l = l.
Proof.
  induction l as [|x l IH]; simpl; [reflexivity|].
  intros [Hx Hl]. rewrite (IH Hl). f_equal.
  clear IH Hl. induction l as [|y l IH]; simpl; [reflexivity|].
  inversion Hx as [|? ? Hy Hl]; subst. rewrite Hy. simpl. now rewrite IH.
Qed.

Lemma dedup_hashable (l : list value) :
  forallb hashable l = true -> forallb hashable (dedup l) = true.
Proof.
  induction l as [|x l IH]; simpl; [reflexivity|].
  intros H. apply andb_prop in H. destruct H as [Hx Hl].
  rewrite Hx. simpl. specialize (IH Hl).
  rewrite forallb_forall in *. intros y Hy.
  apply filter_In in Hy. now apply IH.
Qed.

Lemma py_set_result (v s : value) :
  py_set v = Ok s ->
  exists l, s = VSet l /\ distinct l /\ forallb hashable l = true.
Proof.
  unfold py_set. destruct (py_iter v) as [l|e]; simpl; [|discriminate].
  destruct (forallb hashable l) eqn:Hh; [|discriminate].
  intros H. inversion H. exists (dedup l).
  repeat split; auto using dedup_distinct, dedup_hashable.
Qed.

Lemma py_set_fixed (l : list value) :
  distinct l -> forallb hashable l = true -> py_set (VSet l) = Ok (VSet l).
Proof.
  intros Hd Hh. unfold py_set. simpl. rewrite Hh. now rewrite dedup_id.
Qed.

(** ** Normalization *)

Lemma is_kwargs_key_str (k : value) :
  is_kwargs_key k = true -> exists a, k = VStr a.
Proof. destruct k; simpl; try discriminate. eauto. Qed.

Lemma convert_kwargs_loop_frame (E : externals) (keys : list value) :
  forall (q p1 : dict) (b : string),
    Forall (fun k => is_kwargs_key k = true) keys ->
    convert_kwargs_loop E keys q = Ok p1 ->
    is_kwargs_key (VStr b) = false ->
    dict_get p1 (VStr b) = dict_get q (VStr b).
Proof.
  induction keys as [|key keys IH]; simpl; intros q p1 b Hk Hrun Hb.
  - now inversion Hrun.
  - inversion Hk as [|? ? Hkey Hkeys]; subst.
    destruct (is_kwargs_key_str _ Hkey) as [a ->].
    destruct (dict_get q (VStr a)) as [v|] eqn:Hget.
    + destruct v; try (now apply IH).
      destruct (json_loads E s) as [v|e] eqn:Hjs; simpl in Hrun; [|discriminate].
      rewrite (IH _ _ _ Hkeys Hrun Hb), dict_get_set_str.
      destruct (String.eqb a b) eqn:Hab; [|reflexivity].
      apply String.eqb_eq in Hab. subst b. simpl in Hkey. congruence.
    + now apply IH.
Qed.

Lemma convert_kwargs_loop_decoded (E : externals) (keys : list value) (p : dict) :
  (forall k s, In k keys -> dict_get p k <> Some (VStr s)) ->
  convert_kwargs_loop E keys p = Ok p.
Proof.
  induction keys as [|key keys IH]; simpl; intros H; [reflexivity|].
  destruct (dict_get p key) as [v|] eqn:Hget.
  - destruct v; try (apply IH; intros; apply H; auto).
    exfalso. apply (H key s); auto.
  - apply IH. intros; apply H; auto.
Qed.

Lemma convert_kwargs_frame (E : externals) (q p1 : dict) (b : string) :
  convert_kwargs E q = Ok p1 ->
  is_kwargs_key (VStr b) = false ->
  dict_get p1 (VStr b) = dict_get q (VStr b).
Proof.
  unfold convert_kwargs. intros Hrun Hb.
  apply (convert_kwargs_loop_frame E _ q p1 b) in Hrun; trivial.
  rewrite Forall_forall. intros k Hk. now apply filter_In in Hk.
Qed.

Lemma convert_params_to_sets_post (params q : dict) :
  convert_params_to_sets params = Ok q ->
  set_or_absent (dict_get q "allowed_special")
  /\ set_or_absent (dict_get q "disallowed_special")
  /\ dict_get q "input_node" = None.
Proof.
  unfold convert_params_to_sets.
  destruct (dict_get params "allowed_special") as [v1|] eqn:H1.
  - destruct (py_set v1) as [s1|e] eqn:Hs1; simpl; [|discriminate].
    destruct (py_set_result _ _ Hs1) as (l1 & -> & Hd1 & Hh1).
    destruct (dict_get (dict_set params "allowed_special" (VSet l1))
                       "disallowed_special") as [v2|] eqn:H2.
    + destruct (py_set v2) as [s2|e] eqn:Hs2; simpl; [|discriminate].
      destruct (py_set_result _ _ Hs2) as (l2 & -> & Hd2 & Hh2).
      intros H. inversion H; subst q; clear H.
      match goal with |- context [dict_mem ?d _] => destruct (dict_mem d "input_node") eqn:Hm end.
      * rewrite !dict_get_del_str, !dict_get_set_str. simpl.
        repeat split; right; eauto.
      * apply dict_mem_get in Hm. rewrite Hm, !dict_get_set_str. simpl.
        repeat split; right; eauto.
    + simpl. intros H. inversion H; subst q; clear H.
      match goal with |- context [dict_mem ?d _] => destruct (dict_mem d "input_node") eqn:Hm end.
      * rewrite !dict_get_del_str, !dict_get_set_str. simpl.
        rewrite dict_get_set_str in H2. simpl in H2. rewrite H2.
        repeat split; [right; eauto | now left].
      * apply dict_mem_get in Hm. rewrite Hm, H2, !dict_get_set_str. simpl.
        repeat split; [right; eauto | now left].
  - simpl.
    destruct (dict_get params "disallowed_special") as [v2|] eqn:H2.
    + destruct (py_set v2) as [s2|e] eqn:Hs2; simpl; [|discriminate].
      destruct (py_set_result _ _ Hs2) as (l2 & -> & Hd2 & Hh2).
      intros H. inversion H; subst q; clear H.
      match goal with |- context [dict_mem ?d _] => destruct (dict_mem d "input_node") eqn:Hm end.
      * rewrite !dict_get_del_str, !dict_get_set_str. simpl. rewrite H1.
        repeat split; [now left | right; eauto].
      * apply dict_mem_get in Hm. rewrite Hm, !dict_get_set_str. simpl. rewrite H1.
        repeat split; [now left | right; eauto].
    + simpl. intros H. inversion H; subst q; clear H.
      match goal with |- context [dict_mem ?d _] => destruct (dict_mem d "input_node") eqn:Hm end.
      * rewrite !dict_get_del_str. simpl. rewrite H1, H2.
        repeat split; now left.
      * apply dict_mem_get in Hm. rewrite Hm, H1, H2.
        repeat split; now left.
Qed.

Lemma convert_params_to_sets_fixed (p : dict) :
  set_or_absent (dict_get p "allowed_special") ->
  set_or_absent (dict_get p "disallowed_special") ->
  dict_get p "input_node" = None ->
  convert_params_to_sets p = Ok p.
Proof.
  intros Ha Hd Hi. unfold convert_params_to_sets.
  assert (Hstep1 :
    match dict_get p "allowed_special" with
    | Some v => s <- py_set v ;; Ok (dict_set p "allowed_special" s)
    | None => Ok p
    end = Ok p).
  { destruct Ha as [->|(l & Hl & Hdist & Hh)]; [reflexivity|].
    rewrite Hl, py_set_fixed by assumption. simpl.
    now rewrite dict_set_same. }
  rewrite Hstep1. simpl.
  assert (Hstep2 :
    match dict_get p "disallowed_special" with
    | Some v => s <- py_set v ;; Ok (dict_set p "disallowed_special" s)
    | None => Ok p
    end = Ok p).
  { destruct Hd as [->|(l & Hl & Hdist & Hh)]; [reflexivity|].
    rewrite Hl, py_set_fixed by assumption. simpl.
    now rewrite dict_set_same. }
  rewrite Hstep2. simpl.
  apply dict_mem_get in Hi. now rewrite Hi.
Qed.

Lemma decoded_get (p : dict) (k : value) (s : string) :
  decoded p = true -> is_kwargs_key k = true -> dict_get p k <> Some (VStr s).
Proof.
  intros Hdec Hk. destruct (is_kwargs_key_str _ Hk) as [a ->].
  induction p as [|[k0 v0] p IH]; simpl; [discriminate|].
  simpl in Hdec. apply andb_prop in Hdec. destruct Hdec as [H0 Hp].
  destruct (py_eqb k0 (VStr a)) eqn:Hk0; [|now apply IH].
  apply py_eqb_str_inv in Hk0. subst k0.
  rewrite Hk in H0. simpl in H0.
  intros Heq. inversion Heq; subst v0. discriminate.
Qed.

(** C10 (as amended).  Normalization is idempotent on every mapping whose
    normalized form holds no text under a name containing [kwargs] or
    [config]: normalizing the normalized mapping returns it unchanged.
    (A text that decodes to a text is decoded again by a second pass.) *)
Theorem normalize_idempotent (E : externals) (params p1 : dict) :
  normalize E params = Ok p1 ->
  decoded p1 = true ->
  normalize E p1 = Ok p1.
Proof.
  unfold normalize. intros Hrun Hdec.
  destruct (convert_params_to_sets params) as [q|e] eqn:Hq; simpl in Hrun;
    [|discriminate].
  destruct (convert_params_to_sets_post _ _ Hq) as (Ha & Hd & Hi).
  rewrite convert_params_to_sets_fixed; simpl.
  - unfold convert_kwargs. apply convert_kwargs_loop_decoded.
    intros k s Hin. apply filter_In in Hin. now apply decoded_get.
  - now rewrite (convert_kwargs_frame E q p1 "allowed_special" Hrun).
  - now rewrite (convert_kwargs_frame E q p1 "disallowed_special" Hrun).
  - now rewrite (convert_kwargs_frame E q p1 "input_node" Hrun).
Qed.

(** The theorem at work: a sequence with a repeated element becomes a
    set, the internal key is dropped, an encoded object is decoded, and a
    second pass changes nothing. *)
Lemma normalize_idempotent_witness :
  let params : dict :=
    [(VStr "allowed_special", VList [VStr "a"; VStr "b"; VStr "a"]);
     (VStr "input_node", VInt 7);
     (VStr "model_kwargs", VStr ("{" ++ quoted "temperature" ++ ": 1}"))] in
  let p1 : dict :=
    [(VStr "allowed_special", VSet [VStr "a"; VStr "b"]);
     (VStr "model_kwargs", VDict [(VStr "temperature", VInt 1)])] in
  normalize recording params = Ok p1 /\ normalize recording p1 = Ok p1.
Proof.
  split; [reflexivity|].
  apply (normalize_idempotent recording
           [(VStr "allowed_special", VList [VStr "a"; VStr "b"; VStr "a"]);
            (VStr "input_node", VInt 7);
            (VStr "model_kwargs", VStr ("{" ++ quoted "temperature" ++ ": 1}"))]);
    reflexivity.
Defined.

(** C10 (as stated) fails.  The parameter [model_kwargs] holding the JSON
    text of the text [1] is decoded to the text [1] by the first pass and
    to the number [1] by the second: both passes succeed and their results
    differ. *)
Lemma normalize_not_idempotent :
  normalize recording [(VStr "model_kwargs", VStr (quoted "1"))]
    = Ok [(VStr "model_kwargs", VStr "1")]
  /\ normalize recording [(VStr "model_kwargs", VStr "1")]
    = Ok [(VStr "model_kwargs", VInt 1)]
  /\ ~ (forall (E : externals) (params p1 : dict),
          normalize E params = Ok p1 -> normalize E p1 = Ok p1).
Proof.
  split; [reflexivity|]. split; [reflexivity|].
  intros H.
  specialize (H recording [(VStr "model_kwargs", VStr (quoted "1"))]
                [(VStr "model_kwargs", VStr "1")] eq_refl).
  discriminate H.
Qed.

(** ** Sequential chains *)

Lemma dict_pop_default_snd (d : dict) (k dflt : value) :
  snd (dict_pop_default d k dflt) = dict_del d k.
Proof.
  unfold dict_pop_default. destruct (dict_get d k) eqn:H; simpl; [reflexivity|].
  symmetry. now apply dict_del_absent.
Qed.

Lemma forallb_hashable_str (sids : list string) :
  forallb hashable (map VStr sids) = true.
Proof. induction sids; simpl; auto. Qed.

(** The index table built from text ids: an id that occurs once is mapped
    to its position, an id that does not occur keeps what [acc] gave it. *)
Lemma enumerate_dict_str (sids : list string) :
  forall (index : nat) (acc : dict),
  exists d,
    enumerate_dict (map VStr sids) index acc = Ok d
    /\ (forall id, ~ In id sids -> dict_get d (VStr id) = dict_get acc (VStr id))
    /\ (NoDup sids ->
        forall j id, nth_error sids j = Some id ->
                     dict_get d (VStr id) = Some (VInt (Z.of_nat (index + j)))).
Proof.
  induction sids as [|s sids IH]; intros index acc; simpl.
  - exists acc. repeat split; auto. intros _ [|]; discriminate.
  - destruct (IH (S index) (dict_set acc (VStr s) (VInt (Z.of_nat index))))
      as (d & Hd & Hout & Hin).
    exists d. split; [exact Hd|]. split.
    + intros id Hid. rewrite Hout by tauto. rewrite dict_get_set_str.
      destruct (String.eqb s id) eqn:Hs; [|reflexivity].
      apply String.eqb_eq in Hs. tauto.
    + intros Hnd j id Hj. inversion Hnd as [|? ? Hs Hnd']; subst.
      destruct j as [|j]; simpl in Hj.
      * inversion Hj; subst id. rewrite Hout by assumption.
        rewrite dict_get_set_str, String.eqb_refl. now rewrite Nat.add_0_r.
      * rewrite (Hin Hnd' j id Hj). do 3 f_equal. lia.
Qed.

Lemma reorder_chains_positions (sids : list string) (chains : list value)
  (chains_dict : dict) (js : list nat) :
  (forall j id, nth_error sids j = Some id ->
                dict_get chains_dict (VStr id) = Some (VInt (Z.of_nat j))) ->
  length sids <= length chains ->
  Forall (fun j => j < length sids) js ->
  reorder_chains (VList chains) chains_dict
                 (map (fun j => VStr (nth j sids EmptyString)) js)
  = Ok (map (fun j => nth j chains VNone) js).
Proof.
  intros Hd Hlen. induction js as [|j js IH]; intros Hjs; simpl; [reflexivity|].
  inversion Hjs as [|? ? Hj Hjs']; subst.
  unfold dict_get_dyn. simpl. unfold dict_get_default.
  rewrite (Hd j (nth j sids EmptyString)) by (now apply nth_error_nth').
  simpl.
  assert (Hz : (0 <=? Z.of_nat j)%Z = true) by (apply Z.leb_le; lia).
  rewrite Hz, Nat2Z.id. simpl.
  rewrite (nth_error_nth' chains VNone) by lia. simpl.
  now rewrite (IH Hjs').
Qed.

(** C2.  For a [SequentialChain] node the [chains] parameter is rebuilt
    from the decoded [chain_order] through the source ids of the
    sub-chains: when [chain_order] lists the (pairwise different) source
    ids found at positions [js] of the source-id list, the class is built
    with the sub-chains found at positions [js] of the arriving list, in
    that order.  With sub-chains [[A;B;C]], source ids [[1;2;3]] and order
    [[3;1;2]] the positions are [[2;0;1]] and the list is [[C;A;B]]. *)
Theorem sequential_chain_order (E : externals) (class_object : value)
  (params id_dict : dict) (text : string) (sids : list string)
  (chains : list value) (js : list nat) :
  dict_get params "retriever" = None ->
  dict_get params "headers" = None ->
  dict_get params "chain_order" = Some (VStr text) ->
  json_loads E text = Ok (VList (map (fun j => VStr (nth j sids EmptyString)) js)) ->
  dict_get params "chains" = Some (VList chains) ->
  dict_get id_dict "chains" = Some (VList (map VStr sids)) ->
  NoDup sids ->
  length sids <= length chains ->
  Forall (fun j => j < length sids) js ->
  instantiate_chains E "SequentialChain" class_object params (VDict id_dict)
  = from_method_or_construct E (chain_from_method_nodes E) "SequentialChain"
      class_object
      (dict_set (dict_del (dict_del params "input_node") "chain_order")
                "chains" (VList (map (fun j => nth j chains VNone) js))).
Proof.
  intros Hretr Hhead Horder Hjson Hchains Hids Hnd Hlen Hjs.
  unfold instantiate_chains. rewrite Hretr. simpl.
  unfold sequential_chain_params.
  rewrite dict_pop_default_snd.
  unfold dict_pop.
  rewrite dict_get_del_str. simpl. rewrite Horder. simpl.
  rewrite Hjson. simpl.
  unfold dict_get_default at 1 2.
  rewrite !dict_get_del_str. simpl. rewrite Hchains, Hids. simpl.
  destruct (enumerate_dict_str sids 0 []) as (d & Hd & _ & Hin).
  rewrite Hd. simpl.
  rewrite (reorder_chains_positions sids chains d js); auto;
    [|intros j id Hj; now rewrite (Hin Hnd j id Hj)].
  simpl. rewrite dict_get_set_str. simpl.
  rewrite !dict_get_del_str. simpl. rewrite Hhead. reflexivity.
Qed.

(** The example of the specification: sub-chains [[A;B;C]] arriving from
    nodes [1], [2], [3], ordered as [3], [1], [2]. *)
Lemma sequential_chain_order_witness :
  let A := VObj 1 [] in
  let B := VObj 2 [] in
  let C := VObj 3 [] in
  let class_object := VObj 10 [] in
  let text := ("[" ++ quoted "3" ++ "," ++ quoted "1" ++ "," ++ quoted "2" ++ "]")%string in
  instantiate_chains recording "SequentialChain" class_object
    [(VStr "chains", VList [A; B; C]); (VStr "chain_order", VStr text)]
    (VDict [(VStr "chains", VList [VStr "1"; VStr "2"; VStr "3"])])
  = construct recording class_object [(VStr "chains", VList [C; A; B])].
Proof.
  cbv zeta.
  rewrite (sequential_chain_order recording (VObj 10 [])
             [(VStr "chains", VList [VObj 1 []; VObj 2 []; VObj 3 []]);
              (VStr "chain_order",
               VStr ("[" ++ quoted "3" ++ "," ++ quoted "1" ++ "," ++ quoted "2" ++ "]")%string)]
             [(VStr "chains", VList [VStr "1"; VStr "2"; VStr "3"])]
             ("[" ++ quoted "3" ++ "," ++ quoted "1" ++ "," ++ quoted "2" ++ "]")%string
             ["1"; "2"; "3"] [VObj 1 []; VObj 2 []; VObj 3 []] [2; 0; 1]%nat).
  all: try reflexivity.
  - repeat constructor; simpl; intuition discriminate.
  - repeat constructor.
Defined.

(** ** Text splitter *)

(** C4 (as amended).  The text-splitter strategy fails with the
    missing-input [ValueError] exactly when the [documents] input is
    absent; when [documents] is present but empty it returns an empty list
    and raises nothing. *)
Theorem textsplitter_missing_input (E : externals) (class_object : value)
  (params : dict) :
  (dict_get params "documents" = None ->
   instantiate_textsplitter E class_object params
   = Raise (ValueError
       ("The source you provided did not load correctly or was empty."
        ++ "Try changing the chunk_size of the Text Splitter.")))
  /\ (forall documents,
        dict_get params "documents" = Some documents ->
        truthy documents = false ->
        instantiate_textsplitter E class_object params = Ok (VList [])).
Proof.
  unfold instantiate_textsplitter. split.
  - intros H. now rewrite H.
  - intros documents H Hempty. now rewrite H, Hempty.
Qed.

Lemma textsplitter_missing_input_witness :
  instantiate_textsplitter recording (VObj 10 []) [(VStr "chunk_size", VInt 100)]
  = Raise (ValueError
      ("The source you provided did not load correctly or was empty."
       ++ "Try changing the chunk_size of the Text Splitter."))
  /\ instantiate_textsplitter recording (VObj 10 [])
       [(VStr "documents", VList []); (VStr "chunk_size", VInt 100)]
     = Ok (VList []).
Proof.
  split.
  - apply (proj1 (textsplitter_missing_input recording (VObj 10 [])
                    [(VStr "chunk_size", VInt 100)])).
    reflexivity.
  - apply (proj2 (textsplitter_missing_input recording (VObj 10 [])
                    [(VStr "documents", VList []); (VStr "chunk_size", VInt 100)])
             (VList [])); reflexivity.
Defined.

(** C4 (as stated) fails.  With an empty list of upstream documents the
    strategy returns the empty list; no error is raised. *)
Lemma textsplitter_empty_documents :
  instantiate_textsplitter recording (VObj 10 [])
    [(VStr "documents", VList []); (VStr "chunk_size", VInt 100)]
  = Ok (VList [])
  /\ ~ (forall (E : externals) (class_object : value) (params : dict) (documents : value),
          dict_get params "documents" = Some documents ->
          truthy documents = false ->
          exists e, instantiate_textsplitter E class_object params = Raise e).
Proof.
  split; [reflexivity|].
  intros H.
  destruct (H recording (VObj 10 [])
              [(VStr "documents", VList []); (VStr "chunk_size", VInt 100)]
              (VList []) eq_refl eq_refl) as [e He].
  discriminate He.
Qed.

(** ** Document loader *)

(** C9 (as amended).  When [file_path] is empty (and not a list), the
    [file_filter], if any, is a text, and the [metadata], if it is a
    non-empty text, decodes, the document-loader strategy returns an empty
    document list and raises nothing: no loader is constructed. *)
Theorem documentloader_empty_path (E : externals) (class_object : value)
  (params : dict) (file_path : value) :
  dict_get params "file_path" = Some file_path ->
  truthy file_path = false ->
  is_list file_path = false ->
  text_or_absent params "file_filter" = true ->
  metadata_decodes E params = true ->
  instantiate_documentloader E class_object params = Ok (VList []).
Proof.
  intros Hpath Hempty Hlist Hfilter Hmeta.
  unfold instantiate_documentloader, text_or_absent, metadata_decodes in *.
  assert (Hcommon : forall p1 : dict,
    dict_get p1 "file_path" = Some file_path ->
    dict_get p1 "metadata" = dict_get params "metadata" ->
    (params0 <-
       match dict_get p1 "file_path" with
       | Some (VList _ as file_path0) =>
           file_name <- py_index file_path0 1 ;;
           first <- py_index file_path0 0 ;;
           (let params0 := dict_set p1 "file_path" first in
            name <- attr class_object "__name__" ;;
            Ok (if py_eqb name (VStr "ElemUnstructuredLoaderV0")
                then dict_set params0 "file_name" file_name else params0))
       | _ => Ok p1
       end ;;
     (let '(metadata, params1) := dict_pop_default params0 "metadata" VNone in
      metadata0 <-
        match metadata with
        | VStr text =>
            if truthy metadata then
              catch_class "JSONDecodeError" (json_loads E text)
                (fun _ => Raise (ValueError
                   "The metadata you provided is not a valid JSON string."))
            else Ok metadata
        | _ => Ok metadata
        end ;;
      (let no_file :=
         match dict_get params1 "file_path" with
         | Some file_path0 => negb (truthy file_path0)
         | None => false
         end in
       if no_file then Ok (VList []) else
         loader <- construct E class_object params1 ;;
         docs <- call_method E loader "load" [] [] ;;
         if truthy metadata0 then
           match docs with
           | VList l => l' <- merge_metadata_all E metadata0 l ;; Ok (VList l')
           | VTuple l => l' <- merge_metadata_all E metadata0 l ;; Ok (VTuple l')
           | _ => l <- py_iter docs ;;
                  _ <- merge_metadata_all E metadata0 l ;; Ok docs
           end
         else Ok docs))) = Ok (VList [])).
  { intros p1 H1 H2. rewrite H1.
    destruct file_path; try discriminate; cbn [bind];
      unfold dict_pop_default; rewrite H2;
      (destruct (dict_get params "metadata") as [m|] eqn:Hm;
       [ assert (Hp : dict_get (dict_del p1 "metadata") "file_path" = dict_get p1 "file_path")
           by (now rewrite dict_get_del_str);
         destruct m; cbn [bind]; rewrite ?Hp, ?H1, ?Hempty; cbn [negb]; try reflexivity
       | cbn [bind]; rewrite ?H1, ?Hempty; reflexivity ]).
    all: match goal with
         | Hm : dict_get _ (VStr "metadata") = Some (VStr ?t),
           Hdec : _ || is_ok (json_loads ?W ?t) = true |- _ =>
             unfold truthy; destruct (String.eqb t EmptyString);
             cbn [negb bind]; try reflexivity;
             destruct (json_loads W t); simpl in Hdec;
             [reflexivity | discriminate]
         end. }
  destruct (dict_get params "file_filter") as [ff|] eqn:Hff.
  - destruct ff; try discriminate. cbn [bind].
    apply Hcommon.
    + now rewrite dict_get_set_str, dict_get_del_str.
    + now rewrite dict_get_set_str, dict_get_del_str.
  - cbn [bind]. now apply Hcommon.
Qed.

Lemma documentloader_empty_path_witness :
  instantiate_documentloader recording (VObj 10 [])
    [(VStr "file_path", VStr EmptyString);
     (VStr "file_filter", VStr ".txt,.md");
     (VStr "metadata", VStr ("{" ++ quoted "source" ++ ": 1}")%string)]
  = Ok (VList []).
Proof.
  apply (documentloader_empty_path recording (VObj 10 [])
           [(VStr "file_path", VStr EmptyString);
            (VStr "file_filter", VStr ".txt,.md");
            (VStr "metadata", VStr ("{" ++ quoted "source" ++ ": 1}")%string)]
           (VStr EmptyString)); reflexivity.
Defined.

(** C9 (as stated) fails.  With an empty [file_path] and a [metadata]
    text that is not JSON, the metadata is decoded before the path is
    looked at and the strategy raises [ValueError]. *)
Lemma documentloader_empty_path_bad_metadata :
  instantiate_documentloader recording (VObj 10 [])
    [(VStr "file_path", VStr EmptyString); (VStr "metadata", VStr "{")]
  = Raise (ValueError "The metadata you provided is not a valid JSON string.").
Proof. reflexivity. Qed.

(** C8 (the code departs from the claim).  A loader returns one document
    whose metadata already names a [source] and a [page], and one document
    without metadata; the supplied metadata names a [source].  The second
    document receives the supplied mapping, the first keeps its [page], but
    its own [source] is replaced by the supplied one: the merge is
    [dict.update], which overwrites the entries whose keys collide. *)
Theorem documentloader_metadata_overwrites :
  let doc1 := VObj 1 [(VStr "page_content", VStr "first");
                      (VStr "metadata", VDict [(VStr "source", VStr "a.txt");
                                               (VStr "page", VInt 1)])] in
  let doc2 := VObj 2 [(VStr "page_content", VStr "second");
                      (VStr "metadata", VDict [])] in
  let W := scripted [("DirectoryLoader", Ok (VObj 20 [(VStr "load", VFun "load" [])]));
                     ("load", Ok (VList [doc1; doc2]))] (fun l => l) in
  instantiate_documentloader W (VObj 10 [(VStr "__name__", VStr "DirectoryLoader")])
    [(VStr "file_path", VStr "docs/");
     (VStr "metadata", VDict [(VStr "source", VStr "upload")])]
  = Ok (VList
      [VObj 1 [(VStr "page_content", VStr "first");
               (VStr "metadata", VDict [(VStr "source", VStr "upload");
                                        (VStr "page", VInt 1)])];
       VObj 2 [(VStr "page_content", VStr "second");
               (VStr "metadata", VDict [(VStr "source", VStr "upload")])]]).
Proof. reflexivity. Qed.

(** ** Factory-method table *)

Lemma from_method_invokes (E : externals) (table : dict) (node_type m : string)
  (class_object class_method : value) (params : dict) :
  dict_get table node_type = Some (VStr m) ->
  py_getattr class_object m = Some class_method ->
  truthy class_method = true ->
  from_method_or_construct E table node_type class_object params
  = invoke E class_method [] params.
Proof.
  intros Ht Hm Hc. unfold from_method_or_construct. now rewrite Ht, Hm, Hc.
Qed.

Lemma from_method_missing (E : externals) (table : dict) (node_type m : string)
  (class_object : value) (params : dict) :
  dict_get table node_type = Some (VStr m) ->
  py_getattr class_object m = None ->
  from_method_or_construct E table node_type class_object params
  = Raise (ValueError ("Method " ++ m ++ " not found in " ++ py_str E class_object)).
Proof.
  intros Ht Hm. unfold from_method_or_construct. now rewrite Ht, Hm.
Qed.

Lemma from_method_absent (E : externals) (table : dict) (node_type : string)
  (class_object : value) (params : dict) :
  dict_get table node_type = None ->
  from_method_or_construct E table node_type class_object params
  = construct E class_object params.
Proof.
  intros Ht. unfold from_method_or_construct. now rewrite Ht.
Qed.

(** C1 (the code departs from the claim).  In the agent strategy a
    registered factory method that the resolved class lacks raises nothing:
    the strategy falls back to the default construction of
    [load_agent_executor].  (The chain, wrapper, output-parser and retriever
    strategies raise [ValueError] there, see [from_method_missing].) *)
Theorem agent_stale_factory_method (E : externals) (node_type m : string)
  (class_object : value) (params : dict) :
  dict_get (agent_from_method_nodes E) node_type = Some (VStr m) ->
  py_getattr class_object m = None ->
  instantiate_agent E node_type class_object params
  = load_agent_executor E class_object params.
Proof.
  intros Ht Hm. unfold instantiate_agent. now rewrite Ht, Hm.
Qed.

Lemma agent_stale_factory_method_witness :
  let W := scripted [] (fun l => l) in
  let class_object := VObj 10 [(VStr "__name__", VStr "ZeroShotAgent")] in
  let params : dict := [(VStr "llm_chain", VObj 5 [])] in
  instantiate_agent W "ZeroShotAgent" class_object params
  = load_agent_executor W class_object params
  /\ is_ok (instantiate_agent W "ZeroShotAgent" class_object params) = true.
Proof.
  cbv zeta.
  rewrite (agent_stale_factory_method (scripted [] (fun l => l))
             "ZeroShotAgent" "from_llm_and_tools"
             (VObj 10 [(VStr "__name__", VStr "ZeroShotAgent")])
             [(VStr "llm_chain", VObj 5 [])]) by reflexivity.
  split; reflexivity.
Defined.

(** ** Propagation of construction failures *)





Section Propagation.

Variable E : externals.
Variable e : exn.









End Propagation.



Section Strategies.

Variable E : externals.
Variable e : exn.















End Strategies.








(** ** Prompt variables *)

Lemma filter_partition_perm (f : value -> bool) (l : list value) :
  Permutation (filter (fun x => negb (f x)) l ++ filter f l) l.
Proof.
  induction l as [|x l IH]; simpl; [constructor|].
  destruct (f x); simpl.
  - apply Permutation_sym, Permutation_cons_app, Permutation_sym, IH.
  - now constructor.
Qed.

Lemma Forall_perm_filter (f : value -> bool) (b : bool) (l m : list value) :
  Permutation m (filter (fun x => Bool.eqb (f x) b) l) ->
  Forall (fun x => f x = b) m.
Proof.
  intros H. rewrite Forall_forall. intros x Hx.
  apply (Permutation_in _ H) in Hx. apply filter_In in Hx.
  destruct Hx as [_ Hx]. now apply Bool.eqb_prop.
Qed.

Lemma filter_ext_eqb (f : value -> bool) (l : list value) :
  filter f l = filter (fun x => Bool.eqb (f x) true) l
  /\ filter (fun x => negb (f x)) l = filter (fun x => Bool.eqb (f x) false) l.
Proof.
  split; apply filter_ext; intros x; now destruct (f x).
Qed.

Lemma order_input_groups (E : externals) (declared : list value)
  (param_id_dict : dict) :
  (forall l, Permutation (set_order E l) l) ->
  human_first param_id_dict
    (order_input E declared (dedup (dict_keys param_id_dict)))
  /\ Permutation (order_input E declared (dedup (dict_keys param_id_dict)))
                 (dedup declared).
Proof.
  intros Hperm. unfold order_input.
  set (f := fun x => existsb (py_eqb x) (dedup (dict_keys param_id_dict))).
  destruct (filter_ext_eqb f (dedup declared)) as [Hb Hh].
  split.
  - exists (set_order E (filter (fun x => negb (f x)) (dedup declared))),
           (set_order E (filter f (dedup declared))).
    split; [reflexivity|]. split.
    + apply (Forall_perm_filter f false (dedup declared)).
      rewrite <- Hh. apply Hperm.
    + apply (Forall_perm_filter f true (dedup declared)).
      rewrite <- Hb. apply Hperm.
  - eapply Permutation_trans; [|apply (filter_partition_perm f)].
    apply Permutation_app; apply Hperm.
Qed.

Lemma single_name (names : list string) :
  length (dedup (map VStr names)) <= 1 ->
  forall a b, In a names -> In b names -> a = b.
Proof.
  destruct (dedup_texts names) as (s' & Hd & _ & Hin). rewrite Hd, length_map.
  intros Hlen a b Ha Hb. apply Hin in Ha, Hb.
  destruct s' as [|z [|z' s']]; simpl in *; try lia; try contradiction.
  destruct Ha as [<-|[]], Hb as [<-|[]]. reflexivity.
Qed.

Lemma human_first_single (param_id_dict : dict) (names : list string) :
  length (dedup (map VStr names)) <= 1 ->
  human_first param_id_dict (map VStr names).
Proof.
  intros Hlen. pose proof (single_name names Hlen) as Hsame.
  destruct names as [|z names].
  - exists [], []. repeat split; constructor.
  - assert (Hall : forall b, Forall (fun x => node_bound param_id_dict x = b)
                               (map VStr (z :: names))
                             \/ node_bound param_id_dict (VStr z) <> b).
    { intros b. destruct (Bool.bool_dec (node_bound param_id_dict (VStr z)) b)
        as [Hz|Hz]; [left|now right].
      apply Forall_forall. intros x Hx. apply in_map_iff in Hx.
      destruct Hx as (a & <- & Ha).
      now rewrite (Hsame a z Ha (or_introl eq_refl)). }
    destruct (node_bound param_id_dict (VStr z)) eqn:Hz.
    + exists [], (map VStr (z :: names)). split; [reflexivity|].
      split; [constructor|]. destruct (Hall true) as [H|H]; congruence.
    + exists (map VStr (z :: names)), []. split; [now rewrite app_nil_r|].
      split; [|constructor]. destruct (Hall false) as [H|H]; congruence.
Qed.

(** C5 (as amended).  Whatever order the interpreter visits sets in, the
    variable list the prompt strategy leaves on the prompt (on its nested
    template, when the prompt has one with its own variable list) lists
    the declared variables that are not node-bound first and those that
    are node-bound after them; with two or more different variables each
    occurs once.  Within the two groups the order is that of set
    iteration: for declared variables [x], [y], [z] with [y] and [z]
    node-bound the list is [[x;y;z]] or [[x;z;y]]. *)
Theorem prompt_order (E : externals) (node_type : string)
  (class_object : value) (params param_id_dict : dict)
  (format_kwargs : value) (id : nat) (attrs : dict) (names : list string) :
  (forall l, Permutation (set_order E l) l) ->
  prompt_prepared E node_type class_object params (VObj id attrs) format_kwargs ->
  dict_get attrs "input_variables" = Some (VList (map VStr names)) ->
  (* a plain template *)
  (match dict_get attrs "prompt" with
   | Some inner => hasattr inner "input_variables" = false
   | None => True
   end ->
   exists final,
     instantiate_prompt E node_type class_object params (VDict param_id_dict)
     = Ok (VTuple [VObj id (dict_set attrs "input_variables" (VList final));
                   format_kwargs])
     /\ human_first param_id_dict final
     /\ (forall x, In x final <-> In x (map VStr names))
     /\ (1 < length (dedup (map VStr names)) ->
         Permutation final (dedup (map VStr names)))
     /\ (names = ["x"; "y"; "z"] ->
         dict_keys param_id_dict = [VStr "y"; VStr "z"] ->
         final = [VStr "x"; VStr "y"; VStr "z"]
         \/ final = [VStr "x"; VStr "z"; VStr "y"]))
  /\
  (* a template nested in the prompt *)
  (forall id' attrs',
     dict_get attrs "prompt" = Some (VObj id' attrs') ->
     dict_mem attrs' "input_variables" = true ->
     1 < length (dedup (map VStr names)) ->
     exists final,
       instantiate_prompt E node_type class_object params (VDict param_id_dict)
       = Ok (VTuple
               [VObj id (dict_set attrs "prompt"
                           (VObj id' (dict_set attrs' "input_variables"
                                        (VList final))));
                format_kwargs])
       /\ human_first param_id_dict final
       /\ Permutation final (dedup (map VStr names))).
Proof.
  intros Hperm (params' & raw & Hnode & Hfk & Hpartial) Hvars.
  set (order := order_input E (map VStr names) (dedup (dict_keys param_id_dict))).
  destruct (order_input_groups E (map VStr names) param_id_dict Hperm)
    as [Hgroups Hpermo]. fold order in Hgroups, Hpermo.
  assert (Hlen : length order = length (dedup (map VStr names)))
    by (now apply Permutation_length).
  assert (Hrun :
    instantiate_prompt E node_type class_object params (VDict param_id_dict)
    = (prompt <-
         (if (1 <? length order)%nat then
            match py_getattr (VObj id attrs) "prompt" with
            | Some inner =>
                if hasattr inner "input_variables" then
                  inner <- setattr inner "input_variables" (VList order) ;;
                  setattr (VObj id attrs) "prompt" inner
                else setattr (VObj id attrs) "input_variables" (VList order)
            | None => setattr (VObj id attrs) "input_variables" (VList order)
            end
          else Ok (VObj id attrs)) ;;
       Ok (VTuple [prompt; format_kwargs]))).
  { unfold instantiate_prompt. rewrite Hnode. cbn [bind unpack2 py_iter].
    rewrite Hfk. cbn [bind]. rewrite Hpartial. cbn [bind py_key_set].
    unfold attr. cbn [py_getattr]. rewrite Hvars. cbn [bind py_iter].
    unfold py_set. cbn [py_iter bind]. rewrite forallb_hashable_str.
    cbn [bind]. reflexivity. }
  rewrite Hrun. clear Hrun. cbn [py_getattr setattr].
  split.
  - intros Hplain.
    assert (Hstore : (if (1 <? length order)%nat then
                        match dict_get attrs "prompt" with
                        | Some inner =>
                            if hasattr inner "input_variables" then
                              inner <- setattr inner "input_variables" (VList order) ;;
                              Ok (VObj id (dict_set attrs "prompt" inner))
                            else Ok (VObj id (dict_set attrs "input_variables"
                                                (VList order)))
                        | None => Ok (VObj id (dict_set attrs "input_variables"
                                                 (VList order)))
                        end
                      else Ok (VObj id attrs))
                     = Ok (VObj id (dict_set attrs "input_variables"
                              (VList (if (1 <? length order)%nat then order
                                      else map VStr names))))).
    { destruct (1 <? length order)%nat.
      - destruct (dict_get attrs "prompt") as [inner|]; [|reflexivity].
        now rewrite Hplain.
      - now rewrite (dict_set_same attrs _ _ Hvars). }
    rewrite Hstore. cbn [bind].
    exists (if (1 <? length order)%nat then order else map VStr names).
    split; [reflexivity|].
    destruct (1 <? length order)%nat eqn:Hcmp.
    + apply Nat.ltb_lt in Hcmp.
      split; [exact Hgroups|]. split; [|split].
      * intros x. split; intros Hx.
        -- apply (Permutation_in _ Hpermo) in Hx.
           destruct (dedup_texts names) as (s' & Hd & _ & Hin).
           rewrite Hd in Hx. apply in_map_iff in Hx.
           destruct Hx as (a & <- & Ha). apply in_map. now apply Hin.
        -- apply (Permutation_in _ (Permutation_sym Hpermo)).
           destruct (dedup_texts names) as (s' & Hd & _ & Hin).
           rewrite Hd. apply in_map_iff in Hx.
           destruct Hx as (a & <- & Ha). apply in_map. now apply Hin.
      * intros _. exact Hpermo.
      * intros -> Hkeys. unfold order, order_input. rewrite Hkeys. cbn.
        pose proof (Hperm [VStr "x"]) as Hx.
        apply Permutation_sym, Permutation_length_1_inv in Hx. rewrite Hx.
        pose proof (Hperm [VStr "y"; VStr "z"]) as Hyz.
        apply Permutation_sym, Permutation_length_2_inv in Hyz.
        destruct Hyz as [Hyz|Hyz]; rewrite Hyz; auto.
    + apply Nat.ltb_ge in Hcmp. rewrite Hlen in Hcmp.
      split; [now apply human_first_single|]. split; [tauto|]. split.
      * intros H. lia.
      * intros -> _. cbn in Hcmp. lia.
  - intros id' attrs' Hinner Hmem Hmany.
    assert (Hcmp : (1 <? length order)%nat = true)
      by (apply Nat.ltb_lt; now rewrite Hlen).
    rewrite Hcmp, Hinner. unfold hasattr. cbn [py_getattr].
    unfold dict_mem in Hmem.
    destruct (dict_get attrs' "input_variables"); [|discriminate].
    cbn [setattr bind].
    exists order. split; [reflexivity|]. split; assumption.
Qed.

Lemma prompt_order_witness :
  let prompt := VObj 1 [(VStr "template", VStr "{x} {y} {z}");
                        (VStr "input_variables",
                         VList [VStr "x"; VStr "y"; VStr "z"])] in
  let W := scripted [("handle_node_type", Ok (VTuple [VDict []; prompt]));
                     ("handle_format_kwargs", Ok (VDict []))] (fun l => l) in
  instantiate_prompt W "PromptTemplate" (VObj 10 []) []
    (VDict [(VStr "y", VList [VStr "n1"]); (VStr "z", VList [VStr "n2"])])
  = Ok (VTuple [VObj 1 [(VStr "template", VStr "{x} {y} {z}");
                        (VStr "input_variables",
                         VList [VStr "x"; VStr "y"; VStr "z"])];
                VDict []]).
Proof.
  cbv zeta.
  destruct (proj1 (prompt_order
    (scripted [("handle_node_type",
                Ok (VTuple [VDict [];
                            VObj 1 [(VStr "template", VStr "{x} {y} {z}");
                                    (VStr "input_variables",
                                     VList [VStr "x"; VStr "y"; VStr "z"])]]));
               ("handle_format_kwargs", Ok (VDict []))] (fun l => l))
    "PromptTemplate" (VObj 10 []) []
    [(VStr "y", VList [VStr "n1"]); (VStr "z", VList [VStr "n2"])]
    (VDict []) 1
    [(VStr "template", VStr "{x} {y} {z}");
     (VStr "input_variables", VList [VStr "x"; VStr "y"; VStr "z"])]
    ["x"; "y"; "z"]
    (fun l => Permutation_refl l)
    (ex_intro _ (VDict []) (ex_intro _ _ (conj eq_refl (conj eq_refl eq_refl))))
    eq_refl) I) as (final & Hrun & _).
  rewrite Hrun. vm_compute in Hrun. now inversion Hrun.
Defined.

(** C5 (as stated) fails.  Visiting sets in the reverse of insertion order
    is an order Python allows; with it the prompt built for the declared
    variables [x], [y], [z], of which [y] and [z] are node-bound, carries
    the list [[x;z;y]], not [[x;y;z]]. *)
Lemma prompt_order_not_fixed :
  let prompt := VObj 1 [(VStr "input_variables",
                         VList [VStr "x"; VStr "y"; VStr "z"])] in
  let W := scripted [("handle_node_type", Ok (VTuple [VDict []; prompt]));
                     ("handle_format_kwargs", Ok (VDict []))] (@rev value) in
  (forall l, Permutation (set_order W l) l)
  /\ instantiate_prompt W "PromptTemplate" (VObj 10 []) []
       (VDict [(VStr "y", VList [VStr "n1"]); (VStr "z", VList [VStr "n2"])])
     = Ok (VTuple [VObj 1 [(VStr "input_variables",
                            VList [VStr "x"; VStr "z"; VStr "y"])];
                   VDict []]).
Proof.
  split; [|reflexivity].
  intros l. apply Permutation_sym, Permutation_rev.
Qed.

(** ** Report *)

Lemma preset_entries_pairs (chain key : value) (raw : list value)
  (pairs : list (value * value)) :
  first_input_key chain = Ok key ->
  hashable key = true ->
  Forall2 is_pair raw pairs ->
  preset_entries [(VStr "object", chain)] chain raw
  = Ok (map (fun pair => report_entry chain (Some (fst pair)) key (snd pair)) pairs).
Proof.
  intros Hkey Hhash H. induction H as [|r [target text] raw pairs [H0 H1] _ IH];
    simpl; [reflexivity|].
  simpl in H0, H1. rewrite H0. cbn [bind]. rewrite Hkey. cbn [bind].
  rewrite H1. cbn [bind]. unfold singleton_dict. rewrite Hhash. cbn [bind].
  rewrite IH. reflexivity.
Qed.

Lemma first_input_key_of (chain key : value) :
  (exists keys, attr chain "input_keys" = Ok keys /\ py_index keys 0 = Ok key) ->
  first_input_key chain = Ok key.
Proof.
  intros (keys & Ha & Hi). unfold first_input_key. now rewrite Ha.
Qed.

(** The chain loop on rows: the chains of the rows are found from
    position [length done] on. *)
Lemma report_chains_rows (presets : dict) (rows : list report_row)
  (extra : list value) :
  Forall (row_ok presets) rows ->
  forall done : list value,
    report_chains (VList (done ++ map row_chain rows ++ extra)) (VDict presets)
      (map row_id rows) (length done)
    = Ok (concat (map row_entries rows)).
Proof.
  induction 1 as [|r rows (Hid & Hkeys & Hkey & Hpre) _ IH]; intros done;
    [reflexivity|].
  apply first_input_key_of in Hkeys.
  assert (Hnth : nth_error (done ++ map row_chain (r :: rows) ++ extra)
                   (length done) = Some (row_chain r)).
  { rewrite nth_error_app2 by lia. now rewrite Nat.sub_diag. }
  assert (Hrest : report_chains (VList (done ++ map row_chain (r :: rows) ++ extra))
                    (VDict presets) (map row_id rows) (S (length done))
                  = Ok (concat (map row_entries rows))).
  { specialize (IH (done ++ [row_chain r])).
    rewrite <- app_assoc in IH. cbn [app] in IH.
    rewrite length_app in IH. cbn [length] in IH.
    rewrite Nat.add_1_r in IH. exact IH. }
  cbn [map] in Hnth, Hrest.
  cbn [map report_chains py_index concat]. rewrite Hnth. cbn [bind py_in].
  rewrite Hid. cbn [bind]. unfold dict_mem, row_entries.
  destruct (row_preset r) as [|raw target text|raw pairs].
  - rewrite Hpre. rewrite Hkeys. cbn [bind]. unfold singleton_dict.
    rewrite Hkey. cbn [bind]. rewrite Hrest. reflexivity.
  - destruct Hpre as (Hget & Hlist & H0 & H1). cbn [fst snd] in H0, H1.
    rewrite Hget. cbn [py_getitem]. rewrite Hid, Hget. cbn [bind].
    destruct raw; try discriminate;
      rewrite H0; cbn [bind]; rewrite Hkeys; cbn [bind]; rewrite H1; cbn [bind];
      unfold singleton_dict; rewrite Hkey; cbn [bind]; rewrite Hrest;
      reflexivity.
  - destruct Hpre as (Hget & Hpairs).
    rewrite Hget. cbn [py_getitem]. rewrite Hid, Hget. cbn [bind].
    rewrite (preset_entries_pairs (row_chain r) (row_key r) raw pairs
               Hkeys Hkey Hpairs).
    cbn [bind]. rewrite Hrest. reflexivity.
Qed.

(** The variable loop: ids and values are paired by position. *)
Lemma report_variables_cases (values ids : list value) :
  (length ids <= length values ->
   report_variables (VList values) ids 0
   = Ok (map variable_entry (combine ids values)))
  /\ (length values < length ids ->
      report_variables (VList values) ids 0 = Raise IndexError)
  /\ (ids <> [] ->
      report_variables VNone ids 0
      = Raise (TypeError "object is not subscriptable")).
Proof.
  split; [|split].
  - assert (H : forall (l : list value) (i : nat),
              i + length l <= length values ->
              report_variables (VList values) l i
              = Ok (map variable_entry (combine l (skipn i values)))).
    { induction l as [|id l IH]; intros i Hlen; simpl in *; [reflexivity|].
      destruct (nth_error values i) as [v|] eqn:Hv;
        [|apply nth_error_None in Hv; lia].
      cbn [bind]. rewrite IH by lia. cbn [bind].
      now rewrite (skipn_cons_nth _ _ _ _ Hv). }
    intros Hlen. now rewrite H.
  - assert (H : forall (l : list value) (i : nat),
              length values < i + length l -> i <= length values ->
              report_variables (VList values) l i = Raise IndexError).
    { induction l as [|id l IH]; intros i H1 H2; simpl in *; [lia|].
      destruct (nth_error values i) as [v|] eqn:Hv; [|reflexivity].
      cbn [bind].
      assert (i < length values) by (apply nth_error_Some; rewrite Hv; discriminate).
      rewrite IH by lia. reflexivity. }
    intros Hlen. apply H; simpl; lia.
  - intros Hids. destruct ids; [contradiction|reflexivity].
Qed.

(** With more source ids than chains the chain loop fails, whatever the
    presets are. *)
Lemma report_chains_short (chains : list value) (preset_question : value)
  (ids : list value) :
  length chains < length ids ->
  exists e, report_chains (VList chains) preset_question ids 0 = Raise e.
Proof.
  assert (H : forall (l : list value) (i : nat),
            length chains < i + length l -> i <= length chains ->
            exists e, report_chains (VList chains) preset_question l i = Raise e).
  { induction l as [|id l IH]; intros i Hlen Hi; simpl in Hlen.
    - lia.
    - cbn [report_chains py_index].
      destruct (nth_error chains i) as [c|] eqn:Hc; [|cbn [bind]; eauto].
      assert (i < length chains) by (apply nth_error_Some; rewrite Hc; discriminate).
      cbn [bind].
      destruct (py_in id preset_question) as [present|e]; [|cbn [bind]; eauto].
      cbn [bind].
      match goal with
      | |- exists e, bind ?entries _ = _ =>
          destruct entries as [es|e]; [|cbn [bind]; eauto]
      end.
      cbn [bind].
      destruct (IH (S i)) as [e He]; [lia|lia|].
      rewrite He. cbn [bind]. eauto. }
  intros Hlen. apply H; simpl; lia.
Qed.

(** The [Report] branch, once the chain loop and the variable loop are
    known: the class receives the parameters without the preset
    questions, with the new [chains] and [variables] lists. *)
Lemma report_branch (E : externals) (class_object : value) (params id_dict : dict)
  (chain_list variables : result (list value)) :
  PRESET_QUESTION E <> "chains" ->
  PRESET_QUESTION E <> "variables" ->
  (ids <- py_iter (dict_get_default id_dict "chains" (VList [])) ;;
   report_chains (dict_get_default params "chains" (VList []))
     (dict_get_default params (PRESET_QUESTION E) (VDict [])) ids 0) = chain_list ->
  (ids <- py_iter (if truthy (dict_get_default id_dict "variables" VNone)
                   then dict_get_default id_dict "variables" VNone else VList []) ;;
   report_variables (dict_get_default params "variables" VNone) ids 0) = variables ->
  instantiate_input_output E "Report" class_object params (VDict id_dict)
  = (chain_list <- chain_list ;;
     variables <- variables ;;
     construct E class_object
       (dict_set (dict_set (dict_del params (PRESET_QUESTION E)) "chains"
                    (VList chain_list))
          "variables" (VList variables))).
Proof.
  intros Hp1 Hp2 Hchains Hvars.
  assert (Hne : forall a : string, PRESET_QUESTION E <> a ->
                                   String.eqb (PRESET_QUESTION E) a = false).
  { intros a H. now apply String.eqb_neq. }
  unfold instantiate_input_output.
  change (String.eqb "Report" "Report") with true. cbv iota.
  unfold report_params. rewrite dict_pop_default_pair. cbn [py_get bind].
  assert (Hc : dict_get_default (dict_del params (PRESET_QUESTION E)) "chains" (VList [])
               = dict_get_default params "chains" (VList [])).
  { unfold dict_get_default. now rewrite dict_get_del_str, (Hne _ Hp1). }
  rewrite Hc.
  rewrite <- Hchains, <- Hvars.
  destruct (py_iter (dict_get_default id_dict "chains" (VList []))) as [ids|e];
    [|reflexivity].
  cbn [bind].
  destruct (report_chains (dict_get_default params "chains" (VList []))
              (dict_get_default params (PRESET_QUESTION E) (VDict [])) ids 0)
    as [chain_list'|e]; [|reflexivity].
  cbn [bind].
  assert (Hv : forall x,
            dict_get_default
              (dict_set (dict_del params (PRESET_QUESTION E)) "chains" x)
              "variables" VNone
            = dict_get_default params "variables" VNone).
  { intros x. unfold dict_get_default.
    rewrite dict_get_set_str, dict_get_del_str, (Hne _ Hp2).
    reflexivity. }
  rewrite Hv.
  destruct (py_iter (if truthy (dict_get_default id_dict "variables" VNone)
                     then dict_get_default id_dict "variables" VNone else VList []))
    as [vids|e]; [|reflexivity].
  cbn [bind].
  destruct (report_variables (dict_get_default params "variables" VNone) vids 0)
    as [vs|e]; [|reflexivity].
  cbn [bind]. now rewrite dict_set_twice.
Qed.

(** The chain loop on rows followed by further ids: past the last chain
    the loop fails with [IndexError]. *)
Lemma report_chains_rows_more (presets : dict) (rows : list report_row)
  (id : value) (more : list value) :
  Forall (row_ok presets) rows ->
  forall done : list value,
    report_chains (VList (done ++ map row_chain rows)) (VDict presets)
      (map row_id rows ++ id :: more) (length done)
    = Raise IndexError.
Proof.
  induction 1 as [|r rows (Hid & Hkeys & Hkey & Hpre) _ IH]; intros done.
  - cbn [map app report_chains py_index]. rewrite app_nil_r.
    assert (Hn : nth_error done (length done) = None)
      by (apply nth_error_None; lia).
    rewrite Hn. reflexivity.
  - apply first_input_key_of in Hkeys.
    assert (Hnth : nth_error (done ++ map row_chain (r :: rows))
                     (length done) = Some (row_chain r)).
    { rewrite nth_error_app2 by lia. now rewrite Nat.sub_diag. }
    assert (Hrest : report_chains (VList (done ++ map row_chain (r :: rows)))
                      (VDict presets) (map row_id rows ++ id :: more)
                      (S (length done))
                    = Raise IndexError).
    { specialize (IH (done ++ [row_chain r])).
      rewrite <- app_assoc in IH. cbn [app] in IH.
      rewrite length_app in IH. cbn [length] in IH.
      rewrite Nat.add_1_r in IH. exact IH. }
    cbn [map] in Hnth, Hrest.
    cbn [map app report_chains py_index]. rewrite Hnth. cbn [bind py_in].
    rewrite Hid. cbn [bind]. unfold dict_mem.
    destruct (row_preset r) as [|raw target text|raw pairs].
    + rewrite Hpre. rewrite Hkeys. cbn [bind]. unfold singleton_dict.
      rewrite Hkey. cbn [bind]. rewrite Hrest. reflexivity.
    + destruct Hpre as (Hget & Hlist & H0 & H1). cbn [fst snd] in H0, H1.
      rewrite Hget. cbn [py_getitem]. rewrite Hid, Hget. cbn [bind].
      destruct raw; try discriminate;
        rewrite H0; cbn [bind]; rewrite Hkeys; cbn [bind]; rewrite H1; cbn [bind];
        unfold singleton_dict; rewrite Hkey; cbn [bind]; rewrite Hrest;
        reflexivity.
    + destruct Hpre as (Hget & Hpairs).
      rewrite Hget. cbn [py_getitem]. rewrite Hid, Hget. cbn [bind].
      rewrite (preset_entries_pairs (row_chain r) (row_key r) raw pairs
                 Hkeys Hkey Hpairs).
      cbn [bind]. rewrite Hrest. reflexivity.
Qed.

(** The ids the variable loop runs over. *)
Lemma report_variable_ids (id_dict : dict) (vids : list value) (variable : value) :
  variable_ids id_dict vids ->
  (ids <- py_iter (if truthy (dict_get_default id_dict "variables" VNone)
                   then dict_get_default id_dict "variables" VNone else VList []) ;;
   report_variables variable ids 0)
  = report_variables variable vids 0.
Proof.
  intros [Hget|[-> Hfalse]].
  - unfold dict_get_default. rewrite Hget. destruct vids; reflexivity.
  - rewrite Hfalse. reflexivity.
Qed.

(** The [Report] branch on rows and on variables paired by position. *)
Lemma report_built (E : externals) (class_object : value)
  (params id_dict presets : dict) (rows : list report_row)
  (extra vids : list value) :
  PRESET_QUESTION E <> "chains" ->
  PRESET_QUESTION E <> "variables" ->
  dict_get_default params (PRESET_QUESTION E) (VDict []) = VDict presets ->
  dict_get_default params "chains" (VList []) = VList (map row_chain rows ++ extra) ->
  dict_get_default id_dict "chains" (VList []) = VList (map row_id rows) ->
  Forall (row_ok presets) rows ->
  variable_ids id_dict vids ->
  instantiate_input_output E "Report" class_object params (VDict id_dict)
  = (variables <- report_variables (dict_get_default params "variables" VNone)
                    vids 0 ;;
     construct E class_object
       (dict_set (dict_set (dict_del params (PRESET_QUESTION E)) "chains"
                    (VList (concat (map row_entries rows))))
          "variables" (VList variables))).
Proof.
  intros Hp1 Hp2 Hpre Hchains Hids Hrows Hvids.
  rewrite (report_branch E class_object params id_dict
             (Ok (concat (map row_entries rows)))
             (report_variables (dict_get_default params "variables" VNone) vids 0)
             Hp1 Hp2).
  - reflexivity.
  - rewrite Hids, Hchains, Hpre. cbn [py_iter bind].
    apply (report_chains_rows presets rows extra Hrows []).
  - now apply report_variable_ids.
Qed.

(** C6 (as amended).  The [Report] node receives its [chains] parameter
    reassembled: for every source id of [chains], in order, and for the
    chain at the same position with first input key [key],
    - with no preset for the id, one entry with the default input
      [{key: "start"}] (and no [node_id]);
    - with a preset that is no list and holds [target] and [text] at its
      two positions (a tuple), one entry addressed to [target] with input
      [{key: text}];
    - with a preset that is a list, one entry per element, each read as a
      pair and each holding the same chain object.
    A two-element list [[target, text]] falls under the third case.  The
    preset questions themselves are not handed to the class, and the
    [variables] parameter holds the source ids of [variables] paired with
    the variable values. *)
Theorem report_entries (E : externals) (class_object : value)
  (params id_dict presets : dict) (rows : list report_row)
  (extra vids values : list value) :
  PRESET_QUESTION E <> "chains" ->
  PRESET_QUESTION E <> "variables" ->
  dict_get_default params (PRESET_QUESTION E) (VDict []) = VDict presets ->
  dict_get_default params "chains" (VList []) = VList (map row_chain rows ++ extra) ->
  dict_get_default id_dict "chains" (VList []) = VList (map row_id rows) ->
  Forall (row_ok presets) rows ->
  variable_ids id_dict vids ->
  vids = [] \/ dict_get params "variables" = Some (VList values) ->
  length vids <= length values ->
  instantiate_input_output E "Report" class_object params (VDict id_dict)
  = construct E class_object
      (dict_set (dict_set (dict_del params (PRESET_QUESTION E)) "chains"
                   (VList (concat (map row_entries rows))))
         "variables" (VList (map variable_entry (combine vids values)))).
Proof.
  intros Hp1 Hp2 Hpre Hchains Hids Hrows Hvids Hvalues Hlen.
  rewrite (report_built E class_object params id_dict presets rows extra vids
             Hp1 Hp2 Hpre Hchains Hids Hrows Hvids).
  destruct Hvalues as [->|Hget]; [reflexivity|].
  unfold dict_get_default. rewrite Hget.
  now rewrite (proj1 (report_variables_cases values vids) Hlen).
Qed.

Lemma report_entries_witness :
  let c (n : nat) := VObj n [(VStr "input_keys", VList [VStr "question"])] in
  let class_object := VObj 10 [(VStr "__name__", VStr "Report")] in
  instantiate_input_output recording "Report" class_object
    [(VStr "chains", VList [c 1; c 2; c 3]);
     (VStr "preset_question",
      VDict [(VStr "n2", VTuple [VStr "c1"; VStr "hello"]);
             (VStr "n3", VList [VTuple [VStr "c1"; VStr "a"];
                                VTuple [VStr "c2"; VStr "b"]])]);
     (VStr "variables", VList [VStr "2024"])]
    (VDict [(VStr "chains", VList [VStr "n1"; VStr "n2"; VStr "n3"]);
            (VStr "variables", VList [VStr "v1"])])
  = construct recording class_object
      [(VStr "chains",
        VList [report_entry (c 1) None (VStr "question") (VStr "start");
               report_entry (c 2) (Some (VStr "c1")) (VStr "question") (VStr "hello");
               report_entry (c 3) (Some (VStr "c1")) (VStr "question") (VStr "a");
               report_entry (c 3) (Some (VStr "c2")) (VStr "question") (VStr "b")]);
       (VStr "variables",
        VList [VDict [(VStr "node_id", VStr "v1"); (VStr "input", VStr "2024")]])].
Proof.
  cbv zeta.
  apply (report_entries recording
           (VObj 10 [(VStr "__name__", VStr "Report")])
           [(VStr "chains",
             VList [VObj 1 [(VStr "input_keys", VList [VStr "question"])];
                    VObj 2 [(VStr "input_keys", VList [VStr "question"])];
                    VObj 3 [(VStr "input_keys", VList [VStr "question"])]]);
            (VStr "preset_question",
             VDict [(VStr "n2", VTuple [VStr "c1"; VStr "hello"]);
                    (VStr "n3", VList [VTuple [VStr "c1"; VStr "a"];
                                       VTuple [VStr "c2"; VStr "b"]])]);
            (VStr "variables", VList [VStr "2024"])]
           [(VStr "chains", VList [VStr "n1"; VStr "n2"; VStr "n3"]);
            (VStr "variables", VList [VStr "v1"])]
           [(VStr "n2", VTuple [VStr "c1"; VStr "hello"]);
            (VStr "n3", VList [VTuple [VStr "c1"; VStr "a"];
                               VTuple [VStr "c2"; VStr "b"]])]
           [mkRow (VStr "n1")
              (VObj 1 [(VStr "input_keys", VList [VStr "question"])])
              (VStr "question") NoPreset;
            mkRow (VStr "n2")
              (VObj 2 [(VStr "input_keys", VList [VStr "question"])])
              (VStr "question")
              (OnePreset (VTuple [VStr "c1"; VStr "hello"]) (VStr "c1") (VStr "hello"));
            mkRow (VStr "n3")
              (VObj 3 [(VStr "input_keys", VList [VStr "question"])])
              (VStr "question")
              (PresetList [VTuple [VStr "c1"; VStr "a"]; VTuple [VStr "c2"; VStr "b"]]
                 [(VStr "c1", VStr "a"); (VStr "c2", VStr "b")])]
           [] [VStr "v1"] [VStr "2024"]).
  - discriminate.
  - discriminate.
  - reflexivity.
  - reflexivity.
  - reflexivity.
  - repeat constructor; cbn; try reflexivity;
      try (eexists; split; reflexivity).
  - left. reflexivity.
  - right. reflexivity.
  - simpl. lia.
Defined.

(** C6 (as stated) fails.  The preset [{"n1": ["c1", "hello"]}], a
    two-element list, is iterated as a list of pairs: the [Report] class
    receives two entries for the chain, addressed to [c] and [h] with the
    inputs [1] and [e], instead of one entry with the input [hello]. *)
Lemma report_list_pair_is_iterated :
  let c := VObj 1 [(VStr "input_keys", VList [VStr "question"])] in
  let class_object := VObj 10 [(VStr "__name__", VStr "Report")] in
  instantiate_input_output recording "Report" class_object
    [(VStr "chains", VList [c]);
     (VStr "preset_question", VDict [(VStr "n1", VList [VStr "c1"; VStr "hello"])])]
    (VDict [(VStr "chains", VList [VStr "n1"])])
  = construct recording class_object
      [(VStr "chains",
        VList [report_entry c (Some (VStr "c")) (VStr "question") (VStr "1");
               report_entry c (Some (VStr "h")) (VStr "question") (VStr "e")]);
       (VStr "variables", VList [])].
Proof. reflexivity. Qed.

(** ** Vector stores *)

Lemma milvus_collections_names (E : externals) (records : list value) :
  forall names embeddings keys,
    milvus_collections E records = Ok (names, embeddings, keys) ->
    Forall2 (fun r n => attr r "collection_name" = Ok n) records names
    /\ length embeddings = length records
    /\ length keys = length records.
Proof.
  induction records as [|r records IH]; simpl; intros names embeddings keys H.
  - inversion H. repeat split; constructor.
  - destruct (attr r "collection_name") as [n|] eqn:Hn; [|discriminate].
    cbn [bind] in H.
    destruct (attr r "model") as [m|]; [|discriminate]. cbn [bind] in H.
    destruct (ext E "decide_embeddings" [m] []) as [em|]; [|discriminate].
    cbn [bind] in H.
    destruct (starts_with_partition E n) as [b|]; [|discriminate].
    cbn [bind] in H.
    destruct (if b then attr r "id" else Ok VNone) as [k|]; [|discriminate].
    cbn [bind] in H.
    destruct (milvus_collections E records) as [[[ns es] ks]|]; [|discriminate].
    cbn [bind] in H. inversion H; subst.
    destruct (IH ns es ks eq_refl) as (H1 & H2 & H3).
    repeat split; simpl; auto.
Qed.

Lemma elastic_indexes_names (records names : list value) :
  elastic_indexes records = Ok names ->
  Forall2 (fun r n =>
             exists index_name,
               attr r "index_name" = Ok index_name
               /\ (if truthy index_name then Ok index_name
                   else attr r "collection_name") = Ok n)
          records names.
Proof.
  revert names. induction records as [|r records IH]; simpl; intros names H.
  - inversion H. constructor.
  - destruct (attr r "index_name") as [i|] eqn:Hi; [|discriminate].
    cbn [bind] in H.
    destruct (if truthy i then Ok i else attr r "collection_name") as [n|] eqn:Hn;
      [|discriminate].
    cbn [bind] in H.
    destruct (elastic_indexes records) as [ns|]; [|discriminate].
    cbn [bind] in H. inversion H; subst.
    constructor; eauto.
Qed.







(** With no collection permitted, the Milvus node is still constructed:
    [from_documents] receives empty collection lists and the fake
    embedding. *)
Example vectorstore_milvus_none_permitted :
  let W := scripted [("KnowledgeDao.judge_knowledge_permission", Ok (VList []))]
                    (fun l => l) in
  let class_object :=
    VObj 10 [(VStr "__name__", VStr "MilvusWithPermissionCheck");
             (VStr "from_documents", VFun "from_documents" [])] in
  instantiate_vectorstore W "MilvusWithPermissionCheck" class_object
    [(VStr "collection_name",
      VList [VDict [(VStr "key", VInt 1)]; VDict [(VStr "key", VInt 2)]]);
     (VStr "user_name", VStr "alice")]
  = Ok (call_record 1000 (VFun "from_documents" []) []
          [(VStr "collection_name", VList []);
           (VStr "documents", VList []);
           (VStr "collection_embeddings", VList []);
           (VStr "partition_keys", VList []);
           (VStr "embedding", call_record 1001 (VStr "FakeEmbedding") [] [])]).
Proof. reflexivity. Qed.


(* ================================================================== *)
(** * Part III: further properties of the strategies                    *)
(* ================================================================== *)

(** ** The normalizer, key by key *)

Lemma dict_get_in_keys (d : dict) (k : string) (v : value) :
  dict_get d (VStr k) = Some v -> In (VStr k) (dict_keys d).
Proof.
  induction d as [|[k0 v0] d IH]; simpl; [discriminate|].
  destruct (py_eqb k0 (VStr k)) eqn:Hk.
  - apply py_eqb_str_inv in Hk. subst. now left.
  - intros H. right. now apply IH.
Qed.

(** What the decoding loop does to every text key: a listed key that holds
    a text holds its decoded value afterwards, a listed key that holds
    anything else and a key that is not listed keep what they held. *)
Lemma convert_kwargs_loop_spec (E : externals) (keys : list value) :
  forall (q p1 : dict),
    NoDup keys ->
    Forall (fun k => is_kwargs_key k = true) keys ->
    convert_kwargs_loop E keys q = Ok p1 ->
    forall k : string,
      (In (VStr k) keys ->
       forall s, dict_get q k = Some (VStr s) ->
                 exists v, json_loads E s = Ok v /\ dict_get p1 k = Some v)
      /\ (In (VStr k) keys ->
          forall v, dict_get q k = Some v -> is_str v = false ->
                    dict_get p1 k = Some v)
      /\ (~ In (VStr k) keys -> dict_get p1 k = dict_get q k).
Proof.
  induction keys as [|key keys IH]; intros q p1 Hnd Hall Hrun k.
  - simpl in Hrun. inversion Hrun; subst. repeat split; try contradiction; auto.
  - inversion Hnd as [|? ? Hnotin Hnd']; subst.
    inversion Hall as [|? ? Hkey Hall']; subst.
    destruct (is_kwargs_key_str _ Hkey) as [a ->].
    simpl in Hrun.
    assert (Hstep : exists q',
      convert_kwargs_loop E keys q' = Ok p1
      /\ (forall b, String.eqb a b = false -> dict_get q' (VStr b) = dict_get q (VStr b))
      /\ (forall s, dict_get q (VStr a) = Some (VStr s) ->
                    exists v, json_loads E s = Ok v /\ dict_get q' (VStr a) = Some v)
      /\ (forall v, dict_get q (VStr a) = Some v -> is_str v = false ->
                    dict_get q' (VStr a) = Some v)).
    { destruct (dict_get q (VStr a)) as [v|] eqn:Hget.
      - destruct v; try (exists q; repeat split; auto; intros; congruence).
        destruct (json_loads E s) as [v|e] eqn:Hjs; [|discriminate].
        cbn [bind] in Hrun.
        exists (dict_set q (VStr a) v). split; [exact Hrun|]. split; [|split].
        + intros b Hb. now rewrite dict_get_set_str, Hb.
        + intros s' Hs'. inversion Hs'; subst s'. exists v. split; [exact Hjs|].
          now rewrite dict_get_set_str, String.eqb_refl.
        + intros v' Hv' Hns. inversion Hv'; subst v'. discriminate.
      - exists q. repeat split; auto; intros; congruence. }
    destruct Hstep as (q' & Hrun' & Hother & Htext & Hkeep).
    destruct (IH q' p1 Hnd' Hall' Hrun' k) as (IH1 & IH2 & IH3).
    destruct (String.eqb a k) eqn:Hak.
    + apply String.eqb_eq in Hak. subst k.
      split; [|split].
      * intros _ s Hs. destruct (Htext s Hs) as (v & Hv & Hq').
        exists v. split; [exact Hv|]. now rewrite (IH3 Hnotin).
      * intros _ v Hv Hns. rewrite (IH3 Hnotin). now apply Hkeep.
      * intros Hn. exfalso. apply Hn. now left.
    + assert (Hneq : VStr a <> VStr k).
      { intros Heq. inversion Heq; subst. now rewrite String.eqb_refl in Hak. }
      split; [|split].
      * intros [Heq|Hin] s Hs; [contradiction|].
        apply IH1; [exact Hin|]. now rewrite (Hother k Hak).
      * intros [Heq|Hin] v Hv Hns; [contradiction|].
        apply IH2; auto. now rewrite (Hother k Hak).
      * intros Hn. rewrite IH3 by (intros Hin; apply Hn; now right).
        now apply Hother.
Qed.

(** X1.  When [convert_kwargs] succeeds on a dictionary (keys pairwise
    different), every parameter whose name contains [kwargs] or [config]
    and that held a text holds the decoded value of that text; such a
    parameter holding anything but a text, and every parameter with
    another name, is left as it was. *)
Theorem convert_kwargs_decodes (E : externals) (params p1 : dict) :
  NoDup (dict_keys params) ->
  convert_kwargs E params = Ok p1 ->
  forall k : string,
    (is_kwargs_key k = true ->
     forall s, dict_get params k = Some (VStr s) ->
               exists v, json_loads E s = Ok v /\ dict_get p1 k = Some v)
    /\ (forall v, dict_get params k = Some v -> is_str v = false ->
                  dict_get p1 k = Some v)
    /\ (is_kwargs_key k = false -> dict_get p1 k = dict_get params k).
Proof.
  unfold convert_kwargs. intros Hnd Hrun k.
  assert (Hnd' : NoDup (filter is_kwargs_key (dict_keys params)))
    by (now apply NoDup_filter).
  assert (Hall : Forall (fun k => is_kwargs_key k = true)
                        (filter is_kwargs_key (dict_keys params))).
  { rewrite Forall_forall. intros x Hx. now apply filter_In in Hx. }
  destruct (convert_kwargs_loop_spec E _ params p1 Hnd' Hall Hrun k)
    as (H1 & H2 & H3).
  split; [|split].
  - intros Hk s Hs. apply H1; [|exact Hs].
    apply filter_In. split; [|exact Hk]. now apply dict_get_in_keys with (VStr s).
  - intros v Hv Hns.
    destruct (is_kwargs_key k) eqn:Hk.
    + apply H2; auto. apply filter_In. split; [|exact Hk].
      now apply dict_get_in_keys with v.
    + rewrite H3; [exact Hv|]. intros Hin. apply filter_In in Hin.
      destruct Hin as [_ Hin]. congruence.
  - intros Hk. apply H3. intros Hin. apply filter_In in Hin.
    destruct Hin as [_ Hin]. congruence.
Qed.

Lemma convert_kwargs_decodes_witness :
  let params : dict :=
    [(VStr "model_kwargs", VStr ("{" ++ quoted "top_p" ++ ": 1}")%string);
     (VStr "template", VStr "[1]");
     (VStr "config", VInt 3)] in
  exists p1,
    convert_kwargs recording params = Ok p1
    /\ dict_get p1 "model_kwargs" = Some (VDict [(VStr "top_p", VInt 1)])
    /\ dict_get p1 "template" = Some (VStr "[1]")
    /\ dict_get p1 "config" = Some (VInt 3).
Proof.
  cbv zeta.
  assert (Hnd : NoDup (dict_keys
     [(VStr "model_kwargs", VStr ("{" ++ quoted "top_p" ++ ": 1}")%string);
      (VStr "template", VStr "[1]"); (VStr "config", VInt 3)])).
  { repeat constructor; simpl; intuition discriminate. }
  eexists. split; [reflexivity|].
  pose proof (convert_kwargs_decodes recording _ _ Hnd eq_refl "model_kwargs") as H1.
  pose proof (convert_kwargs_decodes recording _ _ Hnd eq_refl "template") as H2.
  pose proof (convert_kwargs_decodes recording _ _ Hnd eq_refl "config") as H3.
  split; [|split].
  - destruct (proj1 H1 eq_refl _ eq_refl) as (v & Hv & Hget).
    rewrite Hget. f_equal. vm_compute in Hv. now inversion Hv.
  - rewrite (proj2 (proj2 H2) eq_refl). reflexivity.
  - apply (proj1 (proj2 H3) (VInt 3)); reflexivity.
Defined.

(** X2.  When a parameter whose name contains [kwargs] or [config] holds
    a text that the JSON decoder rejects, [convert_kwargs] fails: no
    normalized dictionary is produced. *)
Theorem convert_kwargs_malformed (E : externals) (params : dict)
  (k s : string) (e : exn) :
  NoDup (dict_keys params) ->
  is_kwargs_key k = true ->
  dict_get params k = Some (VStr s) ->
  json_loads E s = Raise e ->
  exists e', convert_kwargs E params = Raise e'.
Proof.
  intros Hnd Hk Hget Hjs.
  destruct (convert_kwargs E params) as [p1|e'] eqn:Hrun; [|eauto].
  exfalso. unfold convert_kwargs in Hrun.
  assert (Hnd' : NoDup (filter is_kwargs_key (dict_keys params)))
    by (now apply NoDup_filter).
  assert (Hall : Forall (fun k => is_kwargs_key k = true)
                        (filter is_kwargs_key (dict_keys params))).
  { rewrite Forall_forall. intros x Hx. now apply filter_In in Hx. }
  destruct (convert_kwargs_loop_spec E _ params p1 Hnd' Hall Hrun k) as (H1 & _).
  destruct (H1 (proj2 (filter_In _ _ _)
                  (conj (dict_get_in_keys _ _ _ Hget) Hk)) s Hget) as (v & Hv & _).
  congruence.
Qed.

Lemma convert_kwargs_malformed_witness :
  exists e',
    convert_kwargs recording
      [(VStr "temperature", VInt 1); (VStr "search_kwargs", VStr "{k: 4")]
    = Raise e'.
Proof.
  apply (convert_kwargs_malformed recording
           [(VStr "temperature", VInt 1); (VStr "search_kwargs", VStr "{k: 4")]
           "search_kwargs" "{k: 4" JSONDecodeError);
    try reflexivity.
  repeat constructor; simpl; intuition discriminate.
Defined.

(** ** Set conversion, key by key *)

(** The three steps of [convert_params_to_sets], read as lookups. *)
Lemma convert_params_to_sets_spec (params q : dict) :
  convert_params_to_sets params = Ok q ->
  (forall key : string,
     key = "allowed_special" \/ key = "disallowed_special" ->
     forall v, dict_get params key = Some v ->
               exists s, py_set v = Ok s /\ dict_get q key = Some s)
  /\ dict_get q "input_node" = None
  /\ (forall k : string,
        existsb (String.eqb k) ["allowed_special"; "disallowed_special"; "input_node"]
        = false ->
        dict_get q k = dict_get params k).
Proof.
  unfold convert_params_to_sets. intros Hrun.
  set (p1 := match dict_get params "allowed_special" with
             | Some v => match py_set v with
                         | Ok s => dict_set params "allowed_special" s
                         | Raise _ => params
                         end
             | None => params
             end).
  assert (H1 : match dict_get params "allowed_special" with
               | Some v => s <- py_set v ;; Ok (dict_set params "allowed_special" s)
               | None => Ok params
               end = Ok p1
               /\ forall v, dict_get params "allowed_special" = Some v ->
                            exists s, py_set v = Ok s
                                      /\ p1 = dict_set params "allowed_special" s).
  { unfold p1. destruct (dict_get params "allowed_special") as [v|].
    - destruct (py_set v) as [s|e] eqn:Hs; [|discriminate Hrun]. split; [reflexivity|].
      intros v' Hv'. inversion Hv'; subst. eauto.
    - split; [reflexivity|]. discriminate. }
  destruct H1 as [H1 H1v]. rewrite H1 in Hrun. cbn [bind] in Hrun.
  set (p2 := match dict_get p1 "disallowed_special" with
             | Some v => match py_set v with
                         | Ok s => dict_set p1 "disallowed_special" s
                         | Raise _ => p1
                         end
             | None => p1
             end).
  assert (H2 : match dict_get p1 "disallowed_special" with
               | Some v => s <- py_set v ;; Ok (dict_set p1 "disallowed_special" s)
               | None => Ok p1
               end = Ok p2
               /\ forall v, dict_get p1 "disallowed_special" = Some v ->
                            exists s, py_set v = Ok s
                                      /\ p2 = dict_set p1 "disallowed_special" s).
  { unfold p2. destruct (dict_get p1 "disallowed_special") as [v|].
    - destruct (py_set v) as [s|e] eqn:Hs; [|discriminate Hrun]. split; [reflexivity|].
      intros v' Hv'. inversion Hv'; subst. eauto.
    - split; [reflexivity|]. discriminate. }
  destruct H2 as [H2 H2v]. rewrite H2 in Hrun. cbn [bind] in Hrun.
  inversion Hrun as [Hq]. clear Hrun H1 H2.
  assert (Hq' : forall b : string,
            dict_get (if dict_mem p2 "input_node" then dict_del p2 "input_node" else p2) b
            = if String.eqb "input_node" b then None else dict_get p2 b).
  { intros b. destruct (dict_mem p2 "input_node") eqn:Hm.
    - apply dict_get_del_str.
    - apply dict_mem_get in Hm. destruct (String.eqb "input_node" b) eqn:Hb; auto.
      apply String.eqb_eq in Hb. now subst b. }
  assert (Hp1 : forall b : string, String.eqb "allowed_special" b = false ->
                                   dict_get p1 b = dict_get params b).
  { intros b Hb. unfold p1. destruct (dict_get params "allowed_special"); auto.
    destruct (py_set v); auto. now rewrite dict_get_set_str, Hb. }
  assert (Hp2 : forall b : string, String.eqb "disallowed_special" b = false ->
                                   dict_get p2 b = dict_get p1 b).
  { intros b Hb. unfold p2. destruct (dict_get p1 "disallowed_special"); auto.
    destruct (py_set v); auto. now rewrite dict_get_set_str, Hb. }
  split; [|split].
  - intros key [->| ->] v Hv.
    + destruct (H1v v Hv) as (s & Hs & Hp). exists s. split; [exact Hs|].
      rewrite Hq'. simpl. rewrite Hp2 by reflexivity. rewrite Hp.
      now rewrite dict_get_set_str.
    + rewrite <- (Hp1 "disallowed_special" eq_refl) in Hv.
      destruct (H2v v Hv) as (s & Hs & Hp). exists s. split; [exact Hs|].
      rewrite Hq'. simpl. rewrite Hp. now rewrite dict_get_set_str.
  - rewrite Hq'. reflexivity.
  - intros k Hk. simpl in Hk.
    repeat (apply orb_false_elim in Hk; destruct Hk as [? Hk]).
    rewrite Hq'.
    repeat match goal with
           | H : String.eqb k ?a = false |- _ => rewrite String.eqb_sym in H
           end.
    rewrite H1. rewrite Hp2, Hp1 by assumption. reflexivity.
Qed.

Lemma code_points_ascii (l : list ascii) :
  forallb (fun a => (Ascii.nat_of_ascii a <? 128)%nat) l = true ->
  code_points l = map (fun a => String a EmptyString) l.
Proof.
  induction l as [|a l IH]; [reflexivity|].
  cbn [forallb]. intros H. apply andb_prop in H. destruct H as [_ H].
  cbn [code_points map]. rewrite (IH H).
  destruct l as [|b l]; [reflexivity|].
  cbn [map]. cbn [forallb] in H. apply andb_prop in H. destruct H as [Hb _].
  unfold is_continuation.
  apply Nat.ltb_lt in Hb.
  destruct (128 <=? Ascii.nat_of_ascii b)%nat eqn:H128; [|reflexivity].
  apply Nat.leb_le in H128. lia.
Qed.

(** X3.  When normalization succeeds, a list of texts under
    [allowed_special] or [disallowed_special] has become the set of the
    same texts, each once; and a single text under one of these names has
    become the set of its characters, each once (for an ASCII text, the
    one-byte texts of its bytes). *)
Theorem convert_params_to_sets_texts (params q : dict) (key : string) :
  key = "allowed_special" \/ key = "disallowed_special" ->
  convert_params_to_sets params = Ok q ->
  (forall strs,
     dict_get params key = Some (VList (map VStr strs)) ->
     exists members,
       dict_get q key = Some (VSet (map VStr members))
       /\ NoDup members /\ forall x, In x members <-> In x strs)
  /\ (forall text,
        dict_get params key = Some (VStr text) ->
        exists chars,
          dict_get q key = Some (VSet (map VStr chars))
          /\ NoDup chars
          /\ (forall c, In c chars
                        <-> In c (code_points (list_ascii_of_string text)))
          /\ (is_ascii text = true ->
              forall c, In c chars
                        <-> exists a, c = String a EmptyString
                                      /\ In a (list_ascii_of_string text))).
Proof.
  intros Hkey Hrun.
  destruct (convert_params_to_sets_spec params q Hrun) as (Hset & _).
  split.
  - intros strs Hget.
    destruct (Hset key Hkey _ Hget) as (s & Hs & Hq).
    unfold py_set in Hs. simpl in Hs. rewrite forallb_hashable_str in Hs.
    inversion Hs; subst s.
    destruct (dedup_texts strs) as (members & Hd & Hnd & Hin).
    exists members. rewrite Hq, Hd. auto.
  - intros text Hget.
    destruct (Hset key Hkey _ Hget) as (s & Hs & Hq).
    unfold py_set in Hs. cbn [py_iter bind] in Hs. unfold str_chars in Hs.
    rewrite forallb_hashable_str in Hs. inversion Hs; subst s.
    destruct (dedup_texts (code_points (list_ascii_of_string text)))
      as (chars & Hd & Hnd & Hin).
    exists chars. rewrite Hq, Hd.
    split; [reflexivity|]. split; [exact Hnd|]. split; [exact Hin|].
    intros Hascii c. rewrite Hin.
    rewrite (code_points_ascii _ Hascii), in_map_iff.
    split; intros (a & Ha & Hi); exists a; auto.
Qed.

Lemma convert_params_to_sets_texts_witness :
  let params : dict :=
    [(VStr "allowed_special", VStr "all");
     (VStr "disallowed_special", VList [VStr "<a>"; VStr "<b>"; VStr "<a>"])] in
  (exists q,
     convert_params_to_sets params = Ok q
     /\ dict_get q "allowed_special" = Some (VSet [VStr "a"; VStr "l"])
     /\ exists members,
          dict_get q "disallowed_special" = Some (VSet (map VStr members))
          /\ NoDup members
          /\ forall x, In x members <-> In x ["<a>"; "<b>"; "<a>"])
  /\ convert_params_to_sets [(VStr "allowed_special", VStr "étét")]
     = Ok [(VStr "allowed_special", VSet [VStr "é"; VStr "t"])]
  /\ exists chars,
       dict_get [(VStr "allowed_special", VSet [VStr "é"; VStr "t"])]
         "allowed_special" = Some (VSet (map VStr chars))
       /\ forall c, In c chars <-> In c ["é"; "t"; "é"; "t"].
Proof.
  cbv zeta. split.
  - eexists. split; [reflexivity|]. split; [reflexivity|].
    apply (proj1 (convert_params_to_sets_texts
             [(VStr "allowed_special", VStr "all");
              (VStr "disallowed_special", VList [VStr "<a>"; VStr "<b>"; VStr "<a>"])]
             _ "disallowed_special" (or_intror eq_refl) eq_refl)
             ["<a>"; "<b>"; "<a>"]).
    reflexivity.
  - split; [reflexivity|].
    destruct (proj2 (convert_params_to_sets_texts
             [(VStr "allowed_special", VStr "étét")]
             [(VStr "allowed_special", VSet [VStr "é"; VStr "t"])]
             "allowed_special" (or_introl eq_refl) eq_refl)
             "étét" eq_refl) as (chars & Hq & _ & Hin & _).
    exists chars. split; [exact Hq|].
    intros c. rewrite Hin. simpl. tauto.
Defined.

(** X4.  When normalization succeeds, the internal [input_node] parameter
    is gone and every parameter other than [allowed_special],
    [disallowed_special] and [input_node] holds what it held. *)
Theorem convert_params_to_sets_frame (params q : dict) :
  convert_params_to_sets params = Ok q ->
  dict_get q "input_node" = None
  /\ forall k : string,
       existsb (String.eqb k) ["allowed_special"; "disallowed_special"; "input_node"]
       = false ->
       dict_get q k = dict_get params k.
Proof.
  intros Hrun.
  destruct (convert_params_to_sets_spec params q Hrun) as (_ & Hdrop & Hframe).
  split; assumption.
Qed.

Lemma convert_params_to_sets_frame_witness :
  let params : dict :=
    [(VStr "input_node", VStr "Chat-1"); (VStr "model", VStr "gpt");
     (VStr "allowed_special", VList [])] in
  let q : dict := [(VStr "model", VStr "gpt"); (VStr "allowed_special", VSet [])] in
  convert_params_to_sets params = Ok q
  /\ dict_get q "input_node" = None
  /\ dict_get q "model" = dict_get params "model".
Proof.
  cbv zeta. split; [reflexivity|].
  destruct (convert_params_to_sets_frame
              [(VStr "input_node", VStr "Chat-1"); (VStr "model", VStr "gpt");
               (VStr "allowed_special", VList [])]
              [(VStr "model", VStr "gpt"); (VStr "allowed_special", VSet [])]
              eq_refl) as [Hdrop Hframe].
  split; [exact Hdrop|].
  exact (Hframe "model" eq_refl).
Defined.

(** X5.  Normalization fails with a [TypeError] when [allowed_special]
    holds a value that cannot be iterated or a sequence with an unhashable
    element (a list, a set or a dictionary inside it). *)
Theorem convert_params_to_sets_type_error (params : dict) (v : value) :
  dict_get params "allowed_special" = Some v ->
  match py_iter v with
  | Ok l => forallb hashable l = false
  | Raise _ => True
  end ->
  exists msg, convert_params_to_sets params = Raise (TypeError msg).
Proof.
  intros Hget Hbad. unfold convert_params_to_sets. rewrite Hget.
  unfold py_set.
  destruct v; simpl in *; try rewrite Hbad; simpl; eauto.
Qed.

Lemma convert_params_to_sets_type_error_witness :
  (exists msg,
     convert_params_to_sets [(VStr "allowed_special", VNone)]
     = Raise (TypeError msg))
  /\ exists msg,
       convert_params_to_sets
         [(VStr "allowed_special", VList [VStr "a"; VList [VStr "b"]])]
       = Raise (TypeError msg).
Proof.
  split.
  - apply (convert_params_to_sets_type_error
             [(VStr "allowed_special", VNone)] VNone eq_refl I).
  - apply (convert_params_to_sets_type_error
             [(VStr "allowed_special", VList [VStr "a"; VList [VStr "b"]])]
             (VList [VStr "a"; VList [VStr "b"]]) eq_refl eq_refl).
Defined.

(** ** The entry point *)

(** X6.  [instantiate_class] takes the source-id bundle out of the
    normalized parameters before anything is built: without the bundle it
    fails with [KeyError]; and a node type registered as a custom node is
    called directly (through its [initialize] hook when it has one) with
    the normalized parameters, the bundle not among them. *)
Theorem instantiate_class_bundle (E : externals) (node_type base_type : string)
  (params p : dict) (user_id : value) :
  normalize E params = Ok p ->
  (dict_get p (NODE_ID_DICT E) = None ->
   instantiate_class E node_type base_type params user_id
   = Raise (KeyError (NODE_ID_DICT E)))
  /\ (forall bundle custom_node,
        dict_get p (NODE_ID_DICT E) = Some bundle ->
        dict_get (CUSTOM_NODES E) node_type = Some custom_node ->
        truthy custom_node = true ->
        dict_get (dict_del p (NODE_ID_DICT E)) (NODE_ID_DICT E) = None
        /\ instantiate_class E node_type base_type params user_id
           = invoke E (match py_getattr custom_node "initialize" with
                       | Some initialize => initialize
                       | None => custom_node
                       end) [] (dict_del p (NODE_ID_DICT E))).
Proof.
  unfold normalize, instantiate_class. intros Hnorm.
  destruct (convert_params_to_sets params) as [q|e]; [|discriminate].
  cbn [bind] in *. rewrite Hnorm. cbn [bind]. unfold dict_pop. split.
  - intros Habsent. now rewrite Habsent.
  - intros bundle custom_node Hb Hc Ht. split.
    + rewrite dict_get_del_str. now rewrite String.eqb_refl.
    + rewrite Hb. cbn [bind]. unfold dict_get_default. rewrite Hc, Ht.
      now destruct (py_getattr custom_node "initialize").
Qed.

Lemma instantiate_class_bundle_witness :
  instantiate_class customized "JsonAgent" "agents" [(VStr "llm", VObj 3 [])] VNone
  = Raise (KeyError "node_id_dict")
  /\ instantiate_class customized "JsonAgent" "agents"
       [(VStr "llm", VObj 3 []); (VStr "node_id_dict", VDict [])] VNone
     = Ok (call_record 1000 (VFun "initialize" []) [] [(VStr "llm", VObj 3 [])]).
Proof.
  split.
  - exact (proj1 (instantiate_class_bundle customized "JsonAgent" "agents"
                    [(VStr "llm", VObj 3 [])] [(VStr "llm", VObj 3 [])]
                    VNone eq_refl) eq_refl).
  - exact (proj2 (proj2 (instantiate_class_bundle customized "JsonAgent" "agents"
                    [(VStr "llm", VObj 3 []); (VStr "node_id_dict", VDict [])]
                    [(VStr "llm", VObj 3 []); (VStr "node_id_dict", VDict [])]
                    VNone eq_refl)
                   (VDict []) (VObj 7 [(VStr "initialize", VFun "initialize" [])])
                   eq_refl eq_refl eq_refl)).
Defined.

(** ** Tool names *)

Lemma prefix_char (c a : ascii) (s : string) :
  String.prefix (String c EmptyString) (String a s) = Ascii.eqb c a.
Proof.
  cbn [String.prefix].
  destruct (Ascii.ascii_dec c a) as [Heq|Hne];
    destruct (Ascii.eqb_spec c a); try contradiction; try reflexivity.
  now destruct s.
Qed.

Lemma str_replace_space_spec (s : string) :
  str_contains " " (str_replace_space s) = false
  /\ String.length (str_replace_space s) = String.length s.
Proof.
  induction s as [|a s [IH1 IH2]]; [split; reflexivity|].
  cbn [str_replace_space str_contains String.length].
  split; [|now rewrite IH2].
  rewrite prefix_char, IH1.
  destruct (Ascii.eqb a " ") eqn:Ha; [reflexivity|].
  rewrite Ascii.eqb_sym, Ha. reflexivity.
Qed.

(** X7.  A tool that leaves the dispatcher carries a name without spaces:
    when the tool strategy returns an instance of [BaseTool] whose name is
    a text, the dispatcher returns the same object with every space of the
    name replaced (the name keeps its length); an object that is no
    [BaseTool] is returned as the strategy built it. *)
Theorem tool_name_without_spaces (E : externals) (class_object : value)
  (node_type : string) (params : dict) (ids user_id : value)
  (id : nat) (attrs : dict) :
  instantiate_tool E node_type class_object params = Ok (VObj id attrs) ->
  (forall n,
     dict_get attrs "name" = Some (VStr n) ->
     instance_of E (VObj id attrs) "BaseTool" = true ->
     instantiate_based_on_type E class_object "tools" node_type params ids user_id
     = Ok (VObj id (dict_set attrs "name" (VStr (str_replace_space n))))
     /\ str_contains " " (str_replace_space n) = false
     /\ String.length (str_replace_space n) = String.length n)
  /\ (instance_of E (VObj id attrs) "BaseTool" = false ->
      instantiate_based_on_type E class_object "tools" node_type params ids user_id
      = Ok (VObj id attrs)).
Proof.
  intros Htool. split.
  - intros n Hname Hinst.
    split; [|apply str_replace_space_spec].
    cbn. rewrite Htool. cbn [bind py_getattr]. now rewrite Hname, Hinst.
  - intros Hinst. cbn. rewrite Htool. cbn [bind py_getattr].
    destruct (dict_get attrs "name"); now rewrite ?Hinst.
Qed.

Lemma tool_name_without_spaces_witness :
  instantiate_based_on_type tooling (VObj 10 []) "tools" "Tool"
    [(VStr "name", VStr "web search tool")] (VDict []) VNone
  = Ok (VObj 30 [(VStr "name", VStr "web_search_tool"); (VStr "args_schema", VNone)]).
Proof.
  destruct (proj1 (tool_name_without_spaces tooling (VObj 10 []) "Tool"
                     [(VStr "name", VStr "web search tool")] (VDict []) VNone
                     30 [(VStr "name", VStr "web search tool");
                         (VStr "args_schema", VNone)] eq_refl)
              "web search tool" eq_refl eq_refl) as (Hrun & _).
  rewrite Hrun. reflexivity.
Defined.

(** ** Memory parameters *)




(** ** Embedding parameters *)





(** ** Model clients *)

Lemma bind_ok_id (r : result value) : (x <- r ;; Ok x) = r.
Proof. now destruct r. Qed.





(** X12.  The stored request tuning only overrides attributes the built
    client already has: after construction, [request_timeout] and
    [max_retries] take the stored value when the client has the attribute
    and the store names it; an attribute the client lacks is never added,
    and no other attribute changes. *)
Theorem llm_request_tuning (E : externals) (node_type : string)
  (class_object : value) (params config : dict) (id : nat) (attrs : dict) :
  is_openai_v1 E && truthy (dict_get_default params "openai_proxy" VNone) = false ->
  String.eqb node_type EmptyString = false ->
  String.eqb node_type "VertexAI" = false ->
  dict_get params "max_tokens" = None ->
  construct E class_object params = Ok (VObj id attrs) ->
  get_from_db E "llm_request" = VDict config ->
  tuning_is_plain config "request_timeout" = true ->
  exists attrs',
    instantiate_llm E node_type class_object params = Ok (VObj id attrs')
    /\ forall k : string,
         dict_get attrs' k
         = if (String.eqb "request_timeout" k || String.eqb "max_retries" k)
              && dict_mem attrs k && dict_mem config k
           then dict_get config k else dict_get attrs k.
Proof.
  intros Hproxy Hn1 Hn2 Hmax Hbuild Hcfg Hplain. unfold instantiate_llm.
  rewrite Hproxy, Hn1, Hn2, Hcfg. cbn [bind]. rewrite Hmax. cbn [bind].
  rewrite Hbuild. cbn [bind].
  set (attrs1 := if dict_mem attrs "request_timeout" && dict_mem config "request_timeout"
                 then dict_set attrs "request_timeout"
                        (dict_get_default config "request_timeout" VNone)
                 else attrs).
  assert (H1 : (if hasattr (VObj id attrs) "request_timeout"
                then present <- py_in (VStr "request_timeout") (VDict config) ;;
                     if present
                     then timeout <-
                            (if is_str (dict_get_default config "request_timeout" VNone)
                             then py_int E
                                    (dict_get_default config "request_timeout" VNone)
                             else Ok (dict_get_default config "request_timeout" VNone)) ;;
                          setattr (VObj id attrs) "request_timeout" timeout
                     else Ok (VObj id attrs)
                else Ok (VObj id attrs)) = Ok (VObj id attrs1)).
  { unfold attrs1, hasattr, dict_mem, tuning_is_plain, dict_get_default in *.
    cbn [py_getattr py_in hashable bind].
    destruct (dict_get attrs "request_timeout"); [|reflexivity].
    unfold dict_mem. destruct (dict_get config "request_timeout") as [tv|];
      [|reflexivity].
    cbn [bind andb]. destruct (is_str tv); [discriminate|]. reflexivity. }
  rewrite H1. cbn [bind].
  set (attrs2 := if dict_mem attrs1 "max_retries" && dict_mem config "max_retries"
                 then dict_set attrs1 "max_retries"
                        (dict_get_default config "max_retries" VNone)
                 else attrs1).
  exists attrs2. split.
  - unfold attrs2, hasattr, dict_mem, dict_get_default.
    cbn [py_getattr py_in hashable bind].
    destruct (dict_get attrs1 "max_retries"); [|reflexivity].
    unfold dict_mem. destruct (dict_get config "max_retries"); reflexivity.
  - intros k.
    assert (Ha1 : forall b : string,
              dict_get attrs1 b
              = if String.eqb "request_timeout" b
                   && dict_mem attrs b && dict_mem config b
                then dict_get config b else dict_get attrs b).
    { intros b. unfold attrs1.
      destruct (String.eqb "request_timeout" b) eqn:Hb.
      - apply String.eqb_eq in Hb. subst b. cbn [andb].
        destruct (dict_mem attrs "request_timeout" && dict_mem config "request_timeout")
          eqn:Hm; [|reflexivity].
        rewrite dict_get_set_str, String.eqb_refl.
        apply andb_prop in Hm. destruct Hm as [_ Hm]. unfold dict_mem in Hm.
        unfold dict_get_default.
        now destruct (dict_get config "request_timeout").
      - cbn [andb].
        destruct (dict_mem attrs "request_timeout" && dict_mem config "request_timeout");
          [|reflexivity].
        now rewrite dict_get_set_str, Hb. }
    assert (Hmem : dict_mem attrs1 "max_retries" = dict_mem attrs "max_retries").
    { unfold dict_mem. rewrite Ha1. reflexivity. }
    unfold attrs2. rewrite Hmem.
    destruct (String.eqb "max_retries" k) eqn:Hk.
    + apply String.eqb_eq in Hk. subst k.
      change (String.eqb "request_timeout" "max_retries") with false.
      cbn [orb andb].
      destruct (dict_mem attrs "max_retries" && dict_mem config "max_retries")
        eqn:Hm.
      * rewrite dict_get_set_str, String.eqb_refl.
        apply andb_prop in Hm. destruct Hm as [_ Hm]. unfold dict_mem in Hm.
        unfold dict_get_default.
        now destruct (dict_get config "max_retries").
      * rewrite Ha1. reflexivity.
    + rewrite orb_false_r.
      destruct (dict_mem attrs "max_retries" && dict_mem config "max_retries").
      * rewrite dict_get_set_str, Hk. apply Ha1.
      * apply Ha1.
Qed.

Lemma llm_request_tuning_witness :
  instantiate_llm tuned "ChatOpenAI" (VObj 10 []) [(VStr "model", VStr "gpt")]
  = Ok (VObj 40 [(VStr "model", VStr "gpt"); (VStr "request_timeout", VInt 30)]).
Proof.
  destruct (llm_request_tuning tuned "ChatOpenAI" (VObj 10 [])
              [(VStr "model", VStr "gpt")]
              [(VStr "request_timeout", VInt 30); (VStr "max_retries", VInt 2)]
              40 [(VStr "model", VStr "gpt"); (VStr "request_timeout", VNone)]
              eq_refl eq_refl eq_refl eq_refl eq_refl eq_refl eq_refl)
    as (attrs' & Hrun & _).
  rewrite Hrun. vm_compute in Hrun. now inversion Hrun.
Defined.

(** ** Chains: the order list *)

(** X13.  For a [SequentialChain] node, a [chain_order] that is absent, is
    no text, or is rejected by the decoder fails the build with the
    exception [chain_order 不是标准数组]; a [chain_order] that decodes to
    something that is no sequence (a number, [null]) passes the decoder
    and fails later with a [TypeError]. *)
Theorem sequential_chain_order_error (E : externals) (class_object : value)
  (params id_dict : dict) :
  dict_get params "retriever" = None ->
  (chain_order_unparsable E params = true ->
   instantiate_chains E "SequentialChain" class_object params (VDict id_dict)
   = Raise (PlainException "chain_order 不是标准数组"))
  /\ (forall text order sids,
        dict_get params "chain_order" = Some (VStr text) ->
        json_loads E text = Ok order ->
        is_ok (py_iter order) = false ->
        dict_get id_dict "chains" = Some (VList (map VStr sids)) ->
        exists msg,
          instantiate_chains E "SequentialChain" class_object params (VDict id_dict)
          = Raise (TypeError msg)).
Proof.
  intros Hretr. unfold instantiate_chains. rewrite Hretr. cbn [bind].
  change (String.eqb "SequentialChain" "SequentialChain") with true. cbv iota.
  unfold sequential_chain_params. rewrite dict_pop_default_snd.
  unfold dict_pop. rewrite dict_get_del_str.
  change (String.eqb "input_node" "chain_order") with false. cbv iota.
  split.
  - unfold chain_order_unparsable. intros Hbad.
    destruct (dict_get params "chain_order") as [v|]; [|reflexivity].
    destruct v; try reflexivity.
    cbn [bind py_json_loads catch].
    destruct (json_loads E s); [discriminate|reflexivity].
  - intros text order sids Hget Hjs Hiter Hids. rewrite Hget.
    cbn [bind py_json_loads catch]. rewrite Hjs. cbn [bind catch].
    unfold py_get, dict_get_default. rewrite Hids. cbn [py_iter bind].
    destruct (enumerate_dict_str sids 0 []) as (d & Hd & _). rewrite Hd.
    cbn [bind].
    destruct order; simpl in Hiter; try discriminate; cbn [py_iter bind]; eauto.
Qed.

Lemma sequential_chain_order_error_witness :
  instantiate_chains recording "SequentialChain" (VObj 10 [])
    [(VStr "chains", VList [VObj 1 []]); (VStr "chain_order", VStr "[1,")]
    (VDict [(VStr "chains", VList [VStr "n1"])])
  = Raise (PlainException "chain_order 不是标准数组")
  /\ exists msg,
       instantiate_chains recording "SequentialChain" (VObj 10 [])
         [(VStr "chains", VList [VObj 1 []]); (VStr "chain_order", VStr "5")]
         (VDict [(VStr "chains", VList [VStr "n1"])])
       = Raise (TypeError msg).
Proof.
  split.
  - exact (proj1 (sequential_chain_order_error recording (VObj 10 [])
                    [(VStr "chains", VList [VObj 1 []]);
                     (VStr "chain_order", VStr "[1,")]
                    [(VStr "chains", VList [VStr "n1"])] eq_refl) eq_refl).
  - exact (proj2 (sequential_chain_order_error recording (VObj 10 [])
                    [(VStr "chains", VList [VObj 1 []]);
                     (VStr "chain_order", VStr "5")]
                    [(VStr "chains", VList [VStr "n1"])] eq_refl)
             "5" (VInt 5) ["n1"] eq_refl eq_refl eq_refl eq_refl).
Defined.

Lemma enumerate_dict_known (sids : list string) :
  forall (index : nat) (acc d : dict) (id : string),
    enumerate_dict (map VStr sids) index acc = Ok d ->
    In id sids ->
    exists j, j < length sids
              /\ dict_get d (VStr id) = Some (VInt (Z.of_nat (index + j))).
Proof.
  induction sids as [|s sids IH]; intros index acc d id Hd Hin; [contradiction|].
  simpl in Hd.
  destruct (in_dec string_dec id sids) as [Hrest|Hrest].
  - destruct (IH _ _ _ id Hd Hrest) as (j & Hj & Hget).
    exists (S j). split; [simpl; lia|]. rewrite Hget. do 3 f_equal. lia.
  - destruct Hin as [->|Hin]; [|contradiction].
    destruct (enumerate_dict_str sids (S index)
                (dict_set acc (VStr id) (VInt (Z.of_nat index))))
      as (d' & Hd' & Hout & _).
    rewrite Hd in Hd'. inversion Hd'; subst d'.
    exists 0. split; [simpl; lia|].
    rewrite (Hout id Hrest), dict_get_set_str, String.eqb_refl.
    now rewrite Nat.add_0_r.
Qed.

(** X14.  For a [SequentialChain] node, an id in [chain_order] that is not
    the source id of any sub-chain is not skipped: the ids before it being
    known, the build fails with the [TypeError] of indexing the chain list
    by [None]. *)
Theorem sequential_chain_unknown_id (E : externals) (class_object : value)
  (params id_dict : dict) (text : string) (sids known rest : list string)
  (bad : string) (chains : list value) :
  dict_get params "retriever" = None ->
  dict_get params "chain_order" = Some (VStr text) ->
  json_loads E text = Ok (VList (map VStr (known ++ bad :: rest))) ->
  dict_get params "chains" = Some (VList chains) ->
  dict_get id_dict "chains" = Some (VList (map VStr sids)) ->
  length sids <= length chains ->
  incl known sids ->
  ~ In bad sids ->
  instantiate_chains E "SequentialChain" class_object params (VDict id_dict)
  = Raise (TypeError "indices must be integers").
Proof.
  intros Hretr Horder Hjson Hchains Hids Hlen Hknown Hbad.
  unfold instantiate_chains. rewrite Hretr. cbn [bind].
  change (String.eqb "SequentialChain" "SequentialChain") with true. cbv iota.
  unfold sequential_chain_params. rewrite dict_pop_default_snd.
  unfold dict_pop. rewrite dict_get_del_str.
  change (String.eqb "input_node" "chain_order") with false. cbv iota.
  rewrite Horder. cbn [bind py_json_loads catch]. rewrite Hjson.
  cbn [bind catch].
  unfold py_get, dict_get_default. rewrite !dict_get_del_str.
  change (String.eqb "chain_order" "chains") with false.
  change (String.eqb "input_node" "chains") with false. cbv iota.
  rewrite Hchains, Hids. cbn [py_iter bind].
  destruct (enumerate_dict_str sids 0 []) as (d & Hd & Hout & _).
  rewrite Hd. cbn [bind].
  assert (Hfail : reorder_chains (VList chains) d (map VStr (known ++ bad :: rest))
                  = Raise (TypeError "indices must be integers")).
  { clear Horder Hjson. induction known as [|k known IH]; simpl.
    - unfold dict_get_dyn, dict_get_default. simpl.
      rewrite (Hout bad Hbad). reflexivity.
    - assert (Hk : In k sids) by (apply Hknown; now left).
      destruct (enumerate_dict_known sids 0 [] d k Hd Hk) as (j & Hj & Hget).
      unfold dict_get_dyn, dict_get_default. simpl. rewrite Hget. simpl.
      assert (Hz : (0 <=? Z.of_nat j)%Z = true) by (apply Z.leb_le; lia).
      rewrite Hz, Nat2Z.id.
      destruct (nth_error chains j) as [c|] eqn:Hc.
      + cbn [bind]. rewrite IH; [reflexivity|].
        intros x Hx. apply Hknown. now right.
      + apply nth_error_None in Hc. lia. }
  rewrite Hfail. reflexivity.
Qed.

Lemma sequential_chain_unknown_id_witness :
  instantiate_chains recording "SequentialChain" (VObj 10 [])
    [(VStr "chains", VList [VObj 1 []; VObj 2 []]);
     (VStr "chain_order", VStr ("[" ++ quoted "n2" ++ "," ++ quoted "n9" ++ "]")%string)]
    (VDict [(VStr "chains", VList [VStr "n1"; VStr "n2"])])
  = Raise (TypeError "indices must be integers").
Proof.
  apply (sequential_chain_unknown_id recording (VObj 10 [])
           [(VStr "chains", VList [VObj 1 []; VObj 2 []]);
            (VStr "chain_order",
             VStr ("[" ++ quoted "n2" ++ "," ++ quoted "n9" ++ "]")%string)]
           [(VStr "chains", VList [VStr "n1"; VStr "n2"])]
           ("[" ++ quoted "n2" ++ "," ++ quoted "n9" ++ "]")%string
           ["n1"; "n2"] ["n2"] [] "n9" [VObj 1 []; VObj 2 []]);
    try reflexivity.
  - intros x [<-|[]]. right. now left.
  - simpl. intuition discriminate.
Defined.

(** ** Chains: retrieval question answering and routing *)

Lemma chain_retriever_step (E : externals) (params : dict)
  (final : option value) :
  retriever_adapter E params final ->
  exists p1,
    (match dict_get params "retriever" with
     | Some _ =>
         let '(user_name, params) :=
           dict_pop_default params "user_name" (VStr EmptyString) in
         retriever <- dict_item params "retriever" ;;
         if hasattr retriever "as_retriever" then
           vectorstore <- chain_retriever E retriever user_name ;;
           Ok (dict_set params "retriever" vectorstore)
         else Ok params
     | None => Ok params
     end) = Ok p1
    /\ dict_get p1 "retriever" = final
    /\ dict_get p1 "user_name"
       = (if dict_mem params "retriever" then None
          else dict_get params "user_name")
    /\ forall k : string,
         String.eqb "retriever" k = false -> String.eqb "user_name" k = false ->
         dict_get p1 k = dict_get params k.
Proof.
  intros Hcase.
  assert (Hitem : forall r, dict_get params "retriever" = Some r ->
            dict_item (dict_del params "user_name") "retriever" = Ok r).
  { intros r Hr. unfold dict_item. rewrite dict_get_del_str.
    change (String.eqb "user_name" "retriever") with false. cbv iota.
    now rewrite Hr. }
  assert (Hdel : forall r, dict_get params "retriever" = Some r ->
            dict_get (dict_del params "user_name") "retriever" = Some r
            /\ dict_get (dict_del params "user_name") "user_name" = None
            /\ forall k : string,
                 String.eqb "user_name" k = false ->
                 dict_get (dict_del params "user_name") k = dict_get params k).
  { intros r Hr. rewrite !dict_get_del_str.
    change (String.eqb "user_name" "retriever") with false.
    rewrite String.eqb_refl. repeat split; auto.
    intros k Hk. now rewrite dict_get_del_str, Hk. }
  assert (Hset : forall r a, dict_get params "retriever" = Some r ->
            dict_get (dict_set (dict_del params "user_name") "retriever" a)
              "retriever" = Some a
            /\ dict_get (dict_set (dict_del params "user_name") "retriever" a)
                 "user_name" = None
            /\ forall k : string,
                 String.eqb "retriever" k = false ->
                 String.eqb "user_name" k = false ->
                 dict_get (dict_set (dict_del params "user_name") "retriever" a) k
                 = dict_get params k).
  { intros r a Hr. rewrite !dict_get_set_str, !dict_get_del_str.
    change (String.eqb "retriever" "user_name") with false.
    rewrite !String.eqb_refl. repeat split; auto.
    intros k Hk1 Hk2. now rewrite dict_get_set_str, dict_get_del_str, Hk1, Hk2. }
  destruct Hcase as [[Hr ->]|[(r & Hr & Hh & ->)|[(r & m & a & Hr & Hm & Hf & Hi & ->)
                    |(r & url & a & Hr & Hh & Hf & Hu & Hx & ->)]]];
    unfold dict_mem; rewrite Hr.
  - exists params. repeat split; auto.
  - rewrite dict_pop_default_pair. rewrite (Hitem r Hr). cbn [bind].
    rewrite Hh. exists (dict_del params "user_name").
    destruct (Hdel r Hr) as (H1 & H2 & H3). repeat split; auto.
  - rewrite dict_pop_default_pair. rewrite (Hitem r Hr). cbn [bind].
    assert (Hh : hasattr r "as_retriever" = true)
      by (unfold hasattr; now rewrite Hm).
    rewrite Hh. unfold chain_retriever. rewrite Hf.
    unfold call_method, attr. rewrite Hm. cbn [bind]. rewrite Hi. cbn [bind].
    eexists. split; [reflexivity|]. exact (Hset r a Hr).
  - rewrite dict_pop_default_pair. rewrite (Hitem r Hr). cbn [bind].
    rewrite Hh. unfold chain_retriever. rewrite Hf.
    assert (Ht : truthy (VStr url) = true).
    { cbn [truthy]. destruct (String.eqb url EmptyString) eqn:He;
        [apply String.eqb_eq in He; contradiction | reflexivity]. }
    rewrite Ht. cbn [py_add bind]. rewrite Hx. cbn [bind].
    eexists. split; [reflexivity|]. exact (Hset r a Hr).
Qed.

(** X15.  For a [ConversationalRetrievalChain] node without a textual
    [headers] parameter, the class or its factory method receives
    [get_chat_history = str] and a fresh [combine_docs_chain_kwargs]
    dictionary that holds the former [combine_docs_chain_kwargs] value as
    [prompt] and the former [document_prompt] as [document_prompt], each
    only when it is not [None]; [document_prompt] itself is no longer a
    parameter.  The [retriever] parameter arrives as its retrieval adapter
    (the permission-filtering one when [file_access] is configured), and
    with a retriever present [user_name] is withheld; every other
    parameter is passed unchanged. *)
Theorem conversational_chain_kwargs (E : externals) (class_object : value)
  (params : dict) (id_dict : value) (final : option value) :
  retriever_adapter E params final ->
  (forall text, dict_get params "headers" <> Some (VStr text)) ->
  exists p,
    instantiate_chains E "ConversationalRetrievalChain" class_object params id_dict
    = from_method_or_construct E (chain_from_method_nodes E)
        "ConversationalRetrievalChain" class_object p
    /\ dict_get p "get_chat_history" = Some (VFun "str" [])
    /\ dict_get p "document_prompt" = None
    /\ dict_get p "combine_docs_chain_kwargs"
       = Some (VDict (without_none
            [(VStr "prompt",
              dict_get_default params "combine_docs_chain_kwargs" VNone);
             (VStr "document_prompt",
              dict_get_default params "document_prompt" VNone)]))
    /\ dict_get p "retriever" = final
    /\ dict_get p "user_name"
       = (if dict_mem params "retriever" then None
          else dict_get params "user_name")
    /\ (forall k : string,
          existsb (String.eqb k)
            ["get_chat_history"; "document_prompt"; "combine_docs_chain_kwargs";
             "retriever"; "user_name"]
          = false ->
          dict_get p k = dict_get params k).
Proof.
  intros Hcase Hhead.
  destruct (chain_retriever_step E params final Hcase)
    as (p1 & Hstep & Hretr & Huser & Hframe).
  unfold instantiate_chains. rewrite Hstep. cbn [bind].
  change (String.eqb "ConversationalRetrievalChain" "SequentialChain") with false.
  cbv iota. cbn [bind].
  assert (Hh1 : match dict_get p1 "headers" with
                | Some (VStr text) =>
                    headers <- json_loads E text ;;
                    Ok (dict_set p1 "headers" headers)
                | _ => Ok p1
                end = Ok p1).
  { rewrite (Hframe "headers") by reflexivity.
    destruct (dict_get params "headers") as [h|] eqn:Hh; [|reflexivity].
    destruct h; try reflexivity. exfalso. now apply (Hhead s). }
  rewrite Hh1. cbn [bind].
  change (String.eqb "ConversationalRetrievalChain" "ConversationalRetrievalChain")
    with true.
  change (String.eqb "ConversationalRetrievalChain" "MultiPromptChain") with false.
  change (String.eqb "ConversationalRetrievalChain" "MultiRuleChain") with false.
  cbv iota. cbn [orb bind].
  rewrite !dict_pop_default_pair. eexists. split; [reflexivity|].
  split; [|split; [|split; [|split; [|split]]]].
  - now rewrite dict_get_set_str, !dict_get_del_str, dict_get_set_str.
  - now rewrite dict_get_set_str, !dict_get_del_str.
  - rewrite dict_get_set_str, String.eqb_refl. unfold without_none.
    unfold dict_get_default. rewrite !dict_get_del_str, !dict_get_set_str.
    change (String.eqb "combine_docs_chain_kwargs" "document_prompt") with false.
    change (String.eqb "get_chat_history" "document_prompt") with false.
    change (String.eqb "get_chat_history" "combine_docs_chain_kwargs") with false.
    cbv iota.
    rewrite (Hframe "combine_docs_chain_kwargs"), (Hframe "document_prompt")
      by reflexivity.
    reflexivity.
  - rewrite dict_get_set_str, !dict_get_del_str, dict_get_set_str.
    change (String.eqb "combine_docs_chain_kwargs" "retriever") with false.
    change (String.eqb "document_prompt" "retriever") with false.
    change (String.eqb "get_chat_history" "retriever") with false.
    exact Hretr.
  - rewrite dict_get_set_str, !dict_get_del_str, dict_get_set_str.
    change (String.eqb "combine_docs_chain_kwargs" "user_name") with false.
    change (String.eqb "document_prompt" "user_name") with false.
    change (String.eqb "get_chat_history" "user_name") with false.
    exact Huser.
  - intros k Hk. simpl in Hk.
    repeat (apply orb_false_elim in Hk; destruct Hk as [? Hk]).
    repeat match goal with
           | H : String.eqb k ?a = false |- _ => rewrite String.eqb_sym in H
           end.
    rewrite dict_get_set_str, !dict_get_del_str, dict_get_set_str.
    rewrite Hframe by assumption.
    repeat match goal with
           | H : String.eqb ?a k = false |- _ => rewrite H; clear H
           end.
    reflexivity.
Qed.

Lemma conversational_chain_kwargs_witness :
  let store := VObj 5 [(VStr "as_retriever", VFun "as_retriever" [])] in
  let W := scripted [("as_retriever", Ok (VObj 6 []))] (fun l => l) in
  let class_object :=
    VObj 10 [(VStr "__name__", VStr "ConversationalRetrievalChain");
             (VStr "from_llm", VFun "from_llm" [])] in
  instantiate_chains W "ConversationalRetrievalChain" class_object
    [(VStr "llm", VObj 3 []); (VStr "retriever", store);
     (VStr "user_name", VStr "alice");
     (VStr "combine_docs_chain_kwargs", VObj 4 []);
     (VStr "document_prompt", VNone)] (VDict [])
  = Ok (call_record 1000 (VFun "from_llm" []) []
          [(VStr "llm", VObj 3 []); (VStr "retriever", VObj 6 []);
           (VStr "get_chat_history", VFun "str" []);
           (VStr "combine_docs_chain_kwargs", VDict [(VStr "prompt", VObj 4 [])])]).
Proof.
  cbv zeta.
  destruct (conversational_chain_kwargs
              (scripted [("as_retriever", Ok (VObj 6 []))] (fun l => l))
              (VObj 10 [(VStr "__name__", VStr "ConversationalRetrievalChain");
                        (VStr "from_llm", VFun "from_llm" [])])
              [(VStr "llm", VObj 3 []);
               (VStr "retriever",
                VObj 5 [(VStr "as_retriever", VFun "as_retriever" [])]);
               (VStr "user_name", VStr "alice");
               (VStr "combine_docs_chain_kwargs", VObj 4 []);
               (VStr "document_prompt", VNone)] (VDict []) (Some (VObj 6 [])))
    as (p & Hrun & _).
  - right. right. left.
    exists (VObj 5 [(VStr "as_retriever", VFun "as_retriever" [])]),
           (VFun "as_retriever" []), (VObj 6 []).
    repeat split; reflexivity.
  - intros text. discriminate.
  - rewrite Hrun. vm_compute in Hrun. now inversion Hrun.
Defined.

Lemma dict_set_absent (d : dict) (k : string) (v : value) :
  dict_get d (VStr k) = None -> dict_set d (VStr k) v = d ++ [(VStr k, v)].
Proof.
  induction d as [|[k0 v0] d IH]; simpl; [reflexivity|].
  destruct (py_eqb k0 (VStr k)); [discriminate|].
  intros H. now rewrite IH.
Qed.

Lemma dict_get_app_absent (d : dict) (k k' : string) (v : value) :
  String.eqb k k' = false ->
  dict_get (d ++ [(VStr k, v)]) (VStr k') = dict_get d (VStr k').
Proof.
  intros Hk. induction d as [|[k0 v0] d IH]; simpl.
  - now rewrite Hk.
  - destruct (py_eqb k0 (VStr k')); auto.
Qed.

(** The routing table built from pairwise different route names: the
    names paired, in order, with the sub-chains at the same positions. *)
Lemma destination_chains_combine (chains : list value) (names : list string) :
  forall (i : nat) (acc : dict),
    NoDup names ->
    (forall n, In n names -> dict_get acc (VStr n) = None) ->
    i + length names <= length chains ->
    destination_chains (map VStr names) (VList chains) i acc
    = Ok (acc ++ combine (map VStr names) (skipn i chains)).
Proof.
  induction names as [|n names IH]; intros i acc Hnd Hacc Hlen; simpl.
  - now rewrite app_nil_r.
  - simpl in Hlen.
    destruct (nth_error chains i) as [c|] eqn:Hc;
      [|apply nth_error_None in Hc; lia].
    cbn [bind].
    inversion Hnd as [|? ? Hn Hnd']; subst.
    rewrite dict_set_absent by (apply Hacc; now left).
    rewrite IH; try assumption; try lia.
    + rewrite <- app_assoc. simpl.
      assert (Hskip : skipn i chains = c :: skipn (S i) chains).
      { clear - Hc. revert chains Hc. induction i as [|i IHi]; intros [|x chains] Hc;
          simpl in *; try discriminate.
        - now inversion Hc.
        - now apply IHi. }
      now rewrite Hskip.
    + intros m Hm. rewrite dict_get_app_absent.
      * apply Hacc. now right.
      * destruct (String.eqb n m) eqn:Hnm; [|reflexivity].
        apply String.eqb_eq in Hnm. subst m. contradiction.
Qed.

(** X16.  For a [MultiPromptChain] or [MultiRuleChain] node (no retriever
    and no textual [headers]), route names and sub-chains are paired by
    position into [destination_chains], the two parallel parameters are
    removed and nothing else changes; with fewer sub-chains than route
    names the build fails with [IndexError]. *)
Theorem multi_route_destinations (E : externals) (node_type : string)
  (class_object : value) (params : dict) (id_dict : value)
  (routes : dict) (names : list string) (chains : list value) :
  node_type = "MultiPromptChain" \/ node_type = "MultiRuleChain" ->
  dict_get params "retriever" = None ->
  dict_get params "headers" = None ->
  dict_get params "destination_chain_name" = Some (VDict routes) ->
  map snd routes = map VStr names ->
  NoDup names ->
  dict_get params "LLMChains" = Some (VList chains) ->
  (length names <= length chains ->
   exists p,
     instantiate_chains E node_type class_object params id_dict
     = from_method_or_construct E (chain_from_method_nodes E) node_type
         class_object p
     /\ dict_get p "destination_chains"
        = Some (VDict (combine (map VStr names) chains))
     /\ dict_get p "LLMChains" = None
     /\ dict_get p "destination_chain_name" = None
     /\ (forall k : string,
           existsb (String.eqb k)
             ["destination_chains"; "LLMChains"; "destination_chain_name"] = false ->
           dict_get p k = dict_get params k))
  /\ (length chains < length names ->
      instantiate_chains E node_type class_object params id_dict
      = Raise IndexError).
Proof.
  intros Hnt Hretr Hhead Hroutes Hnames Hnd Hchains.
  assert (Hflags : String.eqb node_type "SequentialChain" = false
                   /\ String.eqb node_type "ConversationalRetrievalChain" = false
                   /\ String.eqb node_type "MultiPromptChain"
                      || String.eqb node_type "MultiRuleChain" = true).
  { destruct Hnt as [-> | ->]; repeat split. }
  destruct Hflags as (Hf1 & Hf2 & Hf3).
  unfold instantiate_chains. rewrite Hretr. cbn [bind].
  rewrite Hf1. cbn [bind]. rewrite Hhead. cbn [bind]. rewrite Hf2, Hf3.
  unfold dict_item. rewrite Hroutes, Hchains. cbn [bind]. rewrite Hnames.
  split.
  - intros Hlen.
    rewrite (destination_chains_combine chains names 0 []); auto.
    cbn [bind app skipn]. eexists. split; [reflexivity|].
    split; [|split; [|split]].
    + now rewrite dict_get_set_str.
    + now rewrite dict_get_set_str, !dict_get_del_str.
    + now rewrite dict_get_set_str, !dict_get_del_str.
    + intros k Hk. simpl in Hk.
      repeat (apply orb_false_elim in Hk; destruct Hk as [? Hk]).
      repeat match goal with
             | H : String.eqb k ?a = false |- _ => rewrite String.eqb_sym in H
             end.
      rewrite dict_get_set_str, !dict_get_del_str.
      repeat match goal with
             | H : String.eqb ?a k = false |- _ => rewrite H; clear H
             end.
      reflexivity.
  - intros Hshort.
    assert (Hfail : forall (ns : list string) (i : nat) (acc : dict),
              length chains < i + length ns ->
              i <= length chains ->
              destination_chains (map VStr ns) (VList chains) i acc = Raise IndexError).
    { induction ns as [|n ns IH]; intros i acc H1 H2; simpl in *; [lia|].
      destruct (nth_error chains i) as [c|] eqn:Hc; [|reflexivity].
      cbn [bind].
      assert (i < length chains) by (apply nth_error_Some; rewrite Hc; discriminate).
      apply IH; lia. }
    rewrite Hfail; [reflexivity|simpl; lia|lia].
Qed.

Lemma multi_route_destinations_witness :
  instantiate_chains recording "MultiPromptChain" (VObj 10 [])
    [(VStr "destination_chain_name",
      VDict [(VStr "c1", VStr "physics"); (VStr "c2", VStr "math")]);
     (VStr "LLMChains", VList [VObj 1 []; VObj 2 []])] (VDict [])
  = construct recording (VObj 10 [])
      [(VStr "destination_chains",
        VDict [(VStr "physics", VObj 1 []); (VStr "math", VObj 2 [])])]
  /\ instantiate_chains recording "MultiPromptChain" (VObj 10 [])
       [(VStr "destination_chain_name",
         VDict [(VStr "c1", VStr "physics"); (VStr "c2", VStr "math")]);
        (VStr "LLMChains", VList [VObj 1 []])] (VDict [])
     = Raise IndexError.
Proof.
  split.
  - destruct (proj1 (multi_route_destinations recording "MultiPromptChain" (VObj 10 [])
               [(VStr "destination_chain_name",
                 VDict [(VStr "c1", VStr "physics"); (VStr "c2", VStr "math")]);
                (VStr "LLMChains", VList [VObj 1 []; VObj 2 []])] (VDict [])
               [(VStr "c1", VStr "physics"); (VStr "c2", VStr "math")]
               ["physics"; "math"] [VObj 1 []; VObj 2 []]
               (or_introl eq_refl) eq_refl eq_refl eq_refl eq_refl
               ltac:(repeat constructor; simpl; intuition discriminate)
               eq_refl) (le_n 2)) as (p & Hrun & _).
    rewrite Hrun. vm_compute in Hrun. now inversion Hrun.
  - apply (proj2 (multi_route_destinations recording "MultiPromptChain" (VObj 10 [])
               [(VStr "destination_chain_name",
                 VDict [(VStr "c1", VStr "physics"); (VStr "c2", VStr "math")]);
                (VStr "LLMChains", VList [VObj 1 []])] (VDict [])
               [(VStr "c1", VStr "physics"); (VStr "c2", VStr "math")]
               ["physics"; "math"] [VObj 1 []]
               (or_introl eq_refl) eq_refl eq_refl eq_refl eq_refl
               ltac:(repeat constructor; simpl; intuition discriminate)
               eq_refl)).
    simpl. lia.
Defined.

(** ** Retrievers *)

Lemma dict_set_middle (done rest : list (string * value)) (k : string)
  (v w : value) :
  ~ In k (map fst done) ->
  dict_set (text_keys done ++ (VStr k, v) :: text_keys rest) (VStr k) w
  = text_keys done ++ (VStr k, w) :: text_keys rest.
Proof.
  induction done as [|[k0 v0] done IH]; simpl; intros Hk.
  - now rewrite String.eqb_refl.
  - destruct (String.eqb k0 k) eqn:H0.
    + apply String.eqb_eq in H0. subst. tauto.
    + rewrite IH by tauto. reflexivity.
Qed.

Lemma retriever_items_adapted (E : externals) (adapt : value -> value)
  (items : list (string * value)) :
  forall done : list (string * value),
    NoDup (map fst (done ++ items)) ->
    (forall k v, In (k, v) items -> hasattr v "as_retriever" = true ->
                 call_method E v "as_retriever" [] [] = Ok (adapt v)) ->
    retriever_items E (text_keys items) (text_keys done ++ text_keys items)
    = Ok (text_keys done ++ text_keys (map (adapted adapt) items)).
Proof.
  induction items as [|[k v] items IH]; intros done Hnd Hcall; [reflexivity|].
  assert (Hk : ~ In k (map fst done)).
  { rewrite map_app in Hnd. apply NoDup_remove_2 in Hnd.
    intros H. apply Hnd. apply in_or_app. now left. }
  assert (Hnd' : forall x, NoDup (map fst ((done ++ [(k, x)]) ++ items))).
  { intros x. rewrite <- app_assoc. simpl.
    rewrite map_app in *. simpl in *. exact Hnd. }
  assert (Happ : forall x (l : list (string * value)),
            text_keys done ++ (VStr k, x) :: text_keys l
            = text_keys (done ++ [(k, x)]) ++ text_keys l).
  { intros x l. unfold text_keys. rewrite map_app, <- app_assoc. reflexivity. }
  assert (Hsnd : snd (adapted adapt (k, v))
                 = if str_contains "retriever" k && hasattr v "as_retriever"
                   then adapt v else v) by reflexivity.
  cbn [text_keys map retriever_items fst snd]. fold (text_keys items).
  fold (text_keys (map (adapted adapt) items)). rewrite Hsnd.
  destruct (str_contains "retriever" k && hasattr v "as_retriever") eqn:Hc.
  - apply andb_prop in Hc. destruct Hc as [_ Hh].
    rewrite (Hcall k v (or_introl eq_refl) Hh). cbn [bind].
    rewrite dict_set_middle by exact Hk.
    rewrite Happ, (IH (done ++ [(k, adapt v)])); auto.
    + now rewrite <- Happ.
    + intros k' v' Hin. apply (Hcall k' v'). now right.
  - rewrite Happ, (IH (done ++ [(k, v)])); auto.
    + now rewrite <- Happ.
    + intros k' v' Hin. apply (Hcall k' v'). now right.
Qed.

(** X17.  The retriever strategy replaces every parameter whose name
    contains [retriever] and whose value offers [as_retriever] by the
    adapter that call returns, leaves every other parameter as it is, keeps
    the order of the parameters, and then builds through the factory
    method table. *)
Theorem retriever_params_adapted (E : externals) (node_type : string)
  (class_object : value) (params : list (string * value))
  (adapt : value -> value) :
  NoDup (map fst params) ->
  (forall k v, In (k, v) params -> hasattr v "as_retriever" = true ->
               call_method E v "as_retriever" [] [] = Ok (adapt v)) ->
  instantiate_retriever E node_type class_object (text_keys params)
  = from_method_or_construct E (retriever_from_method_nodes E) node_type
      class_object (text_keys (map (adapted adapt) params)).
Proof.
  intros Hnd Hcall. unfold instantiate_retriever.
  pose proof (retriever_items_adapted E adapt params [] Hnd Hcall) as H.
  simpl in H. rewrite H. reflexivity.
Qed.

Lemma retriever_params_adapted_witness :
  let store := VObj 5 [(VStr "as_retriever", VFun "as_retriever" [])] in
  let W := scripted [("as_retriever", Ok (VObj 6 []))] (fun l => l) in
  instantiate_retriever W "MultiQueryRetriever" (VObj 10 [])
    (text_keys [("llm", VObj 3 []); ("base_retriever", store)])
  = construct W (VObj 10 [])
      [(VStr "llm", VObj 3 []); (VStr "base_retriever", VObj 6 [])].
Proof.
  cbv zeta.
  rewrite (retriever_params_adapted
             (scripted [("as_retriever", Ok (VObj 6 []))] (fun l => l))
             "MultiQueryRetriever" (VObj 10 [])
             [("llm", VObj 3 []);
              ("base_retriever", VObj 5 [(VStr "as_retriever", VFun "as_retriever" [])])]
             (fun _ => VObj 6 [])).
  - reflexivity.
  - repeat constructor; simpl; intuition discriminate.
  - intros k v [H|[H|[]]] Hh; inversion H; subst; try reflexivity.
    discriminate Hh.
Defined.

(** ** Agents *)




(** ** Factory methods *)

(** X19.  A registered factory method takes precedence over the class
    itself.  Seen from the dispatcher: for an output parser or a wrapper
    with an entry in its table the method of that name is called on the
    untouched parameters, and with an entry whose method the class lacks
    the build fails with [ValueError]; for an agent with an entry, the
    method builds the agent and the executor wraps it with the [tools]
    parameter (or no tools) and [handle_parsing_errors = True]. *)
Theorem factory_method_precedence (E : externals) (class_object : value)
  (node_type m : string) (params : dict) (ids user_id : value) :
  (forall f,
     py_getattr class_object m = Some f -> truthy f = true ->
     (dict_get (output_parser_from_method_nodes E) node_type = Some (VStr m) ->
      instantiate_based_on_type E class_object "output_parsers" node_type
        params ids user_id
      = invoke E f [] params)
     /\ (dict_get (wrapper_from_method_nodes E) node_type = Some (VStr m) ->
         instantiate_based_on_type E class_object "wrappers" node_type
           params ids user_id
         = invoke E f [] params)
     /\ (dict_get (agent_from_method_nodes E) node_type = Some (VStr m) ->
         instantiate_based_on_type E class_object "agents" node_type
           params ids user_id
         = (agent <- invoke E f [] params ;;
            ext E "AgentExecutor.from_agent_and_tools" []
              [(VStr "agent", agent);
               (VStr "tools", dict_get_default params "tools" (VList []));
               (VStr "handle_parsing_errors", VBool true)])))
  /\ (py_getattr class_object m = None ->
      (dict_get (output_parser_from_method_nodes E) node_type = Some (VStr m) ->
       instantiate_based_on_type E class_object "output_parsers" node_type
         params ids user_id
       = Raise (ValueError ("Method " ++ m ++ " not found in "
                              ++ py_str E class_object)))
      /\ (dict_get (wrapper_from_method_nodes E) node_type = Some (VStr m) ->
          instantiate_based_on_type E class_object "wrappers" node_type
            params ids user_id
          = Raise (ValueError ("Method " ++ m ++ " not found in "
                                 ++ py_str E class_object)))).
Proof.
  split.
  - intros f Hf Ht. split; [|split]; intros Hentry; cbn.
    + unfold instantiate_output_parser, from_method_or_construct.
      now rewrite Hentry, Hf, Ht.
    + unfold instantiate_wrapper, from_method_or_construct.
      now rewrite Hentry, Hf, Ht.
    + unfold instantiate_agent, agent_executor. now rewrite Hentry, Hf, Ht.
  - intros Hf. split; intros Hentry; cbn.
    + unfold instantiate_output_parser, from_method_or_construct.
      now rewrite Hentry, Hf.
    + unfold instantiate_wrapper, from_method_or_construct.
      now rewrite Hentry, Hf.
Qed.

Lemma factory_method_precedence_witness :
  let W := scripted [] (fun l => l) in
  let class_object :=
    VObj 10 [(VStr "__name__", VStr "ZeroShotAgent");
             (VStr "from_llm_and_tools", VFun "from_llm_and_tools" [])] in
  instantiate_based_on_type W class_object "agents" "ZeroShotAgent"
    [(VStr "llm", VObj 3 []); (VStr "tools", VList [VObj 1 []])] (VDict []) VNone
  = Ok (call_record 1001 (VStr "AgentExecutor.from_agent_and_tools") []
          [(VStr "agent",
            call_record 1000 (VFun "from_llm_and_tools" []) []
              [(VStr "llm", VObj 3 []); (VStr "tools", VList [VObj 1 []])]);
           (VStr "tools", VList [VObj 1 []]);
           (VStr "handle_parsing_errors", VBool true)]).
Proof.
  cbv zeta.
  rewrite (proj2 (proj2 (proj1 (factory_method_precedence
             (scripted [] (fun l => l))
             (VObj 10 [(VStr "__name__", VStr "ZeroShotAgent");
                       (VStr "from_llm_and_tools", VFun "from_llm_and_tools" [])])
             "ZeroShotAgent" "from_llm_and_tools"
             [(VStr "llm", VObj 3 []); (VStr "tools", VList [VObj 1 []])] (VDict []) VNone)
           (VFun "from_llm_and_tools" []) eq_refl eq_refl)) eq_refl).
  reflexivity.
Defined.

(** ** Tools *)

(** X20.  The special tool types fail early: a [JsonSpec] node without a
    [path] fails with [KeyError], and with a file that loads to nothing
    with [ValueError]; a [PythonFunction] node whose [code] is no text fails
    with [ValueError]; in none of these cases is the class constructed.  The
    [args_schema] parameter never reaches the class of a [JsonSpec]. *)
Theorem tool_special_types (E : externals) (class_object : value)
  (params : dict) :
  (dict_get params "path" = None ->
   instantiate_tool E "JsonSpec" class_object params = Raise (KeyError "path"))
  /\ (forall path file_dict,
        dict_get params "path" = Some path ->
        ext E "load_file_into_dict" [path] [] = Ok file_dict ->
        (truthy file_dict = false ->
         instantiate_tool E "JsonSpec" class_object params
         = Raise (ValueError "Invalid file"))
        /\ (truthy file_dict = true ->
            exists p,
              instantiate_tool E "JsonSpec" class_object params
              = construct E class_object p
              /\ dict_get p "dict_" = Some file_dict
              /\ dict_get p "path" = None
              /\ dict_get p "args_schema" = None))
  /\ (forall code,
        dict_get params "code" = Some code -> is_str code = false ->
        instantiate_tool E "PythonFunction" class_object params
        = Raise (ValueError "Function should be a string")).
Proof.
  assert (Hpop : forall (d : dict) (k : string) (dflt : value),
            dict_pop_default d k dflt = (dict_get_default d k dflt, dict_del d k)).
  { intros d k dflt. unfold dict_pop_default, dict_get_default.
    destruct (dict_get d k) eqn:H; [reflexivity|]. now rewrite dict_del_absent. }
  unfold instantiate_tool. rewrite Hpop. split; [|split].
  - intros Hpath. cbn. unfold dict_pop. rewrite dict_get_del_str. simpl.
    now rewrite Hpath.
  - intros path file_dict Hpath Hload.
    change (String.eqb "JsonSpec" "JsonSpec") with true. cbv iota.
    unfold dict_pop. rewrite dict_get_del_str.
    change (String.eqb "args_schema" "path") with false. cbv iota.
    rewrite Hpath. cbn [bind]. rewrite Hload. cbn [bind]. split.
    + intros Hf. now rewrite Hf.
    + intros Ht. rewrite Ht. eexists. split; [reflexivity|].
      rewrite !dict_get_set_str, !dict_get_del_str. simpl. auto.
  - intros code Hcode Hstr.
    change (String.eqb "PythonFunction" "JsonSpec") with false.
    change (String.eqb "PythonFunction" "PythonFunctionTool") with false.
    change (String.eqb "PythonFunction" "PythonFunction") with true. cbv iota.
    unfold dict_item. rewrite dict_get_del_str.
    change (String.eqb "args_schema" "code") with false. cbv iota.
    rewrite Hcode. cbn [bind]. now rewrite Hstr.
Qed.

Lemma tool_special_types_witness :
  let W := scripted [("load_file_into_dict", Ok (VDict []))] (fun l => l) in
  instantiate_tool W "JsonSpec" (VObj 10 []) [(VStr "max_value_length", VInt 9)]
  = Raise (KeyError "path")
  /\ instantiate_tool W "JsonSpec" (VObj 10 []) [(VStr "path", VStr "spec.json")]
     = Raise (ValueError "Invalid file")
  /\ instantiate_tool W "PythonFunction" (VObj 10 []) [(VStr "code", VInt 1)]
     = Raise (ValueError "Function should be a string").
Proof.
  cbv zeta. split; [|split].
  - exact (proj1 (tool_special_types
                    (scripted [("load_file_into_dict", Ok (VDict []))] (fun l => l))
                    (VObj 10 []) [(VStr "max_value_length", VInt 9)]) eq_refl).
  - exact (proj1 (proj1 (proj2 (tool_special_types
                    (scripted [("load_file_into_dict", Ok (VDict []))] (fun l => l))
                    (VObj 10 []) [(VStr "path", VStr "spec.json")]))
                   (VStr "spec.json") (VDict []) eq_refl eq_refl) eq_refl).
  - exact (proj2 (proj2 (tool_special_types
                    (scripted [("load_file_into_dict", Ok (VDict []))] (fun l => l))
                    (VObj 10 []) [(VStr "code", VInt 1)]))
             (VInt 1) eq_refl eq_refl).
Defined.

(** ** Report: variables and defaults *)

(** X21.  The [Report] node receives its [variables] parameter rebuilt
    from the source ids of [variables] and the variable values, paired by
    position: each id yields [{node_id: id, input: value}], in order,
    beside the chain entries.  With fewer values than ids the build fails
    with [IndexError], with ids but no [variables] parameter with
    [TypeError], and without ids the list is empty. *)
Theorem report_variables_zip (E : externals) (class_object : value)
  (params id_dict presets : dict) (rows : list report_row) (extra : list value) :
  PRESET_QUESTION E <> "chains" ->
  PRESET_QUESTION E <> "variables" ->
  dict_get_default params (PRESET_QUESTION E) (VDict []) = VDict presets ->
  dict_get_default params "chains" (VList []) = VList (map row_chain rows ++ extra) ->
  dict_get_default id_dict "chains" (VList []) = VList (map row_id rows) ->
  Forall (row_ok presets) rows ->
  let report (variables : list value) :=
    construct E class_object
      (dict_set (dict_set (dict_del params (PRESET_QUESTION E)) "chains"
                   (VList (concat (map row_entries rows))))
         "variables" (VList variables)) in
  (forall ids values,
     dict_get id_dict "variables" = Some (VList ids) ->
     dict_get params "variables" = Some (VList values) ->
     (length ids <= length values ->
      instantiate_input_output E "Report" class_object params (VDict id_dict)
      = report (map variable_entry (combine ids values)))
     /\ (length values < length ids ->
         instantiate_input_output E "Report" class_object params (VDict id_dict)
         = Raise IndexError))
  /\ (forall ids,
        dict_get id_dict "variables" = Some (VList ids) ->
        ids <> [] ->
        dict_get params "variables" = None ->
        instantiate_input_output E "Report" class_object params (VDict id_dict)
        = Raise (TypeError "object is not subscriptable"))
  /\ (truthy (dict_get_default id_dict "variables" VNone) = false ->
      instantiate_input_output E "Report" class_object params (VDict id_dict)
      = report []).
Proof.
  intros Hp1 Hp2 Hpre Hchains Hids Hrows report.
  pose proof (report_built E class_object params id_dict presets rows extra)
    as Hrun.
  split; [|split].
  - intros ids values Hi Hv.
    rewrite (Hrun ids Hp1 Hp2 Hpre Hchains Hids Hrows (or_introl Hi)).
    unfold dict_get_default. rewrite Hv.
    destruct (report_variables_cases values ids) as (Hok & Hshort & _).
    split; intros Hlen.
    + now rewrite (Hok Hlen).
    + now rewrite (Hshort Hlen).
  - intros ids Hi Hne Hv.
    rewrite (Hrun ids Hp1 Hp2 Hpre Hchains Hids Hrows (or_introl Hi)).
    unfold dict_get_default. rewrite Hv.
    now rewrite (proj2 (proj2 (report_variables_cases [] ids)) Hne).
  - intros Hfalse.
    rewrite (Hrun [] Hp1 Hp2 Hpre Hchains Hids Hrows
               (or_intror (conj eq_refl Hfalse))).
    reflexivity.
Qed.

Lemma report_variables_zip_witness :
  let c1 := VObj 1 [(VStr "input_keys", VList [VStr "question"])] in
  let class_object := VObj 10 [(VStr "__name__", VStr "Report")] in
  let ids := VDict [(VStr "chains", VList [VStr "n1"]);
                    (VStr "variables", VList [VStr "v1"; VStr "v2"])] in
  instantiate_input_output recording "Report" class_object
    [(VStr "chains", VList [c1]);
     (VStr "variables", VList [VStr "2024"; VStr "ACME"])] ids
  = construct recording class_object
      [(VStr "chains",
        VList [report_entry c1 None (VStr "question") (VStr "start")]);
       (VStr "variables",
        VList [VDict [(VStr "node_id", VStr "v1"); (VStr "input", VStr "2024")];
               VDict [(VStr "node_id", VStr "v2"); (VStr "input", VStr "ACME")]])]
  /\ instantiate_input_output recording "Report" class_object
       [(VStr "chains", VList [c1]); (VStr "variables", VList [VStr "2024"])] ids
     = Raise IndexError
  /\ instantiate_input_output recording "Report" class_object
       [(VStr "chains", VList [c1])] ids
     = Raise (TypeError "object is not subscriptable").
Proof.
  cbv zeta.
  assert (Hrows : Forall (row_ok [])
                    [mkRow (VStr "n1")
                       (VObj 1 [(VStr "input_keys", VList [VStr "question"])])
                       (VStr "question") NoPreset]).
  { repeat constructor. eexists; split; reflexivity. }
  refine (conj _ (conj _ _)).
  - apply (proj1 (proj1 (report_variables_zip recording
             (VObj 10 [(VStr "__name__", VStr "Report")])
             [(VStr "chains",
               VList [VObj 1 [(VStr "input_keys", VList [VStr "question"])]]);
              (VStr "variables", VList [VStr "2024"; VStr "ACME"])]
             [(VStr "chains", VList [VStr "n1"]);
              (VStr "variables", VList [VStr "v1"; VStr "v2"])]
             [] [mkRow (VStr "n1")
                (VObj 1 [(VStr "input_keys", VList [VStr "question"])])
                (VStr "question") NoPreset] []
             ltac:(discriminate) ltac:(discriminate) eq_refl eq_refl eq_refl Hrows)
             [VStr "v1"; VStr "v2"] [VStr "2024"; VStr "ACME"] eq_refl eq_refl)).
    simpl. lia.
  - apply (proj2 (proj1 (report_variables_zip recording
             (VObj 10 [(VStr "__name__", VStr "Report")])
             [(VStr "chains",
               VList [VObj 1 [(VStr "input_keys", VList [VStr "question"])]]);
              (VStr "variables", VList [VStr "2024"])]
             [(VStr "chains", VList [VStr "n1"]);
              (VStr "variables", VList [VStr "v1"; VStr "v2"])]
             [] [mkRow (VStr "n1")
                (VObj 1 [(VStr "input_keys", VList [VStr "question"])])
                (VStr "question") NoPreset] []
             ltac:(discriminate) ltac:(discriminate) eq_refl eq_refl eq_refl Hrows)
             [VStr "v1"; VStr "v2"] [VStr "2024"] eq_refl eq_refl)).
    simpl. lia.
  - apply (proj1 (proj2 (report_variables_zip recording
             (VObj 10 [(VStr "__name__", VStr "Report")])
             [(VStr "chains",
               VList [VObj 1 [(VStr "input_keys", VList [VStr "question"])]])]
             [(VStr "chains", VList [VStr "n1"]);
              (VStr "variables", VList [VStr "v1"; VStr "v2"])]
             [] [mkRow (VStr "n1")
                (VObj 1 [(VStr "input_keys", VList [VStr "question"])])
                (VStr "question") NoPreset] []
             ltac:(discriminate) ltac:(discriminate) eq_refl eq_refl eq_refl Hrows))
             [VStr "v1"; VStr "v2"] eq_refl ltac:(discriminate) eq_refl).
Defined.

Lemma default_rows (chains keys ids : list value) :
  length ids = length chains ->
  Forall2 (fun c k =>
             (exists l, attr c "input_keys" = Ok l /\ py_index l 0 = Ok k)
             /\ hashable k = true) chains keys ->
  Forall (fun id => hashable id = true) ids ->
  exists rows,
    map row_id rows = ids
    /\ map row_chain rows = chains
    /\ Forall (row_ok []) rows
    /\ concat (map row_entries rows)
       = map (fun ck => report_entry (fst ck) None (snd ck) (VStr "start"))
             (combine chains keys).
Proof.
  intros Hlen Hkeys. revert ids Hlen.
  induction Hkeys as [|c k chains keys [Hk Hh] _ IH]; intros ids Hlen Hids.
  - destruct ids; [|discriminate]. exists []. repeat split; constructor.
  - destruct ids as [|id ids]; [discriminate|].
    inversion Hids as [|? ? Hid Hids']; subst.
    destruct (IH ids) as (rows & H1 & H2 & H3 & H4); auto.
    exists (mkRow id c k NoPreset :: rows). cbn [map concat row_id row_chain].
    rewrite H1, H2, H4. repeat split; auto.
    constructor; [|exact H3]. repeat split; auto.
Qed.

(** X22.  A [Report] node without preset questions receives exactly one
    entry per source id of [chains], in order: the chain at the same
    position with the default input that maps the chain's first input key
    to [start]; beside the rebuilt [variables], no other parameter
    changes. *)
Theorem report_chains_defaults (E : externals) (class_object : value)
  (params id_dict : dict) (chains keys ids extra vids values : list value) :
  PRESET_QUESTION E <> "chains" ->
  PRESET_QUESTION E <> "variables" ->
  dict_get params (PRESET_QUESTION E) = None ->
  dict_get_default params "chains" (VList []) = VList (chains ++ extra) ->
  dict_get_default id_dict "chains" (VList []) = VList ids ->
  length ids = length chains ->
  Forall2 (fun c k =>
             (exists l, attr c "input_keys" = Ok l /\ py_index l 0 = Ok k)
             /\ hashable k = true) chains keys ->
  Forall (fun id => hashable id = true) ids ->
  variable_ids id_dict vids ->
  vids = [] \/ dict_get params "variables" = Some (VList values) ->
  length vids <= length values ->
  instantiate_input_output E "Report" class_object params (VDict id_dict)
  = construct E class_object
      (dict_set
         (dict_set params "chains"
            (VList (map (fun ck => report_entry (fst ck) None (snd ck) (VStr "start"))
                        (combine chains keys))))
         "variables" (VList (map variable_entry (combine vids values)))).
Proof.
  intros Hp1 Hp2 Hpre Hchains Hids Hlen Hkeys Hhash Hvids Hvalues Hvlen.
  destruct (default_rows chains keys ids Hlen Hkeys Hhash)
    as (rows & H1 & H2 & H3 & H4).
  assert (Hnone : dict_get_default params (PRESET_QUESTION E) (VDict []) = VDict []).
  { unfold dict_get_default. now rewrite Hpre. }
  rewrite <- H2 in Hchains. rewrite <- H1 in Hids.
  rewrite (report_built E class_object params id_dict [] rows extra vids
             Hp1 Hp2 Hnone Hchains Hids H3 Hvids).
  rewrite H4, (dict_del_absent params _ Hpre).
  destruct Hvalues as [->|Hget]; [reflexivity|].
  unfold dict_get_default. rewrite Hget.
  now rewrite (proj1 (report_variables_cases values vids) Hvlen).
Qed.

Lemma report_chains_defaults_witness :
  let c1 := VObj 1 [(VStr "input_keys", VList [VStr "question"])] in
  let c2 := VObj 2 [(VStr "input_keys", VList [VStr "query"; VStr "lang"])] in
  let class_object := VObj 10 [(VStr "__name__", VStr "Report")] in
  instantiate_input_output recording "Report" class_object
    [(VStr "title", VStr "Q3"); (VStr "chains", VList [c1; c2]);
     (VStr "variables", VList [VStr "2024"])]
    (VDict [(VStr "chains", VList [VStr "n1"; VStr "n2"]);
            (VStr "variables", VList [VStr "v1"])])
  = construct recording class_object
      [(VStr "title", VStr "Q3");
       (VStr "chains",
        VList [report_entry c1 None (VStr "question") (VStr "start");
               report_entry c2 None (VStr "query") (VStr "start")]);
       (VStr "variables",
        VList [VDict [(VStr "node_id", VStr "v1"); (VStr "input", VStr "2024")]])].
Proof.
  cbv zeta.
  apply (report_chains_defaults recording
           (VObj 10 [(VStr "__name__", VStr "Report")])
           [(VStr "title", VStr "Q3");
            (VStr "chains",
             VList [VObj 1 [(VStr "input_keys", VList [VStr "question"])];
                    VObj 2 [(VStr "input_keys", VList [VStr "query"; VStr "lang"])]]);
            (VStr "variables", VList [VStr "2024"])]
           [(VStr "chains", VList [VStr "n1"; VStr "n2"]);
            (VStr "variables", VList [VStr "v1"])]
           [VObj 1 [(VStr "input_keys", VList [VStr "question"])];
            VObj 2 [(VStr "input_keys", VList [VStr "query"; VStr "lang"])]]
           [VStr "question"; VStr "query"] [VStr "n1"; VStr "n2"] []
           [VStr "v1"] [VStr "2024"]).
  - discriminate.
  - discriminate.
  - reflexivity.
  - reflexivity.
  - reflexivity.
  - reflexivity.
  - repeat constructor; eexists; split; reflexivity.
  - repeat constructor.
  - left. reflexivity.
  - right. reflexivity.
  - simpl. lia.
Defined.

(** X23.  A [Report] node whose [chains] parameter holds fewer chains than
    there are source ids of [chains] is never built: whatever the presets,
    the variables and the class are, the strategy fails.  When every chain
    there is can be handled, the failure is the [IndexError] of the first
    id without a chain. *)
Theorem report_chains_too_few (E : externals) (class_object : value)
  (params id_dict : dict) (chains ids : list value) :
  PRESET_QUESTION E <> "chains" ->
  dict_get_default params "chains" (VList []) = VList chains ->
  dict_get_default id_dict "chains" (VList []) = VList ids ->
  length chains < length ids ->
  (exists e,
     instantiate_input_output E "Report" class_object params (VDict id_dict)
     = Raise e)
  /\ (forall presets rows more,
        dict_get_default params (PRESET_QUESTION E) (VDict []) = VDict presets ->
        chains = map row_chain rows ->
        ids = map row_id rows ++ more ->
        Forall (row_ok presets) rows ->
        instantiate_input_output E "Report" class_object params (VDict id_dict)
        = Raise IndexError).
Proof.
  intros Hp1 Hchains Hids Hlen.
  assert (Hrun : instantiate_input_output E "Report" class_object params
                   (VDict id_dict)
                 = (chain_list <-
                      report_chains (VList chains)
                        (dict_get_default params (PRESET_QUESTION E) (VDict []))
                        ids 0 ;;
                    params' <-
                      (let params1 :=
                         dict_set (dict_del params (PRESET_QUESTION E)) "chains"
                           (VList chain_list) in
                       vids <- py_iter
                                 (if truthy (dict_get_default id_dict "variables" VNone)
                                  then dict_get_default id_dict "variables" VNone
                                  else VList []) ;;
                       variables <- report_variables
                                      (dict_get_default params1 "variables" VNone)
                                      vids 0 ;;
                       Ok (dict_set (dict_set params1 "variables" (VList []))
                             "variables" (VList variables))) ;;
                    construct E class_object params')).
  { unfold instantiate_input_output.
    change (String.eqb "Report" "Report") with true. cbv iota.
    unfold report_params. rewrite dict_pop_default_pair. cbn [py_get bind].
    assert (Hc : dict_get_default (dict_del params (PRESET_QUESTION E)) "chains"
                   (VList []) = VList chains).
    { rewrite <- Hchains. unfold dict_get_default.
      rewrite dict_get_del_str.
      assert (Hne : String.eqb (PRESET_QUESTION E) "chains" = false)
        by now apply String.eqb_neq.
      now rewrite Hne. }
    rewrite Hc, Hids. cbn [py_iter bind].
    destruct (report_chains (VList chains)
                (dict_get_default params (PRESET_QUESTION E) (VDict [])) ids 0);
      reflexivity. }
  split.
  - destruct (report_chains_short chains
                (dict_get_default params (PRESET_QUESTION E) (VDict [])) ids Hlen)
      as [e He].
    exists e. rewrite Hrun, He. reflexivity.
  - intros presets rows more Hpre -> -> Hrows.
    rewrite Hrun, Hpre.
    destruct more as [|id more].
    { rewrite app_nil_r in Hlen. rewrite !length_map in Hlen. lia. }
    pose proof (report_chains_rows_more presets rows id more Hrows []) as Hfail.
    cbn [app length] in Hfail. rewrite Hfail. reflexivity.
Qed.

Lemma report_chains_too_few_witness :
  instantiate_input_output recording "Report"
    (VObj 10 [(VStr "__name__", VStr "Report")])
    [(VStr "chains", VList [VObj 1 [(VStr "input_keys", VList [VStr "question"])]])]
    (VDict [(VStr "chains", VList [VStr "n1"; VStr "n2"])])
  = Raise IndexError.
Proof.
  apply (proj2 (report_chains_too_few recording
           (VObj 10 [(VStr "__name__", VStr "Report")])
           [(VStr "chains", VList [VObj 1 [(VStr "input_keys", VList [VStr "question"])]])]
           [(VStr "chains", VList [VStr "n1"; VStr "n2"])]
           [VObj 1 [(VStr "input_keys", VList [VStr "question"])]]
           [VStr "n1"; VStr "n2"]
           ltac:(discriminate) eq_refl eq_refl ltac:(simpl; lia))
          []
          [mkRow (VStr "n1")
             (VObj 1 [(VStr "input_keys", VList [VStr "question"])])
             (VStr "question") NoPreset]
          [VStr "n2"] eq_refl eq_refl eq_refl).
  repeat constructor. eexists; split; reflexivity.
Defined.

(** ** Vector stores: the generic path and the directory records *)

(** X24.  A vector store of an unchecked type, with no initializer
    registered for its class and no search configuration, is built by
    [from_documents]; the keyword arguments never contain [user_name],
    [search_kwargs], [search_type] or [texts]; [documents] holds the
    [texts] parameter when there is one, else the [documents] parameter,
    else the empty list; every other parameter is passed unchanged. *)
Theorem vectorstore_generic_path (E : externals) (node_type : string)
  (class_object : value) (params : dict) (name : value) :
  String.eqb node_type "MilvusWithPermissionCheck" = false ->
  String.eqb node_type "ElasticsearchWithPermissionCheck" = false ->
  attr class_object "__name__" = Ok name ->
  hashable name = true ->
  truthy (dict_get_default (vecstore_initializer E) name VNone) = false ->
  truthy (dict_get_default params "search_kwargs" (VDict [])) = false ->
  exists p,
    instantiate_vectorstore E node_type class_object params
    = call_method E class_object "from_documents" [] p
    /\ dict_get p "documents"
       = Some (match dict_get params "texts" with
               | Some texts => texts
               | None => dict_get_default params "documents" (VList [])
               end)
    /\ (forall k : string,
          existsb (String.eqb k) ["user_name"; "search_kwargs"; "search_type"; "texts"]
          = true ->
          dict_get p k = None)
    /\ (forall k : string,
          existsb (String.eqb k)
            ["user_name"; "search_kwargs"; "search_type"; "texts"; "documents"]
          = false ->
          dict_get p k = dict_get params k).
Proof.
  intros Hn1 Hn2 Hname Hhash Hinit Hsearch.
  unfold instantiate_vectorstore. rewrite !dict_pop_default_pair.
  rewrite Hn1, Hn2. cbn [orb bind]. unfold vectorstore_build.
  rewrite Hname. cbn [bind]. unfold dict_get_dyn. rewrite Hhash. cbn [bind].
  rewrite Hinit.
  assert (Hsk : dict_get_default (dict_del params "user_name") "search_kwargs"
                  (VDict []) = dict_get_default params "search_kwargs" (VDict [])).
  { unfold dict_get_default. now rewrite dict_get_del_str. }
  rewrite Hsk, Hsearch. cbn [andb].
  set (p0 := dict_del (dict_del (dict_del params "user_name") "search_kwargs")
                      "search_type").
  assert (H0 : forall b : string,
            dict_get p0 b
            = if String.eqb "user_name" b || String.eqb "search_kwargs" b
                 || String.eqb "search_type" b
              then None else dict_get params b).
  { intros b. unfold p0. rewrite !dict_get_del_str.
    destruct (String.eqb "search_type" b), (String.eqb "search_kwargs" b),
      (String.eqb "user_name" b); reflexivity. }
  set (p1 := if dict_mem p0 "documents" then p0
             else dict_set p0 "documents" (VList [])).
  assert (H1 : forall b : string,
            dict_get p1 b
            = if String.eqb "documents" b
              then Some (dict_get_default params "documents" (VList []))
              else dict_get p0 b).
  { intros b. unfold p1, dict_mem.
    pose proof (H0 "documents") as Hd. simpl in Hd.
    destruct (dict_get p0 "documents") as [v|] eqn:Hp.
    - destruct (String.eqb "documents" b) eqn:Hb; [|reflexivity].
      apply String.eqb_eq in Hb. subst b. rewrite Hp.
      unfold dict_get_default. now rewrite <- Hd.
    - rewrite dict_get_set_str.
      destruct (String.eqb "documents" b); [|reflexivity].
      unfold dict_get_default. now rewrite <- Hd. }
  set (p2 := match dict_get p1 "texts" with
             | Some texts => dict_set (dict_del p1 "texts") "documents" texts
             | None => p1
             end).
  exists p2. split; [apply bind_ok_id|].
  assert (Htexts : dict_get p1 "texts" = dict_get params "texts").
  { rewrite H1, H0. reflexivity. }
  assert (H2 : forall b : string,
            dict_get p2 b
            = match dict_get params "texts" with
              | Some texts =>
                  if String.eqb "documents" b then Some texts
                  else if String.eqb "texts" b then None else dict_get p1 b
              | None => dict_get p1 b
              end).
  { intros b. unfold p2. rewrite Htexts.
    destruct (dict_get params "texts"); [|reflexivity].
    now rewrite dict_get_set_str, dict_get_del_str. }
  split; [|split].
  - rewrite H2. destruct (dict_get params "texts") eqn:Ht; [reflexivity|].
    now rewrite H1.
  - intros k Hk. rewrite H2, H1, H0. simpl in Hk.
    destruct (String.eqb k "user_name") eqn:E1;
      [apply String.eqb_eq in E1; subst k; now destruct (dict_get params "texts")|].
    destruct (String.eqb k "search_kwargs") eqn:E2;
      [apply String.eqb_eq in E2; subst k; now destruct (dict_get params "texts")|].
    destruct (String.eqb k "search_type") eqn:E3;
      [apply String.eqb_eq in E3; subst k; now destruct (dict_get params "texts")|].
    destruct (String.eqb k "texts") eqn:E4; [|discriminate].
    apply String.eqb_eq in E4. subst k.
    change (String.eqb "documents" "texts") with false.
    change (String.eqb "user_name" "texts") with false.
    change (String.eqb "search_kwargs" "texts") with false.
    change (String.eqb "search_type" "texts") with false.
    rewrite String.eqb_refl. cbn [orb].
    now destruct (dict_get params "texts").
  - intros k Hk. simpl in Hk.
    repeat (apply orb_false_elim in Hk; destruct Hk as [? Hk]).
    repeat match goal with
           | H : String.eqb k ?a = false |- _ => rewrite String.eqb_sym in H
           end.
    rewrite H2, H1, H0.
    repeat match goal with
           | H : String.eqb ?a k = false |- _ => rewrite H; clear H
           end.
    now destruct (dict_get params "texts").
Qed.

Lemma vectorstore_generic_path_witness :
  let W := scripted [] (fun l => l) in
  let class_object :=
    VObj 10 [(VStr "__name__", VStr "Chroma");
             (VStr "from_documents", VFun "from_documents" [])] in
  instantiate_vectorstore W "Chroma" class_object
    [(VStr "user_name", VStr "alice"); (VStr "texts", VList [VStr "t"]);
     (VStr "embedding", VObj 4 [])]
  = Ok (call_record 1000 (VFun "from_documents" []) []
          [(VStr "embedding", VObj 4 []); (VStr "documents", VList [VStr "t"])]).
Proof.
  cbv zeta.
  destruct (vectorstore_generic_path (scripted [] (fun l => l)) "Chroma"
              (VObj 10 [(VStr "__name__", VStr "Chroma");
                        (VStr "from_documents", VFun "from_documents" [])])
              [(VStr "user_name", VStr "alice"); (VStr "texts", VList [VStr "t"]);
               (VStr "embedding", VObj 4 [])]
              (VStr "Chroma") eq_refl eq_refl eq_refl eq_refl eq_refl eq_refl)
    as (p & Hrun & _).
  rewrite Hrun. vm_compute in Hrun. now inversion Hrun.
Defined.

(** X25.  A permission-checked vector store whose collection parameter is
    missing fails with [KeyError] before the knowledge directory is asked:
    [collection_name] for the Milvus type, [index_name] for the
    Elasticsearch type. *)
Theorem vectorstore_missing_collection (E : externals) (class_object : value)
  (params : dict) :
  (dict_get params "collection_name" = None ->
   instantiate_vectorstore E "MilvusWithPermissionCheck" class_object params
   = Raise (KeyError "collection_name"))
  /\ (dict_get params "index_name" = None ->
      instantiate_vectorstore E "ElasticsearchWithPermissionCheck" class_object params
      = Raise (KeyError "index_name")).
Proof.
  assert (Hget : forall k : string,
    existsb (String.eqb k) ["user_name"; "search_kwargs"; "search_type"; "documents"]
    = false ->
    dict_get params k = None ->
    dict_get
      (if dict_mem (dict_del (dict_del (dict_del params "user_name") "search_kwargs")
                             "search_type") "documents"
       then dict_del (dict_del (dict_del params "user_name") "search_kwargs")
                     "search_type"
       else dict_set (dict_del (dict_del (dict_del params "user_name") "search_kwargs")
                               "search_type") "documents" (VList [])) k = None).
  { intros k Hk Hnone. simpl in Hk.
    repeat (apply orb_false_elim in Hk; destruct Hk as [? Hk]).
    repeat match goal with
           | H : String.eqb k ?a = false |- _ => rewrite String.eqb_sym in H
           end.
    match goal with |- context [dict_mem ?d _] => destruct (dict_mem d "documents") end;
      rewrite ?dict_get_set_str, !dict_get_del_str;
      repeat match goal with
             | H : String.eqb ?a k = false |- _ => rewrite H; clear H
             end;
      exact Hnone. }
  split; intros Hnone; unfold instantiate_vectorstore;
    rewrite !dict_pop_default_pair.
  - change (String.eqb "MilvusWithPermissionCheck" "MilvusWithPermissionCheck")
      with true.
    cbn [orb]. unfold permitted_params, dict_item.
    change (String.eqb "MilvusWithPermissionCheck" "ElasticsearchWithPermissionCheck")
      with false.
    cbv iota. rewrite (Hget "collection_name" eq_refl Hnone). reflexivity.
  - change (String.eqb "ElasticsearchWithPermissionCheck" "MilvusWithPermissionCheck")
      with false.
    change (String.eqb "ElasticsearchWithPermissionCheck"
                       "ElasticsearchWithPermissionCheck") with true.
    cbn [orb]. unfold permitted_params, dict_item.
    change (String.eqb "ElasticsearchWithPermissionCheck"
                       "ElasticsearchWithPermissionCheck") with true.
    cbv iota. rewrite (Hget "index_name" eq_refl Hnone). reflexivity.
Qed.

Lemma vectorstore_missing_collection_witness :
  instantiate_vectorstore recording "MilvusWithPermissionCheck" (VObj 10 [])
    [(VStr "user_name", VStr "alice")]
  = Raise (KeyError "collection_name")
  /\ instantiate_vectorstore recording "ElasticsearchWithPermissionCheck" (VObj 10 [])
       [(VStr "collection_name", VList [])]
     = Raise (KeyError "index_name").
Proof.
  split.
  - exact (proj1 (vectorstore_missing_collection recording (VObj 10 [])
                    [(VStr "user_name", VStr "alice")]) eq_refl).
  - exact (proj2 (vectorstore_missing_collection recording (VObj 10 [])
                    [(VStr "collection_name", VList [])]) eq_refl).
Defined.

(** ** Graph helpers *)

Lemma dict_get_text_keys_absent (l : list (string * value)) (k : string) :
  ~ In k (map fst l) -> dict_get (text_keys l) (VStr k) = None.
Proof.
  induction l as [|[k0 v0] l IH]; simpl; intros H; [reflexivity|].
  destruct (String.eqb k0 k) eqn:Hk.
  - apply String.eqb_eq in Hk. subst. tauto.
  - apply IH. tauto.
Qed.

Lemma text_keys_app (l m : list (string * value)) :
  text_keys (l ++ m) = text_keys l ++ text_keys m.
Proof. unfold text_keys. apply map_app. Qed.

Lemma build_vertex_items_spec (E : externals) (built : value -> value)
  (items : list (string * value)) :
  forall done : list (string * value),
    NoDup (map fst (done ++ items)) ->
    (forall k v, In (k, v) items -> instance_of E v "Vertex" = true ->
                 call_method E v "build" [] [] = Ok (built v)) ->
    build_vertex_items E (text_keys items) (text_keys done)
    = Ok (text_keys (done ++ map (vertex_built E built) items)).
Proof.
  induction items as [|[k v] items IH]; intros done Hnd Hcall.
  - simpl. now rewrite app_nil_r.
  - assert (Hk : ~ In k (map fst done)).
    { rewrite map_app in Hnd. apply NoDup_remove_2 in Hnd.
      intros H. apply Hnd. apply in_or_app. now left. }
    assert (Hstep : forall x,
              build_vertex_items E (text_keys items)
                (dict_set (text_keys done) (VStr k) x)
              = Ok (text_keys (done ++ (k, x) :: map (vertex_built E built) items))).
    { intros x. rewrite dict_set_absent
        by (apply dict_get_text_keys_absent; exact Hk).
      change [(VStr k, x)] with (text_keys [(k, x)]).
      rewrite <- text_keys_app, (IH (done ++ [(k, x)])).
      - now rewrite <- app_assoc.
      - rewrite <- app_assoc. rewrite map_app in *. exact Hnd.
      - intros k' v' Hin. apply (Hcall k' v'). now right. }
    cbn [text_keys map build_vertex_items fst snd]. fold (text_keys items).
    unfold vertex_built at 1. cbn [fst snd].
    destruct (instance_of E v "Vertex") eqn:Hv.
    + rewrite (Hcall k v (or_introl eq_refl) Hv). cbn [bind]. apply Hstep.
    + cbn [bind]. apply Hstep.
Qed.

Lemma build_vertex_items_raise (E : externals) (built : value -> value)
  (items : list (string * value)) (k : string) (v : value) (rest : dict)
  (e : exn) :
  forall done : list (string * value),
    NoDup (map fst (done ++ items)) ->
    (forall k v, In (k, v) items -> instance_of E v "Vertex" = true ->
                 call_method E v "build" [] [] = Ok (built v)) ->
    instance_of E v "Vertex" = true ->
    call_method E v "build" [] [] = Raise e ->
    build_vertex_items E (text_keys items ++ (VStr k, v) :: rest) (text_keys done)
    = Raise e.
Proof.
  induction items as [|[k0 v0] items IH]; intros done Hnd Hcall Hv He.
  - simpl. rewrite Hv, He. reflexivity.
  - assert (Hk : ~ In k0 (map fst done)).
    { rewrite map_app in Hnd. apply NoDup_remove_2 in Hnd.
      intros H. apply Hnd. apply in_or_app. now left. }
    assert (Hstep : forall x,
              build_vertex_items E (text_keys items ++ (VStr k, v) :: rest)
                (dict_set (text_keys done) (VStr k0) x) = Raise e).
    { intros x. rewrite dict_set_absent
        by (apply dict_get_text_keys_absent; exact Hk).
      change [(VStr k0, x)] with (text_keys [(k0, x)]).
      rewrite <- text_keys_app. apply IH; auto.
      - rewrite <- app_assoc. rewrite map_app in *. exact Hnd.
      - intros k' v' Hin. apply (Hcall k' v'). now right. }
    cbn [text_keys map app build_vertex_items fst snd]. fold (text_keys items).
    destruct (instance_of E v0 "Vertex") eqn:Hv0.
    + rewrite (Hcall k0 v0 (or_introl eq_refl) Hv0). cbn [bind]. apply Hstep.
    + cbn [bind]. apply Hstep.
Qed.

(** X26.  [build_vertex_in_params] keeps the parameter names and their
    order; a value that is a graph vertex is replaced by what its [build]
    returns and every other value is passed on as it is.  The vertices are
    built in parameter order, and the first [build] that raises ends the
    call with its exception: no dictionary is returned. *)
Theorem build_vertex_in_params_values (E : externals) (built : value -> value)
  (params : list (string * value)) :
  NoDup (map fst params) ->
  (forall k v, In (k, v) params -> instance_of E v "Vertex" = true ->
               call_method E v "build" [] [] = Ok (built v)) ->
  build_vertex_in_params E (text_keys params)
  = Ok (text_keys (map (vertex_built E built) params))
  /\ forall k v rest e,
       instance_of E v "Vertex" = true ->
       call_method E v "build" [] [] = Raise e ->
       build_vertex_in_params E (text_keys params ++ (VStr k, v) :: rest)
       = Raise e.
Proof.
  intros Hnd Hcall. split.
  - apply (build_vertex_items_spec E built params [] Hnd Hcall).
  - intros k v rest e Hv He.
    apply (build_vertex_items_raise E built params k v rest e [] Hnd Hcall Hv He).
Qed.

Lemma build_vertex_in_params_values_witness :
  let vertex := VObj 3 [(VStr "build", VFun "build" [])] in
  let broken := VObj 4 [(VStr "build", VFun "build" [VStr "unset"])] in
  build_vertex_in_params graphing
    (text_keys [("llm", vertex); ("temperature", VInt 1)])
  = Ok [(VStr "llm", VInt 7); (VStr "temperature", VInt 1)]
  /\ build_vertex_in_params graphing
       (text_keys [("llm", vertex); ("temperature", VInt 1)]
        ++ [(VStr "memory", broken); (VStr "verbose", VBool true)])
     = Raise (ValueError "vertex not built").
Proof.
  cbv zeta.
  destruct (build_vertex_in_params_values graphing (fun _ => VInt 7)
              [("llm", VObj 3 [(VStr "build", VFun "build" [])]);
               ("temperature", VInt 1)]) as [Hok Hraise].
  - repeat constructor; simpl; intuition discriminate.
  - intros k v [H|[H|[]]] Hv; inversion H; subst; try reflexivity.
    discriminate Hv.
  - split.
    + exact Hok.
    + apply Hraise; reflexivity.
Defined.

Lemma replace_first_zero_shot_spec (E : externals) (nodes pre post : list value)
  (nd : dict) (data type : value) :
  Forall other_node pre ->
  dict_get nd (VStr "data") = Some data ->
  py_getitem data (VStr "type") = Ok type ->
  py_eqb type (VStr "ZeroShotPrompt") = true ->
  replace_first_zero_shot E nodes (pre ++ VDict nd :: post)
  = tools <- tool_nodes nodes ;;
    built <- build_prompt_template E data tools ;;
    Ok (pre ++ VDict (dict_set nd (VStr "data") built) :: post).
Proof.
  intros Hpre Hdata Htype Hzero.
  induction Hpre as [|node pre (d & t & Hd & Ht & Hne) _ IH].
  - cbn [app replace_first_zero_shot].
    assert (Hget : py_getitem (VDict nd) (VStr "data") = Ok data).
    { unfold py_getitem. cbn [hashable]. now rewrite Hdata. }
    rewrite Hget. cbn [bind]. rewrite Htype. cbn [bind]. rewrite Hzero.
    destruct (tool_nodes nodes) as [tools|e]; [|reflexivity]. cbn [bind].
    destruct (build_prompt_template E data tools) as [built|e];
      reflexivity.
  - cbn [app replace_first_zero_shot].
    rewrite Hd. cbn [bind]. rewrite Ht. cbn [bind]. rewrite Hne, IH.
    destruct (tool_nodes nodes) as [tools|e]; [|reflexivity]. cbn [bind].
    destruct (build_prompt_template E data tools) as [built|e];
      reflexivity.
Qed.

Lemma replace_first_zero_shot_none (E : externals) (nodes to_visit : list value) :
  Forall other_node to_visit ->
  replace_first_zero_shot E nodes to_visit = Ok to_visit.
Proof.
  induction 1 as [|node rest (d & t & Hd & Ht & Hne) _ IH]; [reflexivity|].
  cbn [replace_first_zero_shot].
  rewrite Hd. cbn [bind]. rewrite Ht. cbn [bind]. rewrite Hne, IH.
  reflexivity.
Qed.

(** X27.  [replace_zero_shot_prompt_with_prompt_template] rewrites at
    most one node.  A list without a [ZeroShotPrompt] node is returned as
    it is.  Otherwise only the first such node changes: its [data] becomes
    what [build_prompt_template] returns for it and for the tool nodes
    selected from the whole list, the nodes before and after it (a second
    [ZeroShotPrompt] node among them) are returned untouched, and a failure
    of the tool selection or of the template construction is the outcome. *)
Theorem zero_shot_prompt_replaced_once (E : externals) (nodes : list value) :
  (Forall other_node nodes ->
   replace_zero_shot_prompt_with_prompt_template E nodes = Ok nodes)
  /\ forall (pre post : list value) (nd : dict) (data type : value),
       nodes = pre ++ VDict nd :: post ->
       Forall other_node pre ->
       dict_get nd (VStr "data") = Some data ->
       py_getitem data (VStr "type") = Ok type ->
       py_eqb type (VStr "ZeroShotPrompt") = true ->
       replace_zero_shot_prompt_with_prompt_template E nodes
       = tools <- tool_nodes nodes ;;
         built <- build_prompt_template E data tools ;;
         Ok (pre ++ VDict (dict_set nd (VStr "data") built) :: post).
Proof.
  split.
  - apply replace_first_zero_shot_none.
  - intros pre post nd data type Hnodes Hpre Hdata Htype Hzero.
    unfold replace_zero_shot_prompt_with_prompt_template.
    rewrite Hnodes at 2.
    now apply replace_first_zero_shot_spec with (type := type).
Qed.

Lemma zero_shot_prompt_replaced_once_witness :
  let tool :=
    VDict [(VStr "type", VStr "genericNode");
           (VStr "data",
            VDict [(VStr "type", VStr "Calculator");
                   (VStr "node",
                    VDict [(VStr "name", VStr "Calculator");
                           (VStr "description", VStr "does sums");
                           (VStr "base_classes", VList [VStr "Tool"])])])] in
  let prompt (id : string) :=
    [(VStr "id", VStr id);
     (VStr "type", VStr "genericNode");
     (VStr "data",
      VDict [(VStr "type", VStr "ZeroShotPrompt");
             (VStr "node",
              VDict [(VStr "template",
                      VDict [(VStr "prefix", VDict [(VStr "value", VStr "P")]);
                             (VStr "suffix", VDict [(VStr "value", VStr "S")]);
                             (VStr "format_instructions",
                              VDict [(VStr "value", VStr "F")])]);
                     (VStr "base_classes", VList [VStr "BasePromptTemplate"])])])] in
  replace_zero_shot_prompt_with_prompt_template graphing [tool; tool]
  = Ok [tool; tool]
  /\ replace_zero_shot_prompt_with_prompt_template graphing
       [tool; VDict (prompt "n1"); VDict (prompt "n2")]
     = Ok [tool;
           VDict [(VStr "id", VStr "n1");
                  (VStr "type", VStr "genericNode");
                  (VStr "data",
                   VDict [(VStr "type", VStr "PromptTemplate");
                          (VStr "node",
                           prompt_template_node
                             (VStr ("P" ++ newline ++ newline
                                    ++ "Calculator: does sums"
                                    ++ newline ++ newline ++ "Calculator"
                                    ++ newline ++ newline ++ "S")%string))])];
           VDict (prompt "n2")].
Proof.
  cbv zeta. split.
  - apply (proj1 (zero_shot_prompt_replaced_once graphing _)).
    repeat constructor;
      (eexists; eexists; split; [reflexivity | split; reflexivity]).
  - match goal with
    | |- replace_zero_shot_prompt_with_prompt_template _ [?a; VDict ?nd; ?c] = _ =>
        match nd with
        | [_; _; (_, ?data)] =>
            rewrite (proj2 (zero_shot_prompt_replaced_once graphing
                              [a; VDict nd; c])
                       [a] [c] nd data (VStr "ZeroShotPrompt") eq_refl)
        end
    end.
    + reflexivity.
    + repeat constructor.
      eexists; eexists; split; [reflexivity | split; reflexivity].
    + reflexivity.
    + reflexivity.
    + reflexivity.
Defined.

Lemma str_join_texts (sep : string) (l : list string) :
  str_join sep (map VStr l) = Ok (String.concat sep l).
Proof.
  induction l as [|s l IH]; [reflexivity|].
  destruct l as [|t l]; [reflexivity|].
  change (str_join sep (map VStr (s :: t :: l)))
    with (r <- str_join sep (map VStr (t :: l)) ;; Ok (s ++ sep ++ r)%string).
  rewrite IH. reflexivity.
Qed.

Lemma tool_strings_of_described (E : externals) (tools : list value)
  (descr : list (string * string)) :
  Forall2 described tools descr ->
  tool_strings_of E tools = Ok (map VStr (map tool_line descr)).
Proof.
  induction 1 as [|tool nd tools descr [Hn Hd] _ IH]; [reflexivity|].
  cbn [tool_strings_of]. rewrite Hn, Hd. cbn [bind]. rewrite IH.
  reflexivity.
Qed.

Lemma tool_names_of_described (tools : list value)
  (descr : list (string * string)) :
  Forall2 described tools descr ->
  tool_names_of tools = Ok (map VStr (map fst descr)).
Proof.
  induction 1 as [|tool nd tools descr [Hn Hd] _ IH]; [reflexivity|].
  cbn [tool_names_of]. rewrite Hn. cbn [bind]. rewrite IH. reflexivity.
Qed.

(** X28.  [build_prompt_template] on a prompt whose prefix, suffix and
    format instructions are texts and on tools with text names and
    descriptions: the instructions are formatted with the tool names joined
    by a comma and a space; the template text is the prefix, one line
    [name: description] per tool, the formatted instructions and the
    suffix, separated by blank lines; the returned prompt has type
    [PromptTemplate], the fixed node description around that text in place
    of its former node, and every other entry it had. *)
Theorem prompt_template_text (E : externals) (p : dict) (tools : list value)
  (descr : list (string * string)) (a b f f' : string) :
  py_path (VDict p) ["node"; "template"; "prefix"; "value"] = Ok (VStr a) ->
  py_path (VDict p) ["node"; "template"; "suffix"; "value"] = Ok (VStr b) ->
  py_path (VDict p) ["node"; "template"; "format_instructions"; "value"]
  = Ok (VStr f) ->
  Forall2 described tools descr ->
  ext E "str.format" [VStr f]
    [(VStr "tool_names", VStr (String.concat ", " (map fst descr)))]
  = Ok (VStr f') ->
  exists q,
    build_prompt_template E (VDict p) tools = Ok (VDict q)
    /\ dict_get q (VStr "type") = Some (VStr "PromptTemplate")
    /\ dict_get q (VStr "node")
       = Some (prompt_template_node
                 (VStr (String.concat (newline ++ newline)
                          [a; String.concat newline (map tool_line descr);
                           f'; b])))
    /\ forall k : string,
         k <> "type" -> k <> "node" ->
         dict_get q (VStr k) = dict_get p (VStr k).
Proof.
  intros Ha Hb Hf Htools Hformat.
  exists (dict_set (dict_set p (VStr "type") (VStr "PromptTemplate"))
            (VStr "node")
            (prompt_template_node
               (VStr (String.concat (newline ++ newline)
                        [a; String.concat newline (map tool_line descr);
                         f'; b])))).
  split; [|split; [|split]].
  - unfold build_prompt_template. rewrite Ha, Hb, Hf. cbn [bind].
    rewrite (tool_strings_of_described E tools descr Htools). cbn [bind].
    rewrite str_join_texts. cbn [bind].
    rewrite (tool_names_of_described tools descr Htools). cbn [bind].
    rewrite str_join_texts. cbn [bind].
    unfold format_tool_names. rewrite Hformat. cbn [bind].
    change [VStr a; VStr (String.concat newline (map tool_line descr));
            VStr f'; VStr b]
      with (map VStr [a; String.concat newline (map tool_line descr); f'; b]).
    rewrite str_join_texts. reflexivity.
  - rewrite !dict_get_set_str.
    change (String.eqb "node" "type") with false. cbv iota.
    now rewrite String.eqb_refl.
  - rewrite dict_get_set_str. now rewrite String.eqb_refl.
  - intros k Hk1 Hk2. rewrite !dict_get_set_str.
    destruct (String.eqb "node" k) eqn:H1;
      [apply String.eqb_eq in H1; congruence|].
    destruct (String.eqb "type" k) eqn:H2;
      [apply String.eqb_eq in H2; congruence|].
    reflexivity.
Qed.

Lemma prompt_template_text_witness :
  let tool (name description : string) :=
    VDict [(VStr "data",
            VDict [(VStr "node",
                    VDict [(VStr "name", VStr name);
                           (VStr "description", VStr description)])])] in
  let p : dict :=
    [(VStr "type", VStr "ZeroShotPrompt");
     (VStr "node",
      VDict [(VStr "template",
              VDict [(VStr "prefix", VDict [(VStr "value", VStr "P")]);
                     (VStr "suffix", VDict [(VStr "value", VStr "S")]);
                     (VStr "format_instructions",
                      VDict [(VStr "value", VStr "F")])])]);
     (VStr "id", VStr "prompt-1")] in
  exists q,
    build_prompt_template graphing (VDict p)
      [tool "Search" "finds pages"; tool "Calculator" "does sums"]
    = Ok (VDict q)
    /\ dict_get q (VStr "type") = Some (VStr "PromptTemplate")
    /\ dict_get q (VStr "node")
       = Some (prompt_template_node
                 (VStr ("P" ++ newline ++ newline
                        ++ "Search: finds pages" ++ newline
                        ++ "Calculator: does sums" ++ newline ++ newline
                        ++ "Search, Calculator" ++ newline ++ newline ++ "S")%string))
    /\ dict_get q (VStr "id") = Some (VStr "prompt-1").
Proof.
  cbv zeta.
  destruct (prompt_template_text graphing
              [(VStr "type", VStr "ZeroShotPrompt");
               (VStr "node",
                VDict [(VStr "template",
                        VDict [(VStr "prefix", VDict [(VStr "value", VStr "P")]);
                               (VStr "suffix", VDict [(VStr "value", VStr "S")]);
                               (VStr "format_instructions",
                                VDict [(VStr "value", VStr "F")])])]);
               (VStr "id", VStr "prompt-1")]
              [VDict [(VStr "data",
                       VDict [(VStr "node",
                         VDict [(VStr "name", VStr "Search");
                                (VStr "description", VStr "finds pages")])])];
               VDict [(VStr "data",
                       VDict [(VStr "node",
                         VDict [(VStr "name", VStr "Calculator");
                                (VStr "description", VStr "does sums")])])]]
              [("Search", "finds pages"); ("Calculator", "does sums")]
              "P" "S" "F" "Search, Calculator"
              eq_refl eq_refl eq_refl)
    as (q & Hrun & Htype & Hnode & Hframe).
  - repeat constructor.
  - reflexivity.
  - exists q. refine (conj Hrun (conj Htype (conj Hnode _))).
    rewrite (Hframe "id"); [reflexivity | discriminate | discriminate].
Defined.

(** ** Document loaders and text splitters *)

Lemma dict_update_text_keys (ms : list (string * value)) :
  forall (d : dict) (k : string),
    NoDup (map fst ms) ->
    dict_get (dict_update d (text_keys ms)) (VStr k)
    = match dict_get (text_keys ms) (VStr k) with
      | Some v => Some v
      | None => dict_get d (VStr k)
      end.
Proof.
  induction ms as [|[k0 v0] ms IH]; intros d k Hnd; [reflexivity|].
  inversion Hnd as [|? ? Hk0 Hnd']; subst.
  change (dict_update d (text_keys ((k0, v0) :: ms)))
    with (dict_update (dict_set d (VStr k0) v0) (text_keys ms)).
  rewrite IH by exact Hnd'.
  cbn [text_keys map fst snd dict_get]. fold (text_keys ms).
  rewrite py_eqb_str, dict_get_set_str.
  destruct (String.eqb k0 k) eqn:Hk.
  - apply String.eqb_eq in Hk. subst k.
    now rewrite (dict_get_text_keys_absent ms k0 Hk0).
  - reflexivity.
Qed.

Lemma merge_metadata_all_merged (E : externals) (ms : list (string * value))
  (docs : list value) :
  NoDup (map fst ms) ->
  Forall has_metadata docs ->
  exists docs',
    merge_metadata_all E (VDict (text_keys ms)) docs = Ok docs'
    /\ Forall2 (merged_into ms) docs docs'.
Proof.
  intros Hnd Hdocs.
  induction Hdocs as [|doc docs (id & attrs & own & Hdoc & Hown) _ IH].
  - exists []. split; [reflexivity | constructor].
  - destruct IH as (docs' & Hrun & Hall). subst doc.
    assert (Hattr : attr (VObj id attrs) "metadata" = Ok (VDict own)).
    { unfold attr, py_getattr. now rewrite Hown. }
    destruct own as [|entry own].
    + exists (VObj id (dict_set attrs (VStr "metadata") (VDict (text_keys ms)))
              :: docs').
      split.
      * cbn [merge_metadata_all]. unfold merge_metadata. rewrite Hattr.
        cbn [bind truthy length Nat.eqb negb setattr]. rewrite Hrun.
        reflexivity.
      * constructor; [|exact Hall].
        exists id, attrs, [], (text_keys ms).
        repeat (split; [reflexivity || assumption|]).
        split; [|reflexivity].
        intros k. now destruct (dict_get (text_keys ms) (VStr k)).
    + exists (VObj id (dict_set attrs (VStr "metadata")
                         (VDict (dict_update (entry :: own) (text_keys ms))))
              :: docs').
      split.
      * cbn [merge_metadata_all]. unfold merge_metadata. rewrite Hattr.
        cbn [bind truthy length Nat.eqb negb setattr]. rewrite Hrun.
        reflexivity.
      * constructor; [|exact Hall].
        exists id, attrs, (entry :: own),
          (dict_update (entry :: own) (text_keys ms)).
        repeat (split; [reflexivity || assumption|]).
        split; [|discriminate].
        intros k. now apply dict_update_text_keys.
Qed.

(** X29.  A document loader given a non-empty metadata mapping with
    text keys, for a path that is not empty: every loaded document comes
    back as the same object, in the same order, with merged metadata.  In
    the merged metadata every supplied entry is present with the supplied
    value, every entry of the document under another key is kept, and a
    document whose metadata was empty holds the supplied mapping. *)
Theorem documentloader_metadata_merge (E : externals) (class_object : value)
  (params : dict) (path : string) (ms : list (string * value))
  (loader : value) (docs : list value) :
  dict_get params (VStr "file_filter") = None ->
  dict_get params (VStr "file_path") = Some (VStr path) ->
  path <> EmptyString ->
  dict_get params (VStr "metadata") = Some (VDict (text_keys ms)) ->
  ms <> [] ->
  NoDup (map fst ms) ->
  construct E class_object (dict_del params (VStr "metadata")) = Ok loader ->
  call_method E loader "load" [] [] = Ok (VList docs) ->
  Forall has_metadata docs ->
  exists docs',
    instantiate_documentloader E class_object params = Ok (VList docs')
    /\ Forall2 (merged_into ms) docs docs'.
Proof.
  intros Hfilter Hpath Hne Hmeta Hms Hnd Hbuild Hload Hdocs.
  destruct (merge_metadata_all_merged E ms docs Hnd Hdocs)
    as (docs' & Hrun & Hall).
  exists docs'. split; [|exact Hall].
  unfold instantiate_documentloader.
  rewrite Hfilter. cbn [bind]. rewrite Hpath. cbn [bind].
  unfold dict_pop_default. rewrite Hmeta. cbn [bind].
  rewrite dict_get_del_str.
  change (String.eqb "metadata" "file_path") with false. cbv iota.
  rewrite Hpath.
  assert (Htruthy : truthy (VStr path) = true).
  { cbn [truthy]. destruct (String.eqb path EmptyString) eqn:Hp;
      [apply String.eqb_eq in Hp; contradiction | reflexivity]. }
  rewrite Htruthy. cbn [negb]. rewrite Hbuild. cbn [bind].
  rewrite Hload. cbn [bind].
  assert (Hm : truthy (VDict (text_keys ms)) = true).
  { destruct ms; [contradiction | reflexivity]. }
  rewrite Hm, Hrun. reflexivity.
Qed.

Lemma documentloader_metadata_merge_witness :
  let doc1 := VObj 1 [(VStr "page_content", VStr "first");
                      (VStr "metadata", VDict [(VStr "source", VStr "a.txt");
                                               (VStr "page", VInt 1)])] in
  let doc2 := VObj 2 [(VStr "page_content", VStr "second");
                      (VStr "metadata", VDict [])] in
  let W := scripted [("DirectoryLoader", Ok (VObj 20 [(VStr "load", VFun "load" [])]));
                     ("load", Ok (VList [doc1; doc2]))] (fun l => l) in
  exists docs',
    instantiate_documentloader W (VObj 10 [(VStr "__name__", VStr "DirectoryLoader")])
      [(VStr "file_path", VStr "docs/");
       (VStr "metadata", VDict (text_keys [("source", VStr "upload")]))]
    = Ok (VList docs')
    /\ Forall2 (merged_into [("source", VStr "upload")]) [doc1; doc2] docs'.
Proof.
  cbv zeta.
  apply (documentloader_metadata_merge _ _ _ "docs/"
           [("source", VStr "upload")] (VObj 20 [(VStr "load", VFun "load" [])])).
  - reflexivity.
  - reflexivity.
  - discriminate.
  - reflexivity.
  - discriminate.
  - repeat constructor. simpl. tauto.
  - reflexivity.
  - reflexivity.
  - repeat constructor;
      (eexists; eexists; eexists; split; reflexivity).
Defined.

(** X30.  The two modes of the text splitter, for documents that are
    not empty.  With [separator_type] absent or equal to [Text] the class is
    constructed, with a textual [separators] replaced by what the
    [unicode-escape] decoding of it returns; with any other
    [separator_type] the class method
    [from_language] is called with [language] set to [Language] of that
    type and without [separators].  In both modes the keyword arguments
    never contain [documents] or [separator_type], every other parameter is
    passed unchanged, and the documents are split by the object built. *)
Theorem textsplitter_modes (E : externals) (class_object : value)
  (params : dict) (documents : value) :
  dict_get params (VStr "documents") = Some documents ->
  truthy documents = true ->
  (* literal separators *)
  ((dict_get params (VStr "separator_type") = None
    \/ exists t, dict_get params (VStr "separator_type") = Some t
                 /\ py_eqb t (VStr "Text") = true) ->
   forall separators : option value,
     match dict_get params (VStr "separators") with
     | Some raw =>
         exists escaped text,
           raw = VStr escaped
           /\ ext E "unicode_escape_decode" [VStr escaped] [] = Ok text
           /\ separators = Some text
     | None => separators = None
     end ->
     exists p,
       instantiate_textsplitter E class_object params
       = (splitter <- construct E class_object p ;;
          call_method E splitter "split_documents" [documents] [])
       /\ dict_get p (VStr "documents") = None
       /\ dict_get p (VStr "separator_type") = None
       /\ dict_get p (VStr "separators") = separators
       /\ forall k : string,
            k <> "documents" -> k <> "separator_type" -> k <> "separators" ->
            dict_get p (VStr k) = dict_get params (VStr k))
  /\
  (* a named language *)
  (forall t language,
     dict_get params (VStr "separator_type") = Some t ->
     py_eqb t (VStr "Text") = false ->
     ext E "Language" [t] [] = Ok language ->
     exists p,
       instantiate_textsplitter E class_object params
       = (splitter <- call_method E class_object "from_language" [] p ;;
          call_method E splitter "split_documents" [documents] [])
       /\ dict_get p (VStr "documents") = None
       /\ dict_get p (VStr "separator_type") = None
       /\ dict_get p (VStr "separators") = None
       /\ dict_get p (VStr "language") = Some language
       /\ forall k : string,
            k <> "documents" -> k <> "separator_type" -> k <> "separators" ->
            k <> "language" ->
            dict_get p (VStr k) = dict_get params (VStr k)).
Proof.
  intros Hdocs Htruthy.
  assert (Hneq : forall a k : string, k <> a -> String.eqb a k = false).
  { intros a k H. apply String.eqb_neq. congruence. }
  split.
  - intros Hmode separators Hsep.
    set (p0 := dict_del (dict_del params (VStr "documents"))
                 (VStr "separator_type")).
    assert (Hp0 : snd (dict_pop_default (dict_del params (VStr "documents"))
                         (VStr "separator_type") VNone) = p0).
    { unfold dict_pop_default, p0.
      destruct (dict_get (dict_del params (VStr "documents"))
                  (VStr "separator_type")) eqn:Hg; [reflexivity|].
      cbn [snd]. symmetry. now apply dict_del_absent. }
    assert (Htext :
              match dict_get (dict_del params (VStr "documents"))
                      (VStr "separator_type") with
              | Some separator_type => py_eqb separator_type (VStr "Text")
              | None => true
              end = true).
    { rewrite dict_get_del_str.
      change (String.eqb "documents" "separator_type") with false. cbv iota.
      destruct Hmode as [H|(t & H & Ht)]; rewrite H; auto. }
    assert (Hseps : dict_get p0 (VStr "separators")
                    = dict_get params (VStr "separators")).
    { unfold p0. rewrite !dict_get_del_str.
      change (String.eqb "separator_type" "separators") with false.
      change (String.eqb "documents" "separators") with false. reflexivity. }
    assert (Hrun : forall p,
              (match dict_get p0 (VStr "separators") with
               | Some raw => text <- unicode_unescape E raw ;;
                             Ok (dict_set p0 (VStr "separators") text)
               | None => Ok p0
               end) = Ok p ->
              instantiate_textsplitter E class_object params
              = (splitter <- construct E class_object p ;;
                 call_method E splitter "split_documents" [documents] [])).
    { intros p Hp. unfold instantiate_textsplitter. rewrite Hdocs, Htruthy.
      cbn [negb]. rewrite Htext, Hp0. cbv zeta. rewrite Hp. reflexivity. }
    rewrite Hseps in Hrun.
    destruct (dict_get params (VStr "separators")) as [raw|] eqn:Hraw.
    + destruct Hsep as (escaped & text & -> & Hun & ->).
      exists (dict_set p0 (VStr "separators") text).
      split; [apply Hrun; unfold unicode_unescape; now rewrite Hun|].
      unfold p0. rewrite !dict_get_set_str, !dict_get_del_str.
      change (String.eqb "separators" "documents") with false.
      change (String.eqb "separators" "separator_type") with false.
      change (String.eqb "separator_type" "documents") with false.
      rewrite !String.eqb_refl.
      repeat (split; [reflexivity|]).
      intros k H1 H2 H3. rewrite !dict_get_set_str, !dict_get_del_str.
      now rewrite (Hneq _ _ H1), (Hneq _ _ H2), (Hneq _ _ H3).
    + subst separators. exists p0.
      split; [now apply Hrun|].
      unfold p0. rewrite !dict_get_del_str.
      change (String.eqb "separator_type" "documents") with false.
      change (String.eqb "separator_type" "separators") with false.
      change (String.eqb "documents" "separators") with false.
      rewrite !String.eqb_refl. cbv iota.
      repeat (split; [reflexivity || exact Hraw|]).
      intros k H1 H2 H3. rewrite !dict_get_del_str.
      now rewrite (Hneq _ _ H1), (Hneq _ _ H2).
  - intros t language Ht Hnt Hlang.
    set (p0 := dict_del (dict_del params (VStr "documents"))
                 (VStr "separator_type")).
    set (p1 := dict_set p0 (VStr "language") language).
    assert (Hget : dict_get (dict_del params (VStr "documents"))
                     (VStr "separator_type") = Some t).
    { rewrite dict_get_del_str.
      change (String.eqb "documents" "separator_type") with false.
      exact Ht. }
    exists (dict_del p1 (VStr "separators")).
    split.
    + unfold instantiate_textsplitter. rewrite Hdocs, Htruthy. cbn [negb].
      rewrite Hget, Hnt. unfold dict_pop_default at 1. rewrite Hget.
      rewrite Hlang. cbn [bind]. fold p0. fold p1.
      replace (snd (dict_pop_default p1 (VStr "separators") VNone))
        with (dict_del p1 (VStr "separators")); [reflexivity|].
      unfold dict_pop_default.
      destruct (dict_get p1 (VStr "separators")) eqn:Hg; [reflexivity|].
      cbn [snd]. now apply dict_del_absent.
    + unfold p1, p0.
      rewrite !dict_get_del_str, !dict_get_set_str, !dict_get_del_str.
      change (String.eqb "separators" "documents") with false.
      change (String.eqb "separators" "separator_type") with false.
      change (String.eqb "separators" "language") with false.
      change (String.eqb "language" "documents") with false.
      change (String.eqb "language" "separator_type") with false.
      change (String.eqb "separator_type" "documents") with false.
      rewrite !String.eqb_refl. cbv iota.
      repeat (split; [reflexivity|]).
      intros k H1 H2 H3 H4.
      rewrite !dict_get_del_str, !dict_get_set_str, !dict_get_del_str.
      now rewrite (Hneq _ _ H1), (Hneq _ _ H2), (Hneq _ _ H3), (Hneq _ _ H4).
Qed.

Lemma textsplitter_modes_witness :
  let documents := VList [VObj 1 []] in
  let class_object := VObj 10 [(VStr "from_language", VFun "from_language" [])] in
  let W := scripted [("unicode_escape_decode", Ok (VStr newline))] (fun l => l) in
  let split (splitter : value) :=
    call_method W splitter "split_documents" [documents] [] in
  instantiate_textsplitter W class_object
    [(VStr "documents", documents); (VStr "separator_type", VStr "Text");
     (VStr "separators", VStr "\n"); (VStr "chunk_size", VInt 100)]
  = split (call_record 1000 class_object []
             [(VStr "separators", VStr newline); (VStr "chunk_size", VInt 100)])
  /\ instantiate_textsplitter W class_object
       [(VStr "documents", documents); (VStr "separator_type", VStr "python");
        (VStr "separators", VStr "\n"); (VStr "chunk_size", VInt 100)]
     = split (call_record 1000 (VFun "from_language" []) []
                [(VStr "chunk_size", VInt 100);
                 (VStr "language",
                  call_record 1001 (VStr "Language") [VStr "python"] [])]).
Proof.
  cbv zeta. split.
  - destruct (textsplitter_modes
                (scripted [("unicode_escape_decode", Ok (VStr newline))] (fun l => l))
                (VObj 10 [(VStr "from_language", VFun "from_language" [])])
                [(VStr "documents", VList [VObj 1 []]);
                 (VStr "separator_type", VStr "Text");
                 (VStr "separators", VStr "\n");
                 (VStr "chunk_size", VInt 100)]
                (VList [VObj 1 []]) eq_refl eq_refl) as [Htext _].
    destruct (Htext (or_intror (ex_intro _ (VStr "Text") (conj eq_refl eq_refl)))
                (Some (VStr newline))
                (ex_intro _ "\n" (ex_intro _ (VStr newline)
                   (conj eq_refl (conj eq_refl eq_refl)))))
      as (p & Hrun & _).
    rewrite Hrun. reflexivity.
  - destruct (textsplitter_modes
                (scripted [("unicode_escape_decode", Ok (VStr newline))] (fun l => l))
                (VObj 10 [(VStr "from_language", VFun "from_language" [])])
                [(VStr "documents", VList [VObj 1 []]);
                 (VStr "separator_type", VStr "python");
                 (VStr "separators", VStr "\n");
                 (VStr "chunk_size", VInt 100)]
                (VList [VObj 1 []]) eq_refl eq_refl) as [_ Hlang].
    destruct (Hlang (VStr "python")
                (call_record 1001 (VStr "Language") [VStr "python"] [])
                eq_refl eq_refl eq_refl) as (p & Hrun & _).
    rewrite Hrun. reflexivity.
Defined.
